(** * Multi-tenant SaaS isolation core: a shallow embedding of the handlers

    The development follows the Python sources module by module:
    - [PyStr]: the [str] methods the handlers call ([upper], [in], [replace],
      [rstrip], [startswith], slicing);
    - [PyJson]: what [json.loads] gives and the operations the handlers
      apply to it ([in], [.get], subscription);
    - [TenantContextLayer]: application/layers/tenant-context.py;
    - [TenantOnboarding]: application/lambda-functions/tenant-onboarding.py;
    - [OrderHandler]: order_handler.py (DynamoDB flavour of the order service);
    - [OrderService]: application/lambda-functions/order_service.py (SQL flavour);
    - [TenantHandler]: tenant_handler.py (tier tables, tenant registration);
    - [TenantUtils], [ProductHandler]: the limit check consumed by
      product_handler.py;
    - [Runs]: sequences of requests on one store;
    - [Spec]: the tables and rules of the specification the code is compared
      with; [Examples], [MoreExamples]: concrete requests and stores.

    The data stores are state passed in and out: a DynamoDB table is a finite
    map from primary keys to items, the SQL orders relation a list of rows,
    the SNS topic the list of messages it took.  Calls to DynamoDB are taken
    to succeed unless a definition says otherwise; the publish to the topic,
    the parsing of a request body and the statement that sets up a database
    session may fail.

    Python dictionaries are finite maps ([gmap]), [None] is [option], raised
    exceptions are the left summand of a sum type.  Strings are [string];
    characters outside ASCII are carried unchanged by [PyStr.upper]. *)

From Stdlib Require Import ZArith Ascii.
From stdpp Require Import base option list gmap strings fin_maps.

Local Open Scope Z_scope.

(** ** Python exceptions and results *)

Inductive exn : Type :=
  | ValueError (msg : string)
  | AttributeError (msg : string)
  | DecodeError (msg : string)
  | ClientError (msg : string)
  | TypeError (msg : string)
  | KeyError (msg : string).

Definition result (A : Type) : Type := exn + A.

Definition raise {A : Type} (e : exn) : result A := inl e.
Definition ret {A : Type} (a : A) : result A := inr a.

(** [str(e)] of an exception. *)
Definition exn_str (e : exn) : string :=
  match e with
  | ValueError m | AttributeError m | DecodeError m | ClientError m
  | TypeError m | KeyError m => m
  end.

(** Truthiness of an optional string ([if x:] on [None] or [str]). *)
Definition truthy (o : option string) : bool :=
  match o with
  | Some (String _ _) => true
  | _ => false
  end.

(** [a or b] on optional strings. *)
Definition py_or (a b : option string) : option string :=
  if truthy a then a else b.

(** [f"{x}"] of an optional string: [None] prints as the word None. *)
Definition fmt (o : option string) : string := default "None" o.

(** ** The [str] methods used by the handlers *)

Module PyStr.

Definition upper_char (c : ascii) : ascii :=
  let n := nat_of_ascii c in
  if (97 <=? n)%nat && (n <=? 122)%nat then ascii_of_nat (n - 32) else c.

(** [s.upper()] *)
Fixpoint upper (s : string) : string :=
  match s with
  | "" => ""
  | String c s' => String (upper_char c) (upper s')
  end.

(** [s.startswith(p)] *)
Fixpoint startswith (p s : string) : bool :=
  match p, s with
  | "", _ => true
  | String _ _, "" => false
  | String a p', String b s' => if decide (a = b) then startswith p' s' else false
  end.

(** [sub in s] *)
Fixpoint contains (sub s : string) : bool :=
  startswith sub s ||
  match s with
  | "" => false
  | String _ s' => contains sub s'
  end.

(** [s[n:]] for [0 <= n] *)
Fixpoint drop (n : nat) (s : string) : string :=
  match n, s with
  | O, _ => s
  | S _, "" => ""
  | S n', String _ s' => drop n' s'
  end.

(** Left-to-right scan of [s.replace(old, new)] for a non-empty [old];
    [skip] counts the characters of a match still to be consumed. *)
Fixpoint replace_go (old new : string) (skip : nat) (s : string) : string :=
  match s with
  | "" => ""
  | String c s' =>
      match skip with
      | S k => replace_go old new k s'
      | O =>
          if startswith old s
          then new +:+ replace_go old new (String.length old - 1) s'
          else String c (replace_go old new 0 s')
      end
  end.

(** An empty [old] matches between every two characters and at both ends. *)
Fixpoint replace_empty (new s : string) : string :=
  match s with
  | "" => new
  | String c s' => new +:+ String c (replace_empty new s')
  end.

(** [s.replace(old, new)] *)
Definition replace (old new s : string) : string :=
  match old with
  | "" => replace_empty new s
  | String _ _ => replace_go old new 0 s
  end.

(** [c in chars] for a character *)
Fixpoint mem_char (c : ascii) (chars : string) : bool :=
  match chars with
  | "" => false
  | String d chars' => if decide (c = d) then true else mem_char c chars'
  end.

(** [s.rstrip(chars)] *)
Fixpoint rstrip (chars s : string) : string :=
  match s with
  | "" => ""
  | String c s' =>
      match rstrip chars s' with
      | "" => if mem_char c chars then "" else String c ""
      | r => String c r
      end
  end.

(** [s.count(sub)] for a non-empty [sub]: the matches counted from left to
    right, none overlapping; [skip] as in [replace_go]. *)
Fixpoint count_go (sub : string) (skip : nat) (s : string) : nat :=
  match s with
  | "" => 0
  | String c s' =>
      match skip with
      | S k => count_go sub k s'
      | O =>
          if startswith sub s
          then S (count_go sub (String.length sub - 1) s')
          else count_go sub 0 s'
      end
  end.

(** [s.count(sub)]; an empty [sub] is found at every position and at the end. *)
Definition count (sub s : string) : nat :=
  match sub with
  | "" => S (String.length s)
  | String _ _ => count_go sub 0 s
  end.

(** The line feed of a multi-line literal. *)
Definition nl : string := String (ascii_of_nat 10) "".

(** [sep.join(parts)] *)
Fixpoint join (sep : string) (parts : list string) : string :=
  match parts with
  | [] => ""
  | [p] => p
  | p :: rest => p +:+ sep +:+ join sep rest
  end.

End PyStr.

(** ** The values of [json.loads], as far as the handlers look at them *)

Module PyJson.

(** A member of a JSON object: a string, or any other value, of which the
    handlers use the truth value only. *)
Inductive Value : Type :=
  | VString (s : string)
  | VOther (truth : bool).

(** A parsed document: an object; an array or a string, on which [x in body]
    is defined ([holds] answers it); a number, [true], [false] or [null]. *)
Inductive Json : Type :=
  | Object (members : gmap string Value)
  | Sequence (holds : string -> bool)
  | Scalar.

(** The [body] entry of an event: no such key, the value [None] (a request
    without a body), or a text. *)
Inductive RawBody : Type :=
  | NoBody
  | NullBody
  | TextBody (text : string).

(** [key in body] *)
Definition has_key (key : string) (body : Json) : result bool :=
  match body with
  | Object members => ret (bool_decide (is_Some (members !! key)))
  | Sequence holds => ret (holds key)
  | Scalar => raise (TypeError "argument is not iterable")
  end.

(** [body[key]] for a string [key] *)
Definition subscript (key : string) (body : Json) : result Value :=
  match body with
  | Object members =>
      match members !! key with
      | Some v => ret v
      | None => raise (KeyError key)
      end
  | Sequence _ => raise (TypeError "indices must be integers")
  | Scalar => raise (TypeError "object is not subscriptable")
  end.

(** [body.get(key)] *)
Definition get (key : string) (body : Json) : result (option Value) :=
  match body with
  | Object members => ret (members !! key)
  | _ => raise (AttributeError "object has no attribute 'get'")
  end.

(** Truthiness of what [body.get(key)] gave. *)
Definition value_truthy (v : option Value) : bool :=
  match v with
  | Some (VString s) => truthy (Some s)
  | Some (VOther truth) => truth
  | None => false
  end.

End PyJson.

(** ** application/layers/tenant-context.py *)

Module TenantContextLayer.

(** [tenant_id] and [user_id] are whatever [dict.get] returned, hence
    optional; the tier always has the default [pool] behind it. *)
Record TenantContext : Type := mkTenantContext {
  tenant_id : option string;
  tenant_tier : string;
  user_id : option string
}.

(** The API Gateway event, as far as the resolver reads it. *)
Record Authorizer : Type := mkAuthorizer {
  claims : option (gmap string string)
}.

Record RequestContext : Type := mkRequestContext {
  authorizer : option Authorizer
}.

Record Event : Type := mkEvent {
  requestContext : option RequestContext;
  headers : option (gmap string string)
}.

(** [event.get('requestContext', {}).get('authorizer', {})] *)
Definition event_authorizer (event : Event) : Authorizer :=
  default (mkAuthorizer None)
          (authorizer (default (mkRequestContext None) (requestContext event))).

(** [event.get('headers', {})] *)
Definition event_headers (event : Event) : gmap string string :=
  default ∅ (headers event).

Definition extract_token_from_header (event : Event) : option string :=
  let headers := event_headers event in
  let auth_header := py_or (headers !! "Authorization") (headers !! "authorization") in
  match auth_header with
  | Some h =>
      if truthy auth_header && PyStr.startswith "Bearer " h
      then Some (PyStr.drop 7 h)
      else None
  | None => None
  end.

Record Response : Type := mkResponse {
  statusCode : Z;
  error : string;
  message : string
}.

Section Resolver.

(** [jwt.decode(token, options={"verify_signature": False})]: the payload
    of the token, read without any key; [inl] when the library raises. *)
Variable jwt_decode : string -> result (gmap string string).

Definition extract_from_jwt (token : string) : result TenantContext :=
  match jwt_decode token with
  | inl e => raise e
  | inr decoded =>
      ret (mkTenantContext (decoded !! "custom:tenant_id")
                           (default "pool" (decoded !! "custom:tenant_tier"))
                           (decoded !! "sub"))
  end.

Definition extract_tenant_context (event : Event) : result TenantContext :=
  let authorizer := event_authorizer event in
  match claims authorizer with
  | Some claims =>
      ret (mkTenantContext (claims !! "custom:tenant_id")
                           (default "pool" (claims !! "custom:tenant_tier"))
                           (claims !! "sub"))
  | None =>
      let token := extract_token_from_header event in
      if truthy token then extract_from_jwt (default "" token)
      else
        let headers := event_headers event in
        let tenant_id := py_or (headers !! "X-Tenant-Id") (headers !! "x-tenant-id") in
        if truthy tenant_id
        then ret (mkTenantContext tenant_id
                                  (default "pool" (headers !! "X-Tenant-Tier"))
                                  None)
        else raise (ValueError "No tenant context found in request")
  end.

(** The decorator: [ValueError] becomes 401, any other exception 500. *)
Definition with_tenant_context
           (func : Event -> TenantContext -> result Response)
           (event : Event) : Response :=
  let run :=
    match extract_tenant_context event with
    | inl e => raise e
    | inr tenant_context => func event tenant_context
    end in
  match run with
  | inr r => r
  | inl (ValueError m) => mkResponse 401 "Unauthorized" m
  | inl e => mkResponse 500 "Internal Server Error" (exn_str e)
  end.

End Resolver.

(** The dictionary returned by [get_database_connection_params]. *)
Record DbParams : Type := mkDbParams {
  database : option string;
  schema : string;
  row_security_context : option string
}.

(** [tenant_id.replace('-', '_')]; [None] has no such method. *)
Definition sanitize (tenant_id : option string) : result string :=
  match tenant_id with
  | Some t => ret (PyStr.replace "-" "_" t)
  | None => raise (AttributeError "'NoneType' object has no attribute 'replace'")
  end.

(** [environ] is [os.environ]. *)
Definition get_database_connection_params
           (environ : gmap string string) (tenant_context : TenantContext)
  : result DbParams :=
  if decide (tenant_tier tenant_context = "pool") then
    ret (mkDbParams (environ !! "POOL_DATABASE") "public" (tenant_id tenant_context))
  else if decide (tenant_tier tenant_context = "bridge") then
    match sanitize (tenant_id tenant_context) with
    | inl e => raise e
    | inr s =>
        let schema_name := "tenant_" +:+ s in
        ret (mkDbParams (environ !! "BRIDGE_DATABASE") schema_name None)
    end
  else if decide (tenant_tier tenant_context = "silo") then
    ret (mkDbParams (Some ("tenant_" +:+ fmt (tenant_id tenant_context))) "public" None)
  else raise (ValueError ("Unknown tenant tier: " +:+ tenant_tier tenant_context)).

(** The tenant predicate spliced into pool-tier queries. *)
Definition tenant_predicate (tenant_context : TenantContext) : string :=
  "tenant_id = '" +:+ fmt (tenant_id tenant_context) +:+ "'".

Definition apply_tenant_filter (query : string) (tenant_context : TenantContext)
  : string :=
  if decide (tenant_tier tenant_context = "pool") then
    if PyStr.contains "WHERE" (PyStr.upper query)
    then PyStr.replace "WHERE"
                       ("WHERE " +:+ tenant_predicate tenant_context +:+ " AND") query
    else PyStr.rstrip ";" query +:+ " WHERE " +:+ tenant_predicate tenant_context +:+ ";"
  else query.

Definition validate_tenant_access
           (tenant_context : TenantContext) (resource_tenant_id : option string) : bool :=
  bool_decide (tenant_id tenant_context = resource_tenant_id).

Definition get_s3_prefix (tenant_context : TenantContext) : string :=
  "tenants/" +:+ fmt (tenant_id tenant_context) +:+ "/".

End TenantContextLayer.

(** ** application/lambda-functions/tenant-onboarding.py *)

Module TenantOnboarding.

(** The schema identifier spliced into every statement of
    [provision_bridge_tenant]: [tenant_{tenant_id.replace('-', '_')}]. *)
Definition bridge_schema (tenant_id : string) : string :=
  "tenant_" +:+ PyStr.replace "-" "_" tenant_id.

(** The first statement issued by [provision_bridge_tenant]. *)
Definition create_schema_sql (tenant_id : string) : string :=
  "CREATE SCHEMA IF NOT EXISTS " +:+ bridge_schema tenant_id +:+ ";".

Import PyStr (nl).

(** The statement of [provision_pool_tenant]. *)
Definition pool_tenant_sql (tenant_id : string) : string :=
  nl +:+ "    -- Insert tenant record" +:+
  nl +:+ "    INSERT INTO tenants (tenant_id, created_at)" +:+
  nl +:+ "    VALUES ('" +:+ tenant_id +:+ "', NOW())" +:+
  nl +:+ "    ON CONFLICT (tenant_id) DO NOTHING;" +:+
  nl +:+ "    ".

(** The statements of [provision_bridge_tenant], sent as one text. *)
Definition bridge_tenant_sql (tenant_id : string) : string :=
  let schema := bridge_schema tenant_id in
  nl +:+ "    -- Create tenant schema" +:+
  nl +:+ "    CREATE SCHEMA IF NOT EXISTS " +:+ schema +:+ ";" +:+
  nl +:+ "    " +:+
  nl +:+ "    -- Create tables in tenant schema" +:+
  nl +:+ "    CREATE TABLE IF NOT EXISTS " +:+ schema +:+ ".users (" +:+
  nl +:+ "        user_id UUID PRIMARY KEY DEFAULT gen_random_uuid()," +:+
  nl +:+ "        email VARCHAR(255) UNIQUE NOT NULL," +:+
  nl +:+ "        name VARCHAR(255)," +:+
  nl +:+ "        created_at TIMESTAMP DEFAULT NOW()" +:+
  nl +:+ "    );" +:+
  nl +:+ "    " +:+
  nl +:+ "    CREATE TABLE IF NOT EXISTS " +:+ schema +:+ ".products (" +:+
  nl +:+ "        product_id UUID PRIMARY KEY DEFAULT gen_random_uuid()," +:+
  nl +:+ "        name VARCHAR(255) NOT NULL," +:+
  nl +:+ "        description TEXT," +:+
  nl +:+ "        price DECIMAL(10, 2)," +:+
  nl +:+ "        created_at TIMESTAMP DEFAULT NOW()" +:+
  nl +:+ "    );" +:+
  nl +:+ "    " +:+
  nl +:+ "    CREATE TABLE IF NOT EXISTS " +:+ schema +:+ ".orders (" +:+
  nl +:+ "        order_id UUID PRIMARY KEY DEFAULT gen_random_uuid()," +:+
  nl +:+ "        user_id UUID REFERENCES " +:+ schema +:+ ".users(user_id)," +:+
  nl +:+ "        total_amount DECIMAL(10, 2)," +:+
  nl +:+ "        status VARCHAR(50)," +:+
  nl +:+ "        created_at TIMESTAMP DEFAULT NOW()" +:+
  nl +:+ "    );" +:+
  nl +:+ "    ".

Section Onboarding.

(** The type of a [settings] object; the handler stores it and never looks
    inside.  [no_settings] is the empty dictionary. *)
Variable Settings : Type.
Variable no_settings : Settings.

(** The user name Cognito reports for a user created under an e-mail. *)
Variable cognito_username : string -> string.

(** An attribute value of a tenant item. *)
Inductive Attr : Type :=
  | AStr (s : string)
  | ASettings (x : Settings).

(** The services the handler talks to: the tenants table, the statements
    sent to the database, the users of the pool with their
    [custom:tenant_id]. *)
Record Cloud : Type := mkCloud {
  tenants : gmap string (gmap string Attr);
  executed_sql : list string;
  users : gmap string string
}.

(** The parsed request body: its string members and its [settings]. *)
Record Body : Type := mkBody {
  fields : gmap string string;
  settings : option Settings
}.

Inductive AdminUser : Type :=
  | CreatedUser (username user_sub : string)
  | ExistingUser (username : string).

Inductive Answer : Type :=
  | Failure (error : string) (details : option string)
  | Onboarded (message tenant_id : string) (admin_user : AdminUser).

Record Response : Type := mkResponse {
  statusCode : Z;
  body : Answer
}.

Definition create_response (status_code : Z) (body : Answer) : Response :=
  mkResponse status_code body.

Definition save_tenant_metadata (tenant_id : string) (tenant_data : gmap string Attr)
           (c : Cloud) : Cloud :=
  mkCloud (<[tenant_id := tenant_data]> (tenants c)) (executed_sql c) (users c).

Definition execute_sql (sql : string) (c : Cloud) : Cloud :=
  mkCloud (tenants c) (executed_sql c ++ [sql]) (users c).

Definition provision_pool_tenant (tenant_id : string) (c : Cloud) : Cloud :=
  execute_sql (pool_tenant_sql tenant_id) c.

Definition provision_bridge_tenant (tenant_id : string) (c : Cloud) : Cloud :=
  execute_sql (bridge_tenant_sql tenant_id) c.

(** The call that would start the provisioning is commented out. *)
Definition provision_silo_tenant (tenant_id : string) (c : Cloud) : Cloud := c.

(** [UsernameExistsException] is caught: the user that exists is left as
    it is. *)
Definition create_admin_user (tenant_id email : string) (c : Cloud)
  : Cloud * AdminUser :=
  match users c !! email with
  | Some _ => (c, ExistingUser email)
  | None =>
      (mkCloud (tenants c) (executed_sql c) (<[email := tenant_id]> (users c)),
       CreatedUser email (cognito_username email))
  end.

(** [update_item] on the tenants table: an upsert of two attributes. *)
Definition update_tenant_status (tenant_id status now : string) (c : Cloud) : Cloud :=
  let old := default {["tenant_id" := AStr tenant_id]} (tenants c !! tenant_id) in
  let new := <["updated_at" := AStr now]> (<["status" := AStr status]> old) in
  mkCloud (<[tenant_id := new]> (tenants c)) (executed_sql c) (users c).

Definition required_fields : list string := ["company_name"; "admin_email"; "tier"].

(** [new_id] is the [uuid4] drawn, [created] and [updated] the two clock
    readings. *)
Definition lambda_handler (new_id created updated : string) (body : Body) (c : Cloud)
  : Cloud * Response :=
  let missing_fields :=
    filter (fun field => fields body !! field = None) required_fields in
  if negb (bool_decide (missing_fields = [])) then
    (c, create_response 400 (Failure
          ("Missing required fields: " +:+ PyStr.join ", " missing_fields) None))
  else
    let company_name := default "" (fields body !! "company_name") in
    let admin_email := default "" (fields body !! "admin_email") in
    let tier := default "" (fields body !! "tier") in
    let tenant_id := new_id in
    let tenant_data : gmap string Attr :=
      <["tenant_id" := AStr tenant_id]>
      (<["company_name" := AStr company_name]>
      (<["admin_email" := AStr admin_email]>
      (<["tier" := AStr tier]>
      (<["status" := AStr "provisioning"]>
      (<["created_at" := AStr created]>
      (<["settings" := ASettings (default no_settings (settings body))]> ∅)))))) in
    let c := save_tenant_metadata tenant_id tenant_data c in
    let provisioned : result Cloud :=
      if decide (tier = "pool") then ret (provision_pool_tenant tenant_id c)
      else if decide (tier = "bridge") then ret (provision_bridge_tenant tenant_id c)
      else if decide (tier = "silo") then ret (provision_silo_tenant tenant_id c)
      else raise (ValueError ("Invalid tier: " +:+ tier)) in
    match provisioned with
    | inl e => (c, create_response 500 (Failure "Failed to onboard tenant"
                                                    (Some (exn_str e))))
    | inr c =>
        let '(c, admin_user) := create_admin_user tenant_id admin_email c in
        let c := update_tenant_status tenant_id "active" updated c in
        (c, create_response 201
              (Onboarded "Tenant onboarded successfully" tenant_id admin_user))
    end.

End Onboarding.

End TenantOnboarding.

(** ** order_handler.py *)

Module OrderHandler.

(** Modelled from the spec: the [TenantContext] of tenant_utils (imported by
    this handler, not among the sources) that [tenant_aware_handler] stores
    in the event.  Section 3 makes its tenant id an opaque string; it is the
    only field this handler reads. *)
Record TenantContext : Type := mkTenantContext {
  tenant_id : string
}.

(** A DynamoDB item: attribute name to value. *)
Abbreviation Item := (gmap string string).

(** A primary key: [{'tenant_id': t, 'order_id': o}] under the pool model,
    [{'order_id': o}] otherwise. *)
Abbreviation Key := (option string * string)%type.

Abbreviation Table := (gmap Key Item).

Definition key_attributes (key : Key) : Item :=
  match key with
  | (Some t, o) => <["tenant_id" := t]> {["order_id" := o]}
  | (None, o) => {["order_id" := o]}
  end.

(** [table.update_item(Key=key, UpdateExpression='SET #status = :status,
    updated_at = :updated_at', ReturnValues='ALL_NEW')]: an upsert that is
    given no [ConditionExpression]; returns the table and the new item. *)
Definition update_item (key : Key) (status updated_at : string) (table : Table)
  : Table * Item :=
  let old := default (key_attributes key) (table !! key) in
  let new := <["updated_at" := updated_at]> (<["status" := status]> old) in
  (<[key := new]> table, new).

Inductive Body : Type :=
  | ErrorBody (error : string)
  | ItemBody (order : Item)
  | OrderBody (message : string) (order : Item).

Record Response : Type := mkResponse {
  statusCode : Z;
  body : Body
}.

(** Modelled from the spec: [create_response] of tenant_utils, not among the
    sources.  Section 6: a response is a status code, headers and a body;
    the headers play no part here. *)
Definition create_response (status_code : Z) (body : Body) : Response :=
  mkResponse status_code body.

(** The message handed to [sns_client.publish]. *)
Record OrderEvent : Type := mkOrderEvent {
  ev_tenant_id : string;
  ev_order_id : string;
  ev_event_type : string;
  ev_timestamp : string
}.

(** What a request can change: the orders table and the topic. *)
Record World : Type := mkWorld {
  table : Table;
  topic : list OrderEvent
}.

(** The request, after [json.loads] of the body. *)
Record Request : Type := mkRequest {
  path_id : option string;
  body_status : option string
}.

(** The stored status of the order under [key]. *)
Definition stored_status (key : Key) (t : Table) : option string :=
  t !! key ≫= (.!! "status").

Definition valid_transitions : gmap string (list string) :=
  <["pending" := ["confirmed"; "cancelled"] ]>
  (<["confirmed" := ["shipped"; "cancelled"] ]>
  (<["shipped" := ["delivered"; "cancelled"] ]>
  (<["delivered" := [] ]>
  (<["cancelled" := [] ]> ∅)))).

(** [current] is [current_order.get('status')], [None] when the item has
    no such attribute. *)
Definition is_valid_status_transition (current : option string) (new : string) : bool :=
  bool_decide (new ∈ default [] (current ≫= (valid_transitions !!.)) ).

Definition valid_statuses : list string :=
  ["pending"; "confirmed"; "shipped"; "delivered"; "cancelled"].

Section Handler.

(** Module globals read from the environment. *)
Variable ISOLATION_MODEL : string.
Variable SNS_TOPIC_ARN : option string.

(** Whether [sns_client.publish] accepts a message ([false]: it raises). *)
Variable sns_accepts : OrderEvent -> bool.

(** [datetime.utcnow().isoformat()] at the update and at the publish. *)
Variable now_update now_publish : string.

Definition publish_order_event
           (tenant_context : TenantContext) (order_id event_type : string)
           (topic : list OrderEvent) : list OrderEvent :=
  if negb (truthy SNS_TOPIC_ARN) then topic
  else
    let message :=
      mkOrderEvent (tenant_id tenant_context) order_id event_type now_publish in
    if sns_accepts message then topic ++ [message]
    else topic.

Definition order_key (tenant_context : TenantContext) (order_id : string) : Key :=
  if decide (ISOLATION_MODEL = "pool")
  then (Some (tenant_id tenant_context), order_id)
  else (None, order_id).

(** [enforce_tenant_isolation] of tenant_utils, called on the tenant id
    stored in the item; [inl] when it raises. *)
Variable enforce_tenant_isolation : TenantContext -> option string -> result unit.

Definition get_order
           (tenant_context : TenantContext) (path_id : option string) (table : Table)
  : Response :=
  if negb (truthy path_id) then
    create_response 400 (ErrorBody "order_id is required")
  else
    let order_id := default "" path_id in
    match table !! order_key tenant_context order_id with
    | None => create_response 404 (ErrorBody "Order not found")
    | Some order =>
        let checked :=
          if decide (ISOLATION_MODEL = "pool")
          then enforce_tenant_isolation tenant_context (order !! "tenant_id")
          else ret () in
        match checked with
        | inl e => create_response 500 (ErrorBody "Failed to get order")
        | inr _ => create_response 200 (ItemBody order)
        end
    end.

(** Outcome of the first half of [update_order], up to and including the
    transition check on the item that [get_item] returned. *)
Inductive ReadOutcome : Type :=
  | Reject (r : Response)
  | Proceed (order_id : string) (key : Key) (new_status : string).

Definition update_order_read
           (tenant_context : TenantContext) (req : Request) (table : Table)
  : ReadOutcome :=
  if negb (truthy (path_id req)) then
    Reject (create_response 400 (ErrorBody "order_id is required"))
  else
    let order_id := default "" (path_id req) in
    if negb (truthy (body_status req)) then
      Reject (create_response 400 (ErrorBody "status is required"))
    else
      let new_status := default "" (body_status req) in
      if negb (bool_decide (new_status ∈ valid_statuses)) then
        Reject (create_response 400 (ErrorBody
          "Invalid status. Must be one of: pending, confirmed, shipped, delivered, cancelled"))
      else
        let key := order_key tenant_context order_id in
        match table !! key with
        | None => Reject (create_response 404 (ErrorBody "Order not found"))
        | Some current_order =>
            let current_status := current_order !! "status" in
            if negb (is_valid_status_transition current_status new_status) then
              Reject (create_response 400 (ErrorBody
                ("Cannot transition from " +:+ fmt current_status
                   +:+ " to " +:+ new_status)))
            else Proceed order_id key new_status
        end.

(** The second half: [update_item], then the event, then the response. *)
Definition update_order_write
           (tenant_context : TenantContext) (order_id : string) (key : Key)
           (new_status : string) (w : World) : World * Response :=
  let '(table', attributes) := update_item key new_status now_update (table w) in
  let topic' :=
    publish_order_event tenant_context order_id
                        ("ORDER_" +:+ PyStr.upper new_status) (topic w) in
  (mkWorld table' topic',
   create_response 200 (OrderBody "Order updated successfully" attributes)).

(** [update_order] when nothing else touches the table in between. *)
Definition update_order
           (tenant_context : TenantContext) (req : Request) (w : World)
  : World * Response :=
  match update_order_read tenant_context req (table w) with
  | Reject r => (w, r)
  | Proceed order_id key new_status =>
      update_order_write tenant_context order_id key new_status w
  end.

(** Two requests on one table whose reads both happen before either
    write: the schedule read1, read2, write1, write2. *)
Definition update_order_interleaved
           (ctx1 : TenantContext) (req1 : Request)
           (ctx2 : TenantContext) (req2 : Request) (w : World)
  : World * Response * Response :=
  let r1 := update_order_read ctx1 req1 (table w) in
  let r2 := update_order_read ctx2 req2 (table w) in
  let '(w1, resp1) :=
    match r1 with
    | Reject r => (w, r)
    | Proceed o k s => update_order_write ctx1 o k s w
    end in
  let '(w2, resp2) :=
    match r2 with
    | Reject r => (w1, r)
    | Proceed o k s => update_order_write ctx2 o k s w1
    end in
  (w2, resp1, resp2).

(** The [pathParameters] entry of the event: no such key (the default [{}]
    is used), the value [None], or a dictionary. *)
Inductive PathParameters : Type :=
  | NoPathParameters
  | NullPathParameters
  | PathParams (params : gmap string string).

(** The event [tenant_aware_handler] hands to [update_order], before
    anything is parsed. *)
Record Event : Type := mkEvent {
  event_pathParameters : PathParameters;
  event_body : PyJson.RawBody
}.

(** [json.loads] on the text of the body; [inl] when it raises. *)
Variable json_loads : string -> result PyJson.Json.

(** The answer of the [except Exception] branch. *)
Definition update_order_failed : Response :=
  create_response 500 (ErrorBody "Failed to update order").

(** [update_order] from the event on.  Reading the path parameters and
    parsing the body can raise, which the handler answers with 500; after
    that the request is the parsed one of [update_order] above.  A status
    that is not a string is refused as absent when it is falsy and as
    unknown when it is truthy. *)
Definition update_order_event
           (tenant_context : TenantContext) (event : Event) (w : World)
  : World * Response :=
  match event_pathParameters event with
  | NullPathParameters => (w, update_order_failed)
  | path_params =>
      let order_id :=
        match path_params with
        | PathParams params => params !! "id"
        | _ => None
        end in
      if negb (truthy order_id) then
        (w, create_response 400 (ErrorBody "order_id is required"))
      else
        match event_body event with
        | PyJson.NoBody | PyJson.NullBody => (w, update_order_failed)
        | PyJson.TextBody text =>
            match json_loads text with
            | inl e => (w, update_order_failed)
            | inr body =>
                match PyJson.get "status" body with
                | inl e => (w, update_order_failed)
                | inr new_status =>
                    if negb (PyJson.value_truthy new_status) then
                      (w, create_response 400 (ErrorBody "status is required"))
                    else
                      match new_status with
                      | Some (PyJson.VString s) =>
                          update_order tenant_context (mkRequest order_id (Some s)) w
                      | _ =>
                          (w, create_response 400 (ErrorBody
                             "Invalid status. Must be one of: pending, confirmed, shipped, delivered, cancelled"))
                      end
                end
            end
        end
  end.

End Handler.

End OrderHandler.

(** ** application/lambda-functions/order_service.py *)

Module OrderService.

Import TenantContextLayer.

(** A row of the [orders] relation seen through the tenant's connection;
    the [tenant_id] column exists in the shared (pool) table only. *)
Record OrderRow : Type := mkOrderRow {
  order_id : string;
  row_tenant_id : option string;
  order_number : string;
  status : string;
  updated_at : string
}.

Inductive Body : Type :=
  | ErrorBody (error : string)
  | StatusBody (message : string) (order : OrderRow).

Record Response : Type := mkResponse {
  statusCode : Z;
  body : Body
}.

Definition create_response (status_code : Z) (body : Body) : Response :=
  mkResponse status_code body.

Definition valid_statuses : list string :=
  ["pending"; "processing"; "shipped"; "delivered"; "cancelled"].

(** SQL equality of a column with a bound parameter: never true on NULL. *)
Definition sql_eq (column param : option string) : bool :=
  match column, param with
  | Some a, Some b => bool_decide (a = b)
  | _, _ => false
  end.

(** The [WHERE] clause of the statement built by [update_order_status]:
    [order_id = %s], and [AND tenant_id = %s] for a pool-tier context. *)
Definition update_where (order_id' : string) (tenant_context : TenantContext)
           (row : OrderRow) : bool :=
  bool_decide (order_id row = order_id') &&
  (if decide (tenant_tier tenant_context = "pool")
   then sql_eq (row_tenant_id row) (tenant_id tenant_context)
   else true).

Section Handler.

(** [NOW()] of the statement. *)
Variable now : string.

Definition set_status (new_status : string) (row : OrderRow) : OrderRow :=
  mkOrderRow (order_id row) (row_tenant_id row) (order_number row) new_status now.

(** [UPDATE orders SET status = %s, updated_at = NOW() WHERE ... RETURNING ...]:
    the relation afterwards and the returned rows. *)
Definition execute_update (new_status order_id' : string)
           (tenant_context : TenantContext) (orders : list OrderRow)
  : list OrderRow * list OrderRow :=
  let hit := update_where order_id' tenant_context in
  (map (fun row => if hit row then set_status new_status row else row) orders,
   map (set_status new_status) (filter (fun row => hit row = true) orders)).

(** The part of [update_order_status] after the body is parsed, on a
    connection that is open and set up: [body_status] is the [status] key of
    the parsed body.  The whole function, from the event on, is
    [update_order_status_event] below. *)
Definition update_order_status
           (order_id' : string) (body_status : option string)
           (tenant_context : TenantContext) (orders : list OrderRow)
  : list OrderRow * Response :=
  match body_status with
  | None => (orders, create_response 400 (ErrorBody "Missing status field"))
  | Some new_status =>
      if negb (bool_decide (new_status ∈ valid_statuses)) then
        (orders, create_response 400 (ErrorBody
          "Invalid status. Must be one of: pending, processing, shipped, delivered, cancelled"))
      else
        let '(orders', returned) :=
          execute_update new_status order_id' tenant_context orders in
        match returned with
        | [] => (orders', create_response 404 (ErrorBody "Order not found"))
        | row :: _ =>
            (orders', create_response 200 (StatusBody "Order status updated" row))
        end
  end.

End Handler.

(** A value bound to a placeholder of a statement. *)
Inductive Param : Type :=
  | PStr (s : option string)
  | PInt (n : Z).

Import PyStr (nl).

(** The text [list_orders] starts from, line by line. *)
Definition list_orders_select : string :=
  nl +:+ "        SELECT o.order_id, o.user_id, o.order_number, o.total_amount, " +:+
  nl +:+ "               o.status, o.created_at, u.email, u.name" +:+
  nl +:+ "        FROM orders o" +:+
  nl +:+ "        JOIN users u ON o.user_id = u.user_id" +:+
  nl +:+ "        WHERE 1=1" +:+
  nl +:+ "    ".

(** The statement and the parameters [list_orders] hands to
    [cursor.execute]; [limit] and [offset] are the values [int(...)] gave for
    the query parameters, [status] and [user_id] the two optional filters. *)
Definition list_orders_statement
           (limit offset : Z) (status user_id : option string)
           (tenant_context : TenantContext) : string * list Param :=
  let query := list_orders_select in
  let params := [] in
  let '(query, params) :=
    if decide (tenant_tier tenant_context = "pool")
    then (query +:+ " AND o.tenant_id = %s",
          params ++ [PStr (tenant_id tenant_context)])
    else (query, params) in
  let '(query, params) :=
    if truthy status
    then (query +:+ " AND o.status = %s", params ++ [PStr status])
    else (query, params) in
  let '(query, params) :=
    if truthy user_id
    then (query +:+ " AND o.user_id = %s", params ++ [PStr user_id])
    else (query, params) in
  (query +:+ " ORDER BY o.created_at DESC LIMIT %s OFFSET %s",
   params ++ [PInt limit; PInt offset]).

(** The text [get_order] starts from. *)
Definition get_order_select : string :=
  nl +:+ "        SELECT o.order_id, o.user_id, o.order_number, o.total_amount, " +:+
  nl +:+ "               o.tax_amount, o.shipping_amount, o.status, o.created_at," +:+
  nl +:+ "               u.email, u.name" +:+
  nl +:+ "        FROM orders o" +:+
  nl +:+ "        JOIN users u ON o.user_id = u.user_id" +:+
  nl +:+ "        WHERE o.order_id = %s" +:+
  nl +:+ "    ".

(** The first statement of [get_order] and its parameters. *)
Definition get_order_statement (order_id' : string) (tenant_context : TenantContext)
  : string * list Param :=
  let query := get_order_select in
  let params := [PStr (Some order_id')] in
  if decide (tenant_tier tenant_context = "pool")
  then (query +:+ " AND o.tenant_id = %s", params ++ [PStr (tenant_id tenant_context)])
  else (query, params).

(** The text of the second statement of [get_order], the items of the order. *)
Definition order_items_select : string :=
  nl +:+ "            SELECT oi.order_item_id, oi.product_id, oi.quantity, " +:+
  nl +:+ "                   oi.unit_price, oi.subtotal, p.name" +:+
  nl +:+ "            FROM order_items oi" +:+
  nl +:+ "            JOIN products p ON oi.product_id = p.product_id" +:+
  nl +:+ "            WHERE oi.order_id = %s" +:+
  nl +:+ "        ".

Definition order_items_statement (order_id' : string) (tenant_context : TenantContext)
  : string * list Param :=
  let items_query := order_items_select in
  let items_params := [PStr (Some order_id')] in
  if decide (tenant_tier tenant_context = "pool")
  then (items_query +:+ " AND oi.tenant_id = %s",
        items_params ++ [PStr (tenant_id tenant_context)])
  else (items_query, items_params).

(** The statement of [update_order_status] and its parameters. *)
Definition update_order_status_statement
           (new_status order_id' : string) (tenant_context : TenantContext)
  : string * list Param :=
  let query := "UPDATE orders SET status = %s, updated_at = NOW() WHERE order_id = %s" in
  let params := [PStr (Some new_status); PStr (Some order_id')] in
  let '(query, params) :=
    if decide (tenant_tier tenant_context = "pool")
    then (query +:+ " AND tenant_id = %s", params ++ [PStr (tenant_id tenant_context)])
    else (query, params) in
  (query +:+ " RETURNING order_id, order_number, status, updated_at", params).

Section Request.

(** [NOW()] of the update statement. *)
Variable now : string.

(** [json.loads] on the text of the body; [inl] when it raises. *)
Variable json_loads : string -> result PyJson.Json.

(** What the database does with a text handed to [cursor.execute] as it is,
    without parameters: the orders relation afterwards and whether the call
    raised.  The relation afterwards is the one the open transaction sees
    when the call returns, and the committed one when it raises.  For the
    [SET] the text is meant to be this is the relation as it was and no
    error; a text made from a crafted tenant id can be rejected or carry
    further statements. *)
Variable execute_text : string -> list OrderRow -> list OrderRow * result unit.

(** [get_database_connection]: reading the secret and opening the connection
    are taken to succeed; then the session statement is run on it.  The
    relation given back is the one the connection sees. *)
Definition get_database_connection
           (environ : gmap string string) (tenant_context : TenantContext)
           (orders : list OrderRow)
  : list OrderRow * result unit :=
  if bool_decide (tenant_tier tenant_context ∈ ["bridge"; "silo"]) then
    match get_database_connection_params environ tenant_context with
    | inl e => (orders, raise e)
    | inr db_params => execute_text ("SET search_path TO " +:+ schema db_params) orders
    end
  else if decide (tenant_tier tenant_context = "pool") then
    execute_text ("SET app.current_tenant = '" +:+ fmt (tenant_id tenant_context) +:+ "'")
                 orders
  else (orders, ret ()).

(** [update_order_status] from the event on: the body is parsed, the status
    checked, the connection opened and set up, the statement run and
    committed.  An exception leaves the function ([inl]); nothing of the
    handler's own is committed then. *)
Definition update_order_status_event
           (environ : gmap string string)
           (order_id' : string) (event_body : PyJson.RawBody)
           (tenant_context : TenantContext) (orders : list OrderRow)
  : list OrderRow * result Response :=
  let parsed :=
    match event_body with
    | PyJson.NoBody => ret (PyJson.Object ∅)
    | PyJson.NullBody => raise (TypeError "the JSON object must be str, bytes or bytearray")
    | PyJson.TextBody text => json_loads text
    end in
  match parsed with
  | inl e => (orders, raise e)
  | inr body =>
      match PyJson.has_key "status" body with
      | inl e => (orders, raise e)
      | inr false => (orders, ret (create_response 400 (ErrorBody "Missing status field")))
      | inr true =>
          match PyJson.subscript "status" body with
          | inl e => (orders, raise e)
          | inr new_status =>
              match new_status with
              | PyJson.VString s =>
                  if negb (bool_decide (s ∈ valid_statuses)) then
                    (orders, ret (create_response 400 (ErrorBody
                      "Invalid status. Must be one of: pending, processing, shipped, delivered, cancelled")))
                  else
                    match get_database_connection environ tenant_context orders with
                    | (session, inl e) => (session, raise e)
                    | (session, inr _) =>
                        let '(orders', returned) :=
                          execute_update now s order_id' tenant_context session in
                        match returned with
                        | [] => (orders', ret (create_response 404 (ErrorBody "Order not found")))
                        | row :: _ =>
                            (orders', ret (create_response 200
                                             (StatusBody "Order status updated" row)))
                        end
                    end
              | PyJson.VOther _ =>
                  (* no other value is equal to one of the words *)
                  (orders, ret (create_response 400 (ErrorBody
                    "Invalid status. Must be one of: pending, processing, shipped, delivered, cancelled")))
              end
          end
      end
  end.

End Request.

End OrderService.

(** ** tenant_handler.py *)

Module TenantHandler.

Definition basic_limits : gmap string Z :=
  <["max_products" := 100]> (<["max_orders" := 1000]>
  (<["max_users" := 10]> (<["max_api_calls_per_hour" := 1000]> ∅))).

Definition premium_limits : gmap string Z :=
  <["max_products" := 1000]> (<["max_orders" := 10000]>
  (<["max_users" := 50]> (<["max_api_calls_per_hour" := 10000]> ∅))).

Definition enterprise_limits : gmap string Z :=
  <["max_products" := -1]> (<["max_orders" := -1]>
  (<["max_users" := -1]> (<["max_api_calls_per_hour" := 100000]> ∅))).

Definition limits : gmap string (gmap string Z) :=
  <["basic" := basic_limits]> (<["premium" := premium_limits]>
  (<["enterprise" := enterprise_limits]> ∅)).

Definition get_tier_limits (tier : string) : gmap string Z :=
  default (limits !!! "basic") (limits !! tier).

Definition basic_features : gmap string bool :=
  <["advanced_analytics" := false]> (<["custom_branding" := false]>
  (<["api_access" := true]> (<["priority_support" := false]>
  (<["data_export" := false]> ∅)))).

Definition premium_features : gmap string bool :=
  <["advanced_analytics" := true]> (<["custom_branding" := true]>
  (<["api_access" := true]> (<["priority_support" := true]>
  (<["data_export" := true]> ∅)))).

Definition enterprise_features : gmap string bool :=
  <["advanced_analytics" := true]> (<["custom_branding" := true]>
  (<["api_access" := true]> (<["priority_support" := true]>
  (<["data_export" := true]> (<["dedicated_support" := true]>
  (<["custom_integrations" := true]> ∅)))))).

Definition features : gmap string (gmap string bool) :=
  <["basic" := basic_features]> (<["premium" := premium_features]>
  (<["enterprise" := enterprise_features]> ∅)).

Definition get_tier_features (tier : string) : gmap string bool :=
  default (features !!! "basic") (features !! tier).

Section TenantStore.

(** The type of attribute values of a tenant item; [VStr] is a string as
    such a value.  The handlers below store and return values and never look
    inside. *)
Variable V : Type.
Variable VStr : string -> V.

(** What the handlers hand to [create_response] of tenant_utils: the status
    code and the body. *)
Inductive Answer : Type :=
  | Refused (error : string)
  | TenantData (item : gmap string V)
  | Initiated (message tenant_id : string).

Record Reply : Type := mkReply {
  code : Z;
  answer : Answer
}.

(** [get_tenant], given the context [tenant_aware_handler] put into the
    event and the [tenant_id] path parameter. *)
Definition get_tenant (tenant_context : OrderHandler.TenantContext)
           (path_tenant_id : option string) (table : gmap string (gmap string V))
  : Reply :=
  if negb (truthy path_tenant_id) then mkReply 400 (Refused "tenant_id is required")
  else
    let tenant_id := default "" path_tenant_id in
    if negb (bool_decide (OrderHandler.tenant_id tenant_context = tenant_id)) then
      mkReply 403 (Refused "Access denied to tenant resource")
    else
      match table !! tenant_id with
      | None => mkReply 404 (Refused "Tenant not found")
      | Some tenant_data => mkReply 200 (TenantData (delete "api_keys" tenant_data))
      end.

(** [delete_tenant]: the soft delete, an [update_item] on the tenant's key. *)
Definition delete_tenant (tenant_context : OrderHandler.TenantContext)
           (path_tenant_id : option string) (now : string)
           (table : gmap string (gmap string V))
  : gmap string (gmap string V) * Reply :=
  if negb (bool_decide (Some (OrderHandler.tenant_id tenant_context) = path_tenant_id))
  then (table, mkReply 403 (Refused "Access denied"))
  else
    let tenant_id := OrderHandler.tenant_id tenant_context in
    let old := default {["tenant_id" := VStr tenant_id]} (table !! tenant_id) in
    let new := <["deleted_at" := VStr now]> (<["status" := VStr "deleted"]> old) in
    (<[tenant_id := new]> table, mkReply 200 (Initiated "Tenant deletion initiated" tenant_id)).

End TenantStore.

(** The names [create_tenant_tables] gives the tables of a silo tenant. *)
Definition tenant_table_names (tenant_id : string) : list string :=
  (fun base_table => base_table +:+ "-" +:+ tenant_id) <$> ["products"; "orders"].

(** [create_tenant_tables] on the set of table names of the account: a name
    that is taken ([ResourceInUseException]) is skipped. *)
Definition create_tenant_tables (tenant_id : string) (tables : gset string) : gset string :=
  foldl (fun acc table_name =>
           if decide (table_name ∈ acc) then acc else {[table_name]} ∪ acc)
        tables (tenant_table_names tenant_id).

(** The bucket name of [create_tenant_bucket] and the group name of
    [create_tenant_user_group]. *)
Definition tenant_bucket_name (tenant_id : string) : string := "saas-tenant-" +:+ tenant_id.
Definition tenant_group_name (tenant_id : string) : string := "tenant-" +:+ tenant_id.

(** An attribute value of a tenant item: a string, the limits of a tier or
    its features. *)
Inductive Attr : Type :=
  | AStr (s : string)
  | ALimits (m : gmap string Z)
  | AFeatures (m : gmap string bool).

(** What [register_tenant] can change: the tenant table, the groups of the
    user pool, the DynamoDB tables and the buckets of the account. *)
Record Account : Type := mkAccount {
  acct_tenants : gmap string (gmap string Attr);
  acct_groups : gset string;
  acct_tables : gset string;
  acct_buckets : gset string
}.

(** The body handed to [create_response]. *)
Inductive Payload : Type :=
  | Rejected (error : string)
  | Registered (message tenant_id tier isolation_model : string)
  | Updated (message : string) (tenant : gmap string Attr).

Record Outcome : Type := mkOutcome {
  http_status : Z;
  payload : Payload
}.

Section Registration.

(** Whether Cognito takes [create_group] for a group name, and S3
    [create_bucket] for a bucket name; [false] is any exception, which
    [create_tenant_user_group] and [create_tenant_bucket] catch. *)
Variable cognito_accepts : string -> bool.
Variable s3_accepts : string -> bool.

(** The exception [create_table] raises for a table name, if any, other
    than [ResourceInUseException]. *)
Variable create_table_error : string -> option exn.

(** [log_tenant_activity] of tenant_utils, which is not among the sources,
    on [TenantContext(tenant_id, tier)], the action and the outcome; [inl]
    when the call raises. *)
Variable log_tenant_activity : string -> string -> string -> string -> result unit.

Definition create_tenant_user_group (tenant_id tier : string) (groups : gset string)
  : gset string :=
  let group_name := tenant_group_name tenant_id in
  if cognito_accepts group_name then {[group_name]} ∪ groups else groups.

(** [create_tenant_tables], where [create_table] can fail: the tables made
    before the failure stay. *)
Fixpoint create_tables (table_names : list string) (tables : gset string)
  : gset string * result unit :=
  match table_names with
  | [] => (tables, ret ())
  | table_name :: rest =>
      match create_table_error table_name with
      | Some e => (tables, raise e)
      | None =>
          create_tables rest
            (if decide (table_name ∈ tables) then tables else {[table_name]} ∪ tables)
      end
  end.

Definition create_tenant_bucket (tenant_id : string) (buckets : gset string) : gset string :=
  let bucket_name := tenant_bucket_name tenant_id in
  if s3_accepts bucket_name then {[bucket_name]} ∪ buckets else buckets.

(** [provision_silo_resources]: an exception of [create_tenant_tables] is
    printed and raised again. *)
Definition provision_silo_resources (tenant_id : string) (account : Account)
  : Account * result unit :=
  match create_tables (tenant_table_names tenant_id) (acct_tables account) with
  | (tables, inl e) =>
      (mkAccount (acct_tenants account) (acct_groups account) tables (acct_buckets account),
       raise e)
  | (tables, inr _) =>
      (mkAccount (acct_tenants account) (acct_groups account) tables
                 (create_tenant_bucket tenant_id (acct_buckets account)),
       ret ())
  end.

Definition register_failed : Outcome :=
  mkOutcome 500 (Rejected "Failed to register tenant").

(** [register_tenant], from the parsed body on: [new_id] is the [uuid4]
    drawn, [created] and [updated] are the two readings of the clock, [body]
    the members of the body, taken to be strings.  [put_item] is taken to
    succeed. *)
Definition register_tenant (new_id created updated : string)
           (body : gmap string string) (account : Account)
  : Account * Outcome :=
  let company_name := body !! "company_name" in
  let admin_email := body !! "admin_email" in
  let tier := default "basic" (body !! "tier") in
  let isolation_model := default "pool" (body !! "isolation_model") in
  if negb (truthy company_name) || negb (truthy admin_email) then
    (account, mkOutcome 400 (Rejected "company_name and admin_email are required"))
  else
    let tenant_record : gmap string Attr :=
      <["tenant_id" := AStr new_id]>
      (<["company_name" := AStr (default "" company_name)]>
      (<["admin_email" := AStr (default "" admin_email)]>
      (<["tier" := AStr tier]>
      (<["isolation_model" := AStr isolation_model]>
      (<["status" := AStr "active"]>
      (<["created_at" := AStr created]>
      (<["updated_at" := AStr updated]>
      (<["limits" := ALimits (get_tier_limits tier)]>
      (<["features" := AFeatures (get_tier_features tier)]> ∅))))))))) in
    let stored :=
      mkAccount (<[new_id := tenant_record]> (acct_tenants account))
                (create_tenant_user_group new_id tier (acct_groups account))
                (acct_tables account) (acct_buckets account) in
    let '(provisioned, silo) :=
      if decide (isolation_model = "silo") then provision_silo_resources new_id stored
      else (stored, ret ()) in
    match silo with
    | inl e => (provisioned, register_failed)
    | inr _ =>
        match log_tenant_activity new_id tier "register_tenant" "SUCCESS" with
        | inl e => (provisioned, register_failed)
        | inr _ =>
            (provisioned,
             mkOutcome 201 (Registered "Tenant registered successfully"
                                       new_id tier isolation_model))
        end
    end.

End Registration.

(** The attributes the update expression of [update_tenant] sets, in the
    order of the expression. *)
Definition update_tenant_sets (now : string) (body : gmap string string)
  : list (string * Attr) :=
  [("updated_at", AStr now)]
  ++ match body !! "tier" with
     | Some new_tier =>
         [("tier", AStr new_tier);
          ("limits", ALimits (get_tier_limits new_tier));
          ("features", AFeatures (get_tier_features new_tier))]
     | None => []
     end
  ++ match body !! "status" with
     | Some status => [("status", AStr status)]
     | None => []
     end.

(** [update_tenant], from the parsed body on; [body] holds the members of
    the body, taken to be strings.  Without a [status] in the body the
    handler passes [ExpressionAttributeNames=None] to [update_item], which
    boto3 refuses before any request is sent; the handler answers 500.
    With a [status] the item under the key is written, made if absent. *)
Definition update_tenant (tenant_context : OrderHandler.TenantContext)
           (path_tenant_id : option string) (body : gmap string string) (now : string)
           (table : gmap string (gmap string Attr))
  : gmap string (gmap string Attr) * Outcome :=
  if negb (bool_decide (Some (OrderHandler.tenant_id tenant_context) = path_tenant_id))
  then (table, mkOutcome 403 (Rejected "Access denied"))
  else
    let tenant_id := OrderHandler.tenant_id tenant_context in
    match body !! "status" with
    | None => (table, mkOutcome 500 (Rejected "Failed to update tenant"))
    | Some _ =>
        let old := default {["tenant_id" := AStr tenant_id]} (table !! tenant_id) in
        let new := foldl (fun item '(name, value) => <[name := value]> item) old
                         (update_tenant_sets now body) in
        (<[tenant_id := new]> table,
         mkOutcome 200 (Updated "Tenant updated successfully" new))
    end.

End TenantHandler.

(** ** tenant_utils.check_tenant_limits and its caller in product_handler.py *)

Module TenantUtils.

(** Modelled from the spec: [check_tenant_limits] of tenant_utils, which
    product_handler.py and order_handler.py import and which is not part
    of the sources.  Section 4.4: a limit of -1 means unlimited, hence
    always allow; otherwise allow iff [current_count < limit]. *)
Definition allow_create (limit current_count : Z) : bool :=
  if decide (limit = -1) then true
  else bool_decide (current_count < limit).

End TenantUtils.

Module ProductHandler.

Record Response : Type := mkResponse {
  statusCode : Z;
  error : string;
  current_count : Z
}.

(** The limit guard of [create_product]: [Some] is the 403 returned when
    [check_tenant_limits] says no, [None] lets the creation go on.
    [limit] is the tenant's [max_products]. *)
Definition create_product_limit_guard (limit current_count : Z) : option Response :=
  if negb (TenantUtils.allow_create limit current_count)
  then Some (mkResponse 403 "Product limit reached for your subscription tier"
                        current_count)
  else None.

Section Products.

(** Attribute values of a product item. *)
Variable V : Type.

Variable ISOLATION_MODEL : string.

(** [enforce_tenant_isolation] of tenant_utils; [inl] when it raises. *)
Variable enforce_tenant_isolation : OrderHandler.TenantContext -> option V -> result unit.

(** What the handlers hand to [create_response] of tenant_utils: the status
    code and the body. *)
Inductive Answer : Type :=
  | Refused (error : string)
  | Product (item : gmap string V)
  | Deleted (message product_id : string).

Record Reply : Type := mkReply {
  code : Z;
  answer : Answer
}.

Definition product_key (tenant_context : OrderHandler.TenantContext) (product_id : string)
  : option string * string :=
  if decide (ISOLATION_MODEL = "pool")
  then (Some (OrderHandler.tenant_id tenant_context), product_id)
  else (None, product_id).

Definition get_product (tenant_context : OrderHandler.TenantContext)
           (path_id : option string)
           (table : gmap (option string * string) (gmap string V)) : Reply :=
  if negb (truthy path_id) then mkReply 400 (Refused "product_id is required")
  else
    let product_id := default "" path_id in
    match table !! product_key tenant_context product_id with
    | None => mkReply 404 (Refused "Product not found")
    | Some product =>
        let checked :=
          if decide (ISOLATION_MODEL = "pool")
          then enforce_tenant_isolation tenant_context (product !! "tenant_id")
          else ret () in
        match checked with
        | inl e => mkReply 500 (Refused "Failed to get product")
        | inr _ => mkReply 200 (Product product)
        end
    end.

Definition delete_product (tenant_context : OrderHandler.TenantContext)
           (path_id : option string)
           (table : gmap (option string * string) (gmap string V))
  : gmap (option string * string) (gmap string V) * Reply :=
  if negb (truthy path_id) then (table, mkReply 400 (Refused "product_id is required"))
  else
    let product_id := default "" path_id in
    let key := product_key tenant_context product_id in
    match table !! key with
    | None => (table, mkReply 404 (Refused "Product not found"))
    | Some _ =>
        (delete key table, mkReply 200 (Deleted "Product deleted successfully" product_id))
    end.

End Products.

End ProductHandler.

(** ** Sequences of requests *)

Module Runs.

Import OrderHandler.

(** The requests [PUT status] for the statuses of a list, one after the
    other on the same order; the answers in the order of the requests. *)
Fixpoint update_order_many
         (ISOLATION_MODEL : string) (SNS_TOPIC_ARN : option string)
         (sns_accepts : OrderEvent -> bool) (now_update now_publish : string)
         (tenant_context : TenantContext) (order_id : string)
         (statuses : list string) (w : World) : World * list Response :=
  match statuses with
  | [] => (w, [])
  | s :: rest =>
      let '(w1, r) :=
        update_order ISOLATION_MODEL SNS_TOPIC_ARN sns_accepts now_update now_publish
                     tenant_context (mkRequest (Some order_id) (Some s)) w in
      let '(w2, rs) :=
        update_order_many ISOLATION_MODEL SNS_TOPIC_ARN sns_accepts now_update
                          now_publish tenant_context order_id rest w1 in
      (w2, r :: rs)
  end.

(** How many of the answers are 200. *)
Definition successes (rs : list Response) : nat :=
  length (filter (fun r => statusCode r = 200) rs).

(** The number of status changes an order in a given status can still go
    through. *)
Definition steps_left (status : option string) : nat :=
  if decide (status = Some "pending") then 3
  else if decide (status = Some "confirmed") then 2
  else if decide (status = Some "shipped") then 1
  else 0.

End Runs.

(** ** Reference definitions the statements compare the code with *)

Module Spec.

(** A string transformed character by character. *)
Fixpoint map_chars (f : ascii -> ascii) (s : string) : string :=
  match s with
  | "" => ""
  | String c s' => String (f c) (map_chars f s')
  end.

(** The sanitizing rule of the bridge tier in the spec's words: a hyphen
    becomes an underscore, any other character stays. *)
Definition hyphen_to_underscore (c : ascii) : ascii :=
  if decide (c = "-"%char) then "_"%char else c.

(** The transition table of the order life cycle, as pairs. *)
Definition transition_table : list (string * string) :=
  [("pending", "confirmed"); ("pending", "cancelled");
   ("confirmed", "shipped"); ("confirmed", "cancelled");
   ("shipped", "delivered"); ("shipped", "cancelled")].

(** The three subscription tiers that have a table entry. *)
Definition known_tiers : list string := ["basic"; "premium"; "enterprise"].

(** The three isolation tiers. *)
Definition isolation_tiers : list string := ["pool"; "bridge"; "silo"].

End Spec.

(** ** Concrete requests used in the examples *)

Module Examples.

Import TenantContextLayer.

(** A decoder that reads every token as the payload of tenant t9. *)
Definition decode_t9 (token : string) : result (gmap string string) :=
  inr (<["custom:tenant_id" := "t9"]> (<["custom:tenant_tier" := "silo"]> ∅)).

Definition event_with_claims : Event :=
  mkEvent (Some (mkRequestContext (Some (mkAuthorizer (Some
             (<["custom:tenant_id" := "t1"]> (<["sub" := "u1"]> ∅)))))))
          (Some (<["Authorization" := "Bearer abc"]> (<["X-Tenant-Id" := "t2"]> ∅))).

Definition event_with_bearer : Event :=
  mkEvent None
          (Some (<["Authorization" := "Bearer abc"]> (<["X-Tenant-Id" := "t2"]> ∅))).

Definition event_with_headers : Event :=
  mkEvent None (Some (<["X-Tenant-Id" := "t2"]> ∅)).

(** Claims that carry a subject and no tenant id, nothing else. *)
Definition event_claims_without_tenant : Event :=
  mkEvent (Some (mkRequestContext (Some (mkAuthorizer (Some (<["sub" := "u1"]> ∅))))))
          (Some ∅).

(** A handler that answers 200 with the tenant id it was given. *)
Definition echo_handler (event : Event) (ctx : TenantContext) : result Response :=
  inr (mkResponse 200 "" (fmt (tenant_id ctx))).

(** An order of tenant-a in the shared orders table, and requests on it. *)
Definition ctx_a : OrderHandler.TenantContext := OrderHandler.mkTenantContext "tenant-a".

Definition key_o1 : option string * string := (Some "tenant-a", "o1").

Definition order_o1 (status : string) : gmap string string :=
  <["tenant_id" := "tenant-a"]> (<["order_id" := "o1"]> (<["status" := status]> ∅)).

Definition world_o1 (status : string) : OrderHandler.World :=
  OrderHandler.mkWorld (<[key_o1 := order_o1 status]> ∅) [].

Definition put_status (status : string) : OrderHandler.Request :=
  OrderHandler.mkRequest (Some "o1") (Some status).

(** A topic that takes every message, and one that refuses every message. *)
Definition sns_up (m : OrderHandler.OrderEvent) : bool := true.
Definition sns_down (m : OrderHandler.OrderEvent) : bool := false.

(** The same order as a row of the SQL orders relation. *)
Definition row_o1 (status : string) : OrderService.OrderRow :=
  OrderService.mkOrderRow "o1" (Some "tenant-a") "ORD-1" status "t0".

Definition pool_ctx_a : TenantContext := mkTenantContext (Some "tenant-a") "pool" None.

End Examples.

(** ** More concrete requests and stores *)

Module MoreExamples.

Import TenantContextLayer Examples.

(** A request that carries nothing. *)
Definition event_empty : Event := mkEvent None None.

(** A decoder that rejects every token. *)
Definition decode_fail (token : string) : result (gmap string string) :=
  inl (DecodeError "Not enough segments").

Definition pool_ctx_b : TenantContext := mkTenantContext (Some "tenant-b") "pool" None.

(** The orders table of [world_o1] with an order of tenant-b beside it. *)
Definition two_tenant_table (status : string)
  : gmap (option string * string) (gmap string string) :=
  <[(Some "tenant-b", "o9") := <["status" := "shipped"]> ∅]>
    (OrderHandler.table (world_o1 status)).

(** A tenants table with the record of tenant-a, string-valued. *)
Definition tenant_a_record : gmap string string :=
  <["tenant_id" := "tenant-a"]> (<["status" := "active"]> (<["api_keys" := "k-123"]> ∅)).

Definition tenants_table : gmap string (gmap string string) :=
  <["tenant-a" := tenant_a_record]> ∅.

(** A products table with one product of tenant-a. *)
Definition products_table : gmap (option string * string) (gmap string string) :=
  <[(Some "tenant-a", "p1") := <["name" := "Widget"]> ∅]> ∅.

Definition allow_all (ctx : OrderHandler.TenantContext) (stored : option string)
  : result unit := inr ().

(** Onboarding requests, with [unit] for the settings. *)
Definition onboarding_body (tier : string) : TenantOnboarding.Body unit :=
  TenantOnboarding.mkBody unit
    (<["company_name" := "Acme"]> (<["admin_email" := "admin@acme.test"]>
    (<["tier" := tier]> ∅))) None.

Definition empty_cloud : TenantOnboarding.Cloud unit :=
  TenantOnboarding.mkCloud unit ∅ [] ∅.


Definition same_name (email : string) : string := email.

(** The tenant table with the item of tenant-a as [register_tenant] makes
    it, and an account that holds it. *)
Definition tenant_a_item : gmap string TenantHandler.Attr :=
  <["tenant_id" := TenantHandler.AStr "tenant-a"]>
  (<["tier" := TenantHandler.AStr "premium"]>
  (<["status" := TenantHandler.AStr "active"]>
  (<["limits" := TenantHandler.ALimits TenantHandler.premium_limits]>
  (<["features" := TenantHandler.AFeatures TenantHandler.premium_features]> ∅)))).

Definition tenant_items : gmap string (gmap string TenantHandler.Attr) :=
  <["tenant-a" := tenant_a_item]> ∅.

Definition empty_account : TenantHandler.Account :=
  TenantHandler.mkAccount ∅ ∅ ∅ ∅.

(** Services that take every call. *)
Definition accept_all : string -> bool := fun _ => true.
Definition no_table_error : string -> option exn := fun _ => None.
Definition log_ok : string -> string -> string -> string -> result unit :=
  fun _ _ _ _ => inr ().


Definition registration_body : gmap string string :=
  <["company_name" := "Acme Corp"]> (<["admin_email" := "admin@acme.com"]>
  (<["tier" := "gold"]> ∅)).

(** The text of a body that asks for the status shipped, and a parser that
    reads this text and no other. *)
Definition dq : string := String (ascii_of_nat 34) "".

Definition shipped_text : string :=
  "{" +:+ dq +:+ "status" +:+ dq +:+ ": " +:+ dq +:+ "shipped" +:+ dq +:+ "}".

Definition loads_example (text : string) : result PyJson.Json :=
  if decide (text = shipped_text)
  then inr (PyJson.Object (<["status" := PyJson.VString "shipped"]> ∅))
  else inl (DecodeError "Expecting value").

(** A database that takes every session statement as the [SET] it is meant
    to be. *)
Definition plain_set : string -> list OrderService.OrderRow
                       -> list OrderService.OrderRow * result unit :=
  fun _ rows => (rows, inr ()).

(** A database that rejects a session statement in which the tenant id
    o'x closes the quotes early. *)
Definition strict_set : string -> list OrderService.OrderRow
                        -> list OrderService.OrderRow * result unit :=
  fun text rows =>
    if PyStr.contains "'o'x'" text
    then (rows, inl (ClientError "syntax error at or near x"))
    else (rows, inr ()).

Definition quoted_ctx : TenantContext := mkTenantContext (Some "o'x") "pool" None.

End MoreExamples.

(** * Properties *)

(** ** Strings *)

Section PyStrFacts.

Import PyStr.

Lemma append_nil_l (s : string) : "" +:+ s = s.
Proof. reflexivity. Qed.

Lemma append_cons (c : ascii) (s t : string) : String c s +:+ t = String c (s +:+ t).
Proof. reflexivity. Qed.

Lemma startswith_single (a c : ascii) (s : string) :
  startswith (String a "") (String c s) = bool_decide (a = c).
Proof.
  simpl. destruct (decide (a = c)) as [Heq | Hne].
  - by rewrite bool_decide_eq_true_2.
  - by rewrite bool_decide_eq_false_2.
Qed.

(** Replacing one character by one character is a character map. *)
Lemma replace_single (a b : ascii) (s : string) :
  replace (String a "") (String b "") s
  = Spec.map_chars (fun c => if decide (c = a) then b else c) s.
Proof.
  unfold replace. induction s as [| c s IH]; [done |].
  cbn [replace_go Spec.map_chars]. rewrite startswith_single.
  destruct (decide (c = a)) as [-> | Hne].
  - rewrite bool_decide_eq_true_2 by done.
    cbn [String.length Nat.sub]. rewrite IH. reflexivity.
  - rewrite bool_decide_eq_false_2 by congruence.
    by rewrite IH.
Qed.

Lemma replace_hyphen (s : string) :
  replace "-" "_" s = Spec.map_chars Spec.hyphen_to_underscore s.
Proof. apply replace_single. Qed.

Lemma map_chars_length (f : ascii -> ascii) (s : string) :
  String.length (Spec.map_chars f s) = String.length s.
Proof. induction s as [| c s IH]; simpl; congruence. Qed.

Lemma map_chars_get (f : ascii -> ascii) (s : string) (i : nat) :
  String.get i (Spec.map_chars f s) = f <$> String.get i s.
Proof.
  revert i. induction s as [| c s IH]; intros i; [done |].
  destruct i as [| i]; simpl; [done | apply IH].
Qed.

(** A query in which [old] does not occur is left alone by [replace]. *)
Lemma replace_go_absent (old new s : string) :
  contains old s = false -> replace_go old new 0 s = s.
Proof.
  induction s as [| c s IH]; [done |].
  cbn [contains replace_go]. intros H.
  apply orb_false_iff in H as [Hsw Hc].
  rewrite Hsw. f_equal. by apply IH.
Qed.

Lemma replace_absent (a : ascii) (old new s : string) :
  contains (String a old) s = false -> replace (String a old) new s = s.
Proof. apply replace_go_absent. Qed.

Lemma startswith_app (p r : string) : startswith p (p +:+ r) = true.
Proof.
  induction p as [| c p IH]; [done |].
  rewrite append_cons. cbn [startswith]. by rewrite decide_True.
Qed.

Lemma startswith_app_l (p s t : string) :
  startswith p s = true -> startswith p (s +:+ t) = true.
Proof.
  revert s. induction p as [| c p IH]; intros [| d s]; try done.
  rewrite append_cons. cbn [startswith]. case_decide; [apply IH | done].
Qed.

Lemma contains_app_l (p s t : string) :
  contains p s = true -> contains p (s +:+ t) = true.
Proof.
  induction s as [| c s IH].
  - destruct p; [| done]. intros _. by destruct t.
  - rewrite append_cons. cbn [contains]. intros H.
    apply orb_true_iff in H as [H | H]; apply orb_true_iff.
    + left. change (String c (s +:+ t)) with (String c s +:+ t).
      by apply startswith_app_l.
    + right. by apply IH.
Qed.

Lemma contains_app_r (p s t : string) :
  contains p s = true -> contains p (t +:+ s) = true.
Proof.
  intros H. induction t as [| c t IH]; [done |].
  rewrite append_cons. cbn [contains]. rewrite IH. apply orb_true_r.
Qed.

Lemma contains_prefix (p r : string) : contains p (p +:+ r) = true.
Proof.
  destruct (p +:+ r) eqn:E; cbn [contains]; rewrite <- E, startswith_app; done.
Qed.

Lemma startswith_inv (p s : string) :
  startswith p s = true -> exists t, s = p +:+ t.
Proof.
  revert s. induction p as [| c p IH]; intros s H; [by exists s |].
  destruct s as [| d s]; [done |]. cbn [startswith] in H.
  case_decide; [| done]. subst d.
  destruct (IH s H) as [t ->]. by exists t.
Qed.

Lemma contains_trans (p n r : string) :
  contains p n = true -> contains n r = true -> contains p r = true.
Proof.
  intros Hp. induction r as [| c r IH]; cbn [contains].
  - rewrite orb_false_r. intros Hn.
    destruct (startswith_inv n "" Hn) as [t Ht].
    destruct n; [done | discriminate].
  - intros Hn. apply orb_true_iff in Hn as [Hn | Hn].
    + destruct (startswith_inv n (String c r) Hn) as [t Ht].
      change (contains p (String c r) = true). rewrite Ht.
      by apply contains_app_l.
    + rewrite (IH Hn). apply orb_true_r.
Qed.

Lemma startswith_upper (p s : string) :
  startswith p s = true -> startswith (upper p) (upper s) = true.
Proof.
  revert s. induction p as [| c p IH]; intros [| d s]; try done.
  cbn [startswith upper]. case_decide; [| done]. subst d.
  rewrite decide_True by done. apply IH.
Qed.

(** Upper-casing keeps occurrences: what is in [s] is, upper-cased, in
    [s.upper()]. *)
Lemma contains_upper (p s : string) :
  contains p s = true -> contains (upper p) (upper s) = true.
Proof.
  induction s as [| c s IH].
  - destruct p; [done | discriminate].
  - cbn [contains upper]. intros H.
    apply orb_true_iff in H as [H | H]; apply orb_true_iff.
    + left. by apply (startswith_upper p (String c s)).
    + right. by apply IH.
Qed.

(** Where [old] occurs, [replace] puts [new]. *)
Lemma replace_go_present (old new s : string) :
  contains old s = true -> old <> "" -> contains new (replace_go old new 0 s) = true.
Proof.
  intros H Hold. induction s as [| c s IH].
  - by destruct old.
  - cbn [contains] in H. cbn [replace_go].
    destruct (startswith old (String c s)) eqn:Hsw.
    + apply contains_prefix.
    + cbn [orb] in H. specialize (IH H).
      cbn [contains]. rewrite IH. apply orb_true_r.
Qed.

Example replace_is_not_overlapping : replace "aa" "b" "aaa" = "ba".
Proof. reflexivity. Qed.

Example replace_empty_pattern : replace "" "-" "ab" = "-a-b-".
Proof. reflexivity. Qed.

Example rstrip_semicolons : rstrip ";" "a;b;;" = "a;b".
Proof. reflexivity. Qed.

Example upper_mixed : upper "select Where_1" = "SELECT WHERE_1".
Proof. reflexivity. Qed.

End PyStrFacts.

(** ** Storage targets (application/layers/tenant-context.py) *)

Section StorageTargets.

Import TenantContextLayer.

Lemma contains_underscore_cons (c : ascii) (s : string) :
  PyStr.contains "_" (String c s) = false ->
  c <> "_"%char /\ PyStr.contains "_" s = false.
Proof.
  cbn [PyStr.contains]. rewrite startswith_single.
  intros H. apply orb_false_iff in H as [Hc Hs].
  apply bool_decide_eq_false in Hc. split; [congruence | done].
Qed.

Lemma hyphen_to_underscore_inj (c d : ascii) :
  c <> "_"%char -> d <> "_"%char ->
  Spec.hyphen_to_underscore c = Spec.hyphen_to_underscore d -> c = d.
Proof.
  unfold Spec.hyphen_to_underscore. intros Hc Hd.
  repeat case_decide; congruence.
Qed.

(** Without underscores in the ids, sanitizing loses nothing. *)
Lemma sanitize_inj (a b : string) :
  PyStr.contains "_" a = false -> PyStr.contains "_" b = false ->
  PyStr.replace "-" "_" a = PyStr.replace "-" "_" b -> a = b.
Proof.
  rewrite !replace_hyphen. revert b.
  induction a as [| c a IH]; intros [| d b] Ha Hb Heq; simpl in Heq;
    try discriminate; [done |].
  apply contains_underscore_cons in Ha as [Hc Ha].
  apply contains_underscore_cons in Hb as [Hd Hb].
  injection Heq as Hcd Hab.
  f_equal; [by apply hyphen_to_underscore_inj | by apply IH].
Qed.

Lemma params_pool (environ : gmap string string) (t u : option string) :
  get_database_connection_params environ (mkTenantContext t "pool" u)
  = inr (mkDbParams (environ !! "POOL_DATABASE") "public" t).
Proof. reflexivity. Qed.

Lemma params_bridge (environ : gmap string string) (a : string) (u : option string) :
  get_database_connection_params environ (mkTenantContext (Some a) "bridge" u)
  = inr (mkDbParams (environ !! "BRIDGE_DATABASE")
                    ("tenant_" +:+ PyStr.replace "-" "_" a) None).
Proof. reflexivity. Qed.

Lemma params_silo (environ : gmap string string) (a : string) (u : option string) :
  get_database_connection_params environ (mkTenantContext (Some a) "silo" u)
  = inr (mkDbParams (Some ("tenant_" +:+ a)) "public" None).
Proof. reflexivity. Qed.

Lemma tenant_prefix_inj (x y : string) : "tenant_" +:+ x = "tenant_" +:+ y -> x = y.
Proof. apply (inj (String.app "tenant_")). Qed.

Lemma inr_params_eq (d1 d2 : DbParams) :
  inr (A := exn) d1 = inr d2 ->
  database d1 = database d2 /\ schema d1 = schema d2
  /\ row_security_context d1 = row_security_context d2.
Proof. by intros [= ->]. Qed.

Lemma isolation_tier_cases (tier : string) :
  tier ∈ Spec.isolation_tiers -> tier = "pool" \/ tier = "bridge" \/ tier = "silo".
Proof.
  unfold Spec.isolation_tiers. rewrite !elem_of_cons, elem_of_nil. tauto.
Qed.

(** C5: for every tenant_id string the bridge-tier schema name, both where
    the connection parameters are computed and where the schema is
    provisioned, is the prefix tenant_ followed by the tenant_id in which
    each hyphen became an underscore; the length is kept and every
    position holds the old character unless that was a hyphen. *)
Theorem bridge_schema_name
        (environ : gmap string string) (tid : string) (uid : option string) (i : nat) :
  let sanitized := Spec.map_chars Spec.hyphen_to_underscore tid in
  get_database_connection_params environ (mkTenantContext (Some tid) "bridge" uid)
    = inr (mkDbParams (environ !! "BRIDGE_DATABASE") ("tenant_" +:+ sanitized) None)
  /\ TenantOnboarding.bridge_schema tid = "tenant_" +:+ sanitized
  /\ String.length sanitized = String.length tid
  /\ String.get i sanitized
     = (fun c => if decide (c = "-"%char) then "_"%char else c) <$> String.get i tid.
Proof.
  intros sanitized. subst sanitized. repeat split.
  - by rewrite params_bridge, replace_hyphen.
  - unfold TenantOnboarding.bridge_schema. by rewrite replace_hyphen.
  - apply map_chars_length.
  - apply map_chars_get.
Qed.

Example bridge_schema_t_42 :
  get_database_connection_params ∅ (mkTenantContext (Some "t-42") "bridge" None)
  = inr (mkDbParams None "tenant_t_42" None).
Proof. reflexivity. Qed.

(** C8 as stated fails under the bridge tier: the ids a-b and a_b are
    distinct, the tier is the same, and the two descriptors coincide. *)
Lemma bridge_targets_collide :
  let ctx1 := mkTenantContext (Some "a-b") "bridge" None in
  let ctx2 := mkTenantContext (Some "a_b") "bridge" None in
  tenant_tier ctx1 ∈ Spec.isolation_tiers
  /\ tenant_tier ctx1 = tenant_tier ctx2
  /\ tenant_id ctx1 <> tenant_id ctx2
  /\ get_database_connection_params ∅ ctx1 = get_database_connection_params ∅ ctx2.
Proof.
  repeat split; [| done].
  unfold Spec.isolation_tiers. cbn. rewrite !elem_of_cons. tauto.
Qed.

(** C8, amended: on the three tiers the computation returns a descriptor
    that depends on the context and the process environment only; two
    contexts of the same tier with distinct tenant ids get distinct
    descriptors under pool and silo, and under bridge exactly when the ids
    still differ once hyphens are underscores, which is the case whenever
    neither id contains an underscore. *)
Theorem targets_distinct
        (environ : gmap string string) (tier a b : string) (ua ub : option string) :
  tier ∈ Spec.isolation_tiers ->
  a <> b ->
  let ctx1 := mkTenantContext (Some a) tier ua in
  let ctx2 := mkTenantContext (Some b) tier ub in
  (exists d1 d2,
      get_database_connection_params environ ctx1 = inr d1
      /\ get_database_connection_params environ ctx2 = inr d2)
  /\ (forall ctx, ctx = ctx1 ->
        get_database_connection_params environ ctx
        = get_database_connection_params environ ctx1)
  /\ (tier <> "bridge" ->
        get_database_connection_params environ ctx1
        <> get_database_connection_params environ ctx2)
  /\ (tier = "bridge" ->
        (get_database_connection_params environ ctx1
         = get_database_connection_params environ ctx2
         <-> PyStr.replace "-" "_" a = PyStr.replace "-" "_" b))
  /\ (PyStr.contains "_" a = false -> PyStr.contains "_" b = false ->
        get_database_connection_params environ ctx1
        <> get_database_connection_params environ ctx2).
Proof.
  intros Htier Hab ctx1 ctx2. subst ctx1 ctx2.
  assert (Hex : forall (d1 d2 : DbParams),
             exists e1 e2, inr (A := exn) d1 = inr e1 /\ inr (A := exn) d2 = inr e2)
    by eauto.
  apply isolation_tier_cases in Htier as [-> | [-> | ->]].
  - rewrite !params_pool.
    split; [apply Hex |]. split; [by intros ? -> |].
    split; [intros _ Heq; congruence |].
    split; [discriminate |]. intros _ _ Heq; congruence.
  - rewrite !params_bridge.
    split; [apply Hex |]. split; [by intros ? -> |].
    split; [done |]. split.
    + intros _. split; [| by intros ->].
      intros Heq. apply inr_params_eq in Heq as (_ & Heq & _).
      by apply tenant_prefix_inj in Heq.
    + intros Ha Hb Heq. apply inr_params_eq in Heq as (_ & Heq & _).
      apply tenant_prefix_inj in Heq.
      by apply Hab, sanitize_inj.
  - rewrite !params_silo.
    assert (Hne : inr (A := exn) (mkDbParams (Some ("tenant_" +:+ a)) "public" None)
                  <> inr (mkDbParams (Some ("tenant_" +:+ b)) "public" None)).
    { intros Heq. apply inr_params_eq in Heq as (Heq & _).
      simpl in Heq. injection Heq as Heq. revert Heq. fold (String.app "tenant_" a).
      intros Heq. apply Hab. by apply tenant_prefix_inj. }
    split; [apply Hex |]. split; [by intros ? -> |].
    split; [done |]. split; [discriminate | done].
Qed.

Lemma targets_distinct_witness :
  get_database_connection_params ∅ (mkTenantContext (Some "t-1") "bridge" None)
  <> get_database_connection_params ∅ (mkTenantContext (Some "t-2") "bridge" None).
Proof.
  assert (Htier : "bridge" ∈ Spec.isolation_tiers).
  { unfold Spec.isolation_tiers. rewrite !elem_of_cons. tauto. }
  assert (Hne : "t-1" <> "t-2") by discriminate.
  destruct (targets_distinct ∅ "bridge" "t-1" "t-2" None None Htier Hne)
    as (_ & _ & _ & _ & H).
  apply H; reflexivity.
Defined.

End StorageTargets.

(** ** The tenant filter of pool-tier queries *)

Section TenantFilter.

Import TenantContextLayer.

(** Outside the pool tier the query is returned as it came. *)
Lemma apply_tenant_filter_other_tier (query : string) (ctx : TenantContext) :
  tenant_tier ctx <> "pool" -> apply_tenant_filter query ctx = query.
Proof. intros H. unfold apply_tenant_filter. by rewrite decide_False. Qed.

(** A pool-tier query without the word WHERE in any case gets the
    predicate appended. *)
Lemma apply_tenant_filter_appends (query : string) (ctx : TenantContext) :
  tenant_tier ctx = "pool" ->
  PyStr.contains "WHERE" (PyStr.upper query) = false ->
  apply_tenant_filter query ctx
  = PyStr.rstrip ";" query +:+ " WHERE " +:+ tenant_predicate ctx +:+ ";".
Proof.
  intros Htier Hno. unfold apply_tenant_filter.
  by rewrite decide_True, Hno.
Qed.

(** The membership test is made on the upper-cased query, the replacement
    on the query itself: when WHERE occurs only in another case, nothing is
    replaced and the pool-tier query comes back without a tenant predicate. *)
Lemma apply_tenant_filter_case_gap (query : string) (ctx : TenantContext) :
  tenant_tier ctx = "pool" ->
  PyStr.contains "WHERE" (PyStr.upper query) = true ->
  PyStr.contains "WHERE" query = false ->
  apply_tenant_filter query ctx = query.
Proof.
  intros Htier Hup Hno. unfold apply_tenant_filter.
  rewrite decide_True, Hup by done.
  by apply replace_absent.
Qed.

(** What does hold of the filter: a pool-tier query in which WHERE is
    written in upper case, or does not occur in any case, comes back with
    the predicate on the tenant id of the context. *)
Lemma apply_tenant_filter_adds_predicate (query : string) (ctx : TenantContext) :
  tenant_tier ctx = "pool" ->
  PyStr.contains "WHERE" query = true \/ PyStr.contains "WHERE" (PyStr.upper query) = false ->
  PyStr.contains (tenant_predicate ctx) (apply_tenant_filter query ctx) = true.
Proof.
  intros Htier [Hin | Hout].
  - unfold apply_tenant_filter. rewrite decide_True by done.
    pose proof (contains_upper "WHERE" query Hin) as Hup.
    change (PyStr.upper "WHERE") with "WHERE" in Hup. rewrite Hup.
    set (new := "WHERE " +:+ tenant_predicate ctx +:+ " AND").
    assert (Hnew : PyStr.contains (tenant_predicate ctx) new = true).
    { unfold new. apply contains_app_r, contains_prefix. }
    assert (Hrep : PyStr.contains new (PyStr.replace "WHERE" new query) = true)
      by (by apply replace_go_present).
    exact (contains_trans _ _ _ Hnew Hrep).
  - rewrite apply_tenant_filter_appends by done.
    apply contains_app_r, contains_app_r, contains_prefix.
Qed.

Example filter_without_where :
  apply_tenant_filter "SELECT * FROM orders;" (mkTenantContext (Some "t1") "pool" None)
  = "SELECT * FROM orders WHERE tenant_id = 't1';".
Proof. reflexivity. Qed.

Example filter_with_upper_where :
  apply_tenant_filter "SELECT * FROM orders WHERE status = 'pending'"
                      (mkTenantContext (Some "t1") "pool" None)
  = "SELECT * FROM orders WHERE tenant_id = 't1' AND status = 'pending'".
Proof. reflexivity. Qed.

(** C1 on [apply_tenant_filter]: the pool-tier context of tenant A hands in
    a query written in lower case; the query returned is the one handed in
    and carries no predicate on tenant_id, so it reads the orders of every
    tenant. *)
Theorem pool_filter_skips_lowercase_where :
  let ctx := mkTenantContext (Some "tenant-a") "pool" None in
  let query := "select * from orders where status = 'pending'" in
  tenant_tier ctx = "pool"
  /\ apply_tenant_filter query ctx = query
  /\ PyStr.contains "tenant_id" (apply_tenant_filter query ctx) = false
  /\ PyStr.contains (tenant_predicate ctx) (apply_tenant_filter query ctx) = false.
Proof. repeat split. Qed.

End TenantFilter.

(** ** Context resolution *)

Section ContextResolution.

Import TenantContextLayer.

Variable jwt_decode : string -> result (gmap string string).

Lemma bearer_prefix (token : string) :
  PyStr.startswith "Bearer " ("Bearer " +:+ token) = true
  /\ PyStr.drop 7 ("Bearer " +:+ token) = token.
Proof. split; reflexivity. Qed.

Lemma truthy_Some (s : string) : s <> "" -> truthy (Some s) = true.
Proof. by destruct s. Qed.

Lemma truthy_inv (o : option string) :
  truthy o = true -> exists s, o = Some s /\ s <> "".
Proof. destruct o as [[| c s] |]; try discriminate. eauto. Qed.

(** Authorizer claims win over everything else in the request. *)
Lemma resolve_claims (event : Event) (c : gmap string string) :
  claims (event_authorizer event) = Some c ->
  extract_tenant_context jwt_decode event
  = inr (mkTenantContext (c !! "custom:tenant_id")
                         (default "pool" (c !! "custom:tenant_tier"))
                         (c !! "sub")).
Proof. intros H. unfold extract_tenant_context. by rewrite H. Qed.

(** Without claims, a non-empty bearer token decides. *)
Lemma resolve_bearer (event : Event) (token : string) :
  claims (event_authorizer event) = None ->
  py_or (event_headers event !! "Authorization") (event_headers event !! "authorization")
    = Some ("Bearer " +:+ token) ->
  token <> "" ->
  extract_tenant_context jwt_decode event = extract_from_jwt jwt_decode token.
Proof.
  intros Hc Hh Ht. unfold extract_tenant_context, extract_token_from_header.
  rewrite Hc, Hh.
  destruct (bearer_prefix token) as [-> ->].
  rewrite andb_true_r.
  replace (truthy (Some ("Bearer " +:+ token))) with true by reflexivity.
  by rewrite truthy_Some.
Qed.

(** Without claims and without a usable token, the headers decide. *)
Lemma resolve_headers (event : Event) :
  claims (event_authorizer event) = None ->
  truthy (extract_token_from_header event) = false ->
  extract_tenant_context jwt_decode event
  = let h := event_headers event in
    let tid := py_or (h !! "X-Tenant-Id") (h !! "x-tenant-id") in
    if truthy tid
    then inr (mkTenantContext tid (default "pool" (h !! "X-Tenant-Tier")) None)
    else inl (ValueError "No tenant context found in request").
Proof. intros Hc Ht. unfold extract_tenant_context. by rewrite Hc, Ht. Qed.

(** C7: context resolution takes the first source that is present.
    Attached authorizer claims determine the context; otherwise a bearer
    token of the authorization header does, through a decoding that is
    given the token and no key; otherwise the tenant headers do, the tier
    being pool when the tier header is absent. *)
Theorem resolution_precedence (event : Event) :
  (forall c, claims (event_authorizer event) = Some c ->
     extract_tenant_context jwt_decode event
     = inr (mkTenantContext (c !! "custom:tenant_id")
                            (default "pool" (c !! "custom:tenant_tier"))
                            (c !! "sub")))
  /\ (forall token,
        claims (event_authorizer event) = None ->
        py_or (event_headers event !! "Authorization")
              (event_headers event !! "authorization") = Some ("Bearer " +:+ token) ->
        token <> "" ->
        extract_tenant_context jwt_decode event
        = match jwt_decode token with
          | inl e => inl e
          | inr d => inr (mkTenantContext (d !! "custom:tenant_id")
                                          (default "pool" (d !! "custom:tenant_tier"))
                                          (d !! "sub"))
          end)
  /\ (forall tid,
        claims (event_authorizer event) = None ->
        truthy (extract_token_from_header event) = false ->
        py_or (event_headers event !! "X-Tenant-Id")
              (event_headers event !! "x-tenant-id") = Some tid ->
        tid <> "" ->
        extract_tenant_context jwt_decode event
        = inr (mkTenantContext (Some tid)
                               (default "pool" (event_headers event !! "X-Tenant-Tier"))
                               None)
        /\ (event_headers event !! "X-Tenant-Tier" = None ->
            extract_tenant_context jwt_decode event
            = inr (mkTenantContext (Some tid) "pool" None))).
Proof.
  split; [apply resolve_claims |]. split.
  - intros token Hc Hh Ht. by rewrite (resolve_bearer event token).
  - intros tid Hc Ht Hh Hne. rewrite resolve_headers by done. cbn zeta.
    rewrite Hh, truthy_Some by done. split; [done |]. by intros ->.
Qed.

End ContextResolution.

Section ResolutionExamples.

Import TenantContextLayer Examples.

Lemma resolution_precedence_witness :
  extract_tenant_context decode_t9 event_with_claims
    = inr (mkTenantContext (Some "t1") "pool" (Some "u1"))
  /\ extract_tenant_context decode_t9 event_with_bearer
    = inr (mkTenantContext (Some "t9") "silo" None)
  /\ extract_tenant_context decode_t9 event_with_headers
    = inr (mkTenantContext (Some "t2") "pool" None).
Proof.
  split; [| split].
  - destruct (resolution_precedence decode_t9 event_with_claims) as (H & _ & _).
    exact (H (<["custom:tenant_id" := "t1"]> (<["sub" := "u1"]> ∅)) eq_refl).
  - destruct (resolution_precedence decode_t9 event_with_bearer) as (_ & H & _).
    exact (H "abc" eq_refl eq_refl ltac:(discriminate)).
  - destruct (resolution_precedence decode_t9 event_with_headers) as (_ & _ & H).
    destruct (H "t2" eq_refl eq_refl eq_refl ltac:(discriminate)) as [_ H2].
    exact (H2 eq_refl).
Defined.

(** What does hold of C6: a request with no claims attached, no non-empty
    bearer token and no non-empty tenant id header is refused, and the
    decorator answers 401. *)
Lemma no_source_is_unauthenticated
      (jwt_decode : string -> result (gmap string string))
      (func : Event -> TenantContext -> result Response) (event : Event) :
  claims (event_authorizer event) = None ->
  truthy (extract_token_from_header event) = false ->
  truthy (py_or (event_headers event !! "X-Tenant-Id")
                (event_headers event !! "x-tenant-id")) = false ->
  extract_tenant_context jwt_decode event
    = inl (ValueError "No tenant context found in request")
  /\ statusCode (with_tenant_context jwt_decode func event) = 401.
Proof.
  intros Hc Ht Hh.
  assert (He : extract_tenant_context jwt_decode event
               = inl (ValueError "No tenant context found in request")).
  { rewrite resolve_headers by done. cbn zeta. by rewrite Hh. }
  split; [done |]. unfold with_tenant_context. by rewrite He.
Qed.

(** The header path is the only one that looks at the tenant id it found:
    a token whose payload has no tenant id claim resolves as well. *)
Lemma bearer_without_tenant_resolves (event : Event) :
  extract_tenant_context (fun _ => inr ∅) event_with_bearer
  = inr (mkTenantContext None "pool" None).
Proof. reflexivity. Qed.

(** A token the library cannot decode ends in 500, not in 401. *)
Lemma undecodable_token_is_500 :
  statusCode (with_tenant_context (fun _ => inl (DecodeError "Not enough segments"))
                                  echo_handler event_with_bearer) = 500.
Proof. reflexivity. Qed.

(** C6 on the claims path: the authorizer attached claims that hold no
    tenant id, the request has no bearer token and no tenant header, so no
    source yields a tenant id; resolution nevertheless returns a context
    whose tenant id is None, and the decorated handler runs and answers
    200 instead of the 401 of an unauthenticated request. *)
Theorem claims_without_tenant_id_resolve
        (jwt_decode : string -> result (gmap string string)) :
  claims (event_authorizer event_claims_without_tenant) ≫= (.!! "custom:tenant_id") = None
  /\ extract_token_from_header event_claims_without_tenant = None
  /\ py_or (event_headers event_claims_without_tenant !! "X-Tenant-Id")
           (event_headers event_claims_without_tenant !! "x-tenant-id") = None
  /\ extract_tenant_context jwt_decode event_claims_without_tenant
     = inr (mkTenantContext None "pool" (Some "u1"))
  /\ with_tenant_context jwt_decode echo_handler event_claims_without_tenant
     = mkResponse 200 "" "None".
Proof. repeat split. Qed.

End ResolutionExamples.

(** ** The order life cycle of order_handler.py *)

Section OrderLifecycle.

Import OrderHandler.

Variable ISOLATION_MODEL : string.
Variable SNS_TOPIC_ARN : option string.
Variable sns_accepts : OrderEvent -> bool.
Variable now_update now_publish : string.

Abbreviation read := (update_order_read ISOLATION_MODEL).
Abbreviation write :=
  (update_order_write SNS_TOPIC_ARN sns_accepts now_update now_publish).
Abbreviation run :=
  (update_order ISOLATION_MODEL SNS_TOPIC_ARN sns_accepts now_update now_publish).

Lemma no_transition_without_status (new : string) :
  is_valid_status_transition None new = false.
Proof. reflexivity. Qed.

Lemma valid_transitions_lookup (cur : string) :
  valid_transitions !! cur
  = if decide (cur = "pending") then Some ["confirmed"; "cancelled"]
    else if decide (cur = "confirmed") then Some ["shipped"; "cancelled"]
    else if decide (cur = "shipped") then Some ["delivered"; "cancelled"]
    else if decide (cur = "delivered") then Some []
    else if decide (cur = "cancelled") then Some []
    else None.
Proof.
  unfold valid_transitions.
  repeat (case_decide; [subst cur; reflexivity |];
          rewrite lookup_insert_ne by congruence).
  apply lookup_empty.
Qed.

(** [is_valid_status_transition] accepts exactly the pairs of the table. *)
Lemma is_valid_status_transition_table (cur new : string) :
  is_valid_status_transition (Some cur) new = true
  <-> (cur, new) ∈ Spec.transition_table.
Proof.
  unfold is_valid_status_transition, Spec.transition_table.
  rewrite bool_decide_eq_true. cbn [mbind option_bind].
  rewrite valid_transitions_lookup.
  repeat case_decide; subst; cbn [from_option id];
    rewrite ?elem_of_cons, ?elem_of_nil; intuition congruence.
Qed.

Lemma transition_target_is_status (cur new : string) :
  (cur, new) ∈ Spec.transition_table -> new ∈ valid_statuses /\ new <> "".
Proof.
  unfold Spec.transition_table, valid_statuses.
  rewrite !elem_of_cons, !elem_of_nil.
  intros H; split; [| intros ->]; intuition congruence.
Qed.

(** What a request that passed the first half looked like. *)
Lemma read_proceed_inv (ctx : TenantContext) (req : Request) (t : Table)
      (o : string) (k : Key) (s : string) :
  read ctx req t = Proceed o k s ->
  path_id req = Some o /\ body_status req = Some s
  /\ k = order_key ISOLATION_MODEL ctx o
  /\ exists item cur, t !! k = Some item /\ item !! "status" = Some cur
                      /\ (cur, s) ∈ Spec.transition_table.
Proof.
  unfold update_order_read.
  destruct (truthy (path_id req)) eqn:Hp; cbn [negb]; [| discriminate].
  destruct (truthy (body_status req)) eqn:Hs; cbn [negb]; [| discriminate].
  apply truthy_inv in Hp as (o' & Hp & _). apply truthy_inv in Hs as (s' & Hs & _).
  rewrite Hp, Hs. cbn [default from_option id].
  case_bool_decide; cbn [negb]; [| discriminate].
  destruct (t !! order_key ISOLATION_MODEL ctx o') as [item |] eqn:Hitem; [| discriminate].
  destruct (is_valid_status_transition (item !! "status") s') eqn:Hv;
    cbn [negb]; [| discriminate].
  intros [= <- <- <-]. repeat split; try done.
  destruct (item !! "status") as [cur |] eqn:Hcur; [| discriminate].
  exists item, cur. repeat split; try done.
  by apply is_valid_status_transition_table.
Qed.

(** The first half on a well-formed request for a stored order. *)
Lemma read_stored_order (ctx : TenantContext) (req : Request) (t : Table)
      (o s cur : string) (item : Item) :
  path_id req = Some o -> o <> "" ->
  body_status req = Some s -> s <> "" ->
  t !! order_key ISOLATION_MODEL ctx o = Some item ->
  item !! "status" = Some cur ->
  read ctx req t
  = if bool_decide (s ∈ valid_statuses) && is_valid_status_transition (Some cur) s
    then Proceed o (order_key ISOLATION_MODEL ctx o) s
    else Reject (create_response 400 (ErrorBody
           (if bool_decide (s ∈ valid_statuses)
            then "Cannot transition from " +:+ cur +:+ " to " +:+ s
            else "Invalid status. Must be one of: pending, confirmed, shipped, delivered, cancelled"))).
Proof.
  intros Hp Ho Hs Hne Hitem Hcur. unfold update_order_read.
  rewrite Hp, Hs, !truthy_Some by done. cbn [negb default from_option id].
  case_bool_decide; cbn [negb andb]; [| done].
  rewrite Hitem, Hcur.
  by destruct (is_valid_status_transition (Some cur) s).
Qed.

(** The second half never refuses: whatever the table holds by then, the
    status is written and the answer is 200. *)
Lemma write_always_succeeds (ctx : TenantContext) (o : string) (k : Key)
      (s : string) (w : World) :
  let msg := mkOrderEvent (tenant_id ctx) o ("ORDER_" +:+ PyStr.upper s) now_publish in
  exists w' item,
    write ctx o k s w = (w', create_response 200 (OrderBody "Order updated successfully" item))
    /\ table w' !! k = Some item
    /\ stored_status k (table w') = Some s
    /\ (forall k', k' <> k -> table w' !! k' = table w !! k')
    /\ topic w' = if truthy SNS_TOPIC_ARN && sns_accepts msg
                  then topic w ++ [msg] else topic w.
Proof.
  intros msg. unfold update_order_write, update_item.
  eexists _, _. split; [reflexivity |]. cbn [table topic].
  split; [apply lookup_insert_eq |]. split; [| split].
  - unfold stored_status. rewrite lookup_insert_eq. cbn [mbind option_bind].
    rewrite lookup_insert_ne by discriminate. apply lookup_insert_eq.
  - intros k' Hk. by rewrite lookup_insert_ne.
  - unfold publish_order_event. fold msg.
    by destruct (truthy SNS_TOPIC_ARN), (sns_accepts msg).
Qed.

(** [update_order] on a stored order follows the table: a pair of the table
    is applied and answered 200, any other pair (a move away from delivered
    or cancelled, an unknown status word) is answered 400 and nothing is
    written or published. *)
Lemma update_order_follows_table (ctx : TenantContext) (req : Request) (w : World)
      (o s cur : string) (item : Item) :
  path_id req = Some o -> o <> "" ->
  body_status req = Some s -> s <> "" ->
  table w !! order_key ISOLATION_MODEL ctx o = Some item ->
  item !! "status" = Some cur ->
  ((cur, s) ∈ Spec.transition_table ->
     statusCode (run ctx req w).2 = 200
     /\ stored_status (order_key ISOLATION_MODEL ctx o) (table (run ctx req w).1) = Some s)
  /\ ((cur, s) ∉ Spec.transition_table ->
     statusCode (run ctx req w).2 = 400 /\ (run ctx req w).1 = w).
Proof.
  intros Hp Ho Hs Hne Hitem Hcur. unfold update_order.
  rewrite (read_stored_order ctx req (table w) o s cur item) by done.
  split; intros Hin.
  - destruct (transition_target_is_status _ _ Hin) as [Hv _].
    apply is_valid_status_transition_table in Hin.
    rewrite bool_decide_eq_true_2, Hin by done. cbn [andb].
    destruct (write_always_succeeds ctx o (order_key ISOLATION_MODEL ctx o) s w)
      as (w' & item' & -> & _ & Hst & _).
    done.
  - assert (is_valid_status_transition (Some cur) s = false) as ->.
    { apply not_true_is_false. by rewrite is_valid_status_transition_table. }
    by rewrite andb_false_r.
Qed.

End OrderLifecycle.

(** ** Concurrent status changes and the order event *)

Section OrderUpdateEffects.

Import OrderHandler Examples.

Variable ISOLATION_MODEL : string.
Variable SNS_TOPIC_ARN : option string.
Variable sns_accepts : OrderEvent -> bool.
Variable now_update now_publish : string.

Abbreviation read' := (update_order_read ISOLATION_MODEL).
Abbreviation write' :=
  (update_order_write SNS_TOPIC_ARN sns_accepts now_update now_publish).
Abbreviation run' :=
  (update_order ISOLATION_MODEL SNS_TOPIC_ARN sns_accepts now_update now_publish).
Abbreviation race :=
  (update_order_interleaved ISOLATION_MODEL SNS_TOPIC_ARN sns_accepts
                            now_update now_publish).

(** C3 as stated fails: two requests read the status pending of the same
    order, one asks for confirmed and one for cancelled; the first write
    stores confirmed, so at the second write the stored status is no longer
    the one that was read, yet the second write is answered 200 as well and
    replaces the record. *)
Lemma conflicting_updates_both_succeed :
  let both := update_order_interleaved "pool" None sns_up "t1" "t2"
                ctx_a (put_status "confirmed") ctx_a (put_status "cancelled")
                (world_o1 "pending") in
  let first := update_order "pool" None sns_up "t1" "t2"
                 ctx_a (put_status "confirmed") (world_o1 "pending") in
  stored_status key_o1 (table (world_o1 "pending")) = Some "pending"
  /\ stored_status key_o1 (table first.1) = Some "confirmed"
  /\ statusCode both.1.2 = 200
  /\ statusCode both.2 = 200
  /\ stored_status key_o1 (table both.1.1) = Some "cancelled"
  /\ table both.1.1 <> table first.1.
Proof.
  repeat split. intros Heq.
  apply (f_equal (stored_status key_o1)) in Heq. discriminate Heq.
Qed.

(** C3, amended: the update is not conditional on the status that was read.
    The transition is checked against the status read at the start of the
    request; the write then stores the new status whatever the table holds
    at that time and is answered 200.  Hence two requests that both read
    the same table and both pass the check both succeed, and the later
    write is the one that stays. *)
Theorem status_update_is_unconditional
        (ctx1 ctx2 : TenantContext) (req1 req2 : Request) (w : World)
        (o1 : string) (k1 : Key) (s1 o2 : string) (k2 : Key) (s2 : string) :
  read' ctx1 req1 (table w) = Proceed o1 k1 s1 ->
  read' ctx2 req2 (table w) = Proceed o2 k2 s2 ->
  (forall w_then : World,
      statusCode (write' ctx1 o1 k1 s1 w_then).2 = 200
      /\ stored_status k1 (table (write' ctx1 o1 k1 s1 w_then).1) = Some s1)
  /\ statusCode (race ctx1 req1 ctx2 req2 w).1.2 = 200
  /\ statusCode (race ctx1 req1 ctx2 req2 w).2 = 200
  /\ stored_status k2 (table (race ctx1 req1 ctx2 req2 w).1.1) = Some s2.
Proof.
  intros H1 H2. split.
  - intros w_then.
    destruct (write_always_succeeds SNS_TOPIC_ARN sns_accepts now_update now_publish
                                    ctx1 o1 k1 s1 w_then)
      as (w' & item & -> & _ & Hst & _).
    done.
  - unfold update_order_interleaved. rewrite H1, H2.
    destruct (write_always_succeeds SNS_TOPIC_ARN sns_accepts now_update now_publish
                                    ctx1 o1 k1 s1 w)
      as (w1 & item1 & -> & _).
    destruct (write_always_succeeds SNS_TOPIC_ARN sns_accepts now_update now_publish
                                    ctx2 o2 k2 s2 w1)
      as (w2 & item2 & -> & _ & Hst & _).
    done.
Qed.

(** C9 as stated fails: with no topic configured (the default of
    [SNS_TOPIC_ARN]) a status update succeeds and nothing is published. *)
Lemma update_without_topic_publishes_nothing :
  let done := update_order "pool" None sns_up "t1" "t2"
                ctx_a (put_status "confirmed") (world_o1 "pending") in
  statusCode done.2 = 200
  /\ stored_status key_o1 (table done.1) = Some "confirmed"
  /\ topic done.1 = [].
Proof. repeat split. Qed.

(** C9, amended: after a successful status update, if a topic is configured
    and the publish goes through, exactly the event with the tenant id, the
    order id, the type ORDER_ followed by the upper-cased new status and the
    time stamp has been added to the topic; if no topic is configured or the
    publish fails, the topic is as before.  In every case the answer is 200
    and the stored status is the new one. *)
Theorem event_after_status_update
        (ctx : TenantContext) (req : Request) (w : World)
        (o : string) (k : Key) (s : string) :
  read' ctx req (table w) = Proceed o k s ->
  let msg := mkOrderEvent (tenant_id ctx) o ("ORDER_" +:+ PyStr.upper s) now_publish in
  path_id req = Some o /\ body_status req = Some s
  /\ statusCode (run' ctx req w).2 = 200
  /\ stored_status k (table (run' ctx req w).1) = Some s
  /\ topic (run' ctx req w).1
     = (if truthy SNS_TOPIC_ARN && sns_accepts msg then topic w ++ [msg] else topic w).
Proof.
  intros Hread msg.
  destruct (read_proceed_inv _ _ _ _ _ _ _ Hread) as (Hp & Hs & _).
  split; [done |]. split; [done |].
  unfold update_order. rewrite Hread.
  destruct (write_always_succeeds SNS_TOPIC_ARN sns_accepts now_update now_publish
                                  ctx o k s w)
    as (w' & item & -> & _ & Hst & _ & Htopic).
  done.
Qed.

End OrderUpdateEffects.

Section OrderUpdateWitnesses.

Import OrderHandler Examples.

Lemma status_update_is_unconditional_witness :
  statusCode (update_order_interleaved "pool" None sns_up "t1" "t2"
                ctx_a (put_status "confirmed") ctx_a (put_status "confirmed")
                (world_o1 "pending")).1.2 = 200
  /\ statusCode (update_order_interleaved "pool" None sns_up "t1" "t2"
                ctx_a (put_status "confirmed") ctx_a (put_status "confirmed")
                (world_o1 "pending")).2 = 200.
Proof.
  destruct (status_update_is_unconditional "pool" None sns_up "t1" "t2"
              ctx_a ctx_a (put_status "confirmed") (put_status "confirmed")
              (world_o1 "pending") "o1" key_o1 "confirmed" "o1" key_o1 "confirmed"
              eq_refl eq_refl) as (_ & H1 & H2 & _).
  exact (conj H1 H2).
Defined.

(** A publish that fails leaves the update in place. *)
Lemma event_after_status_update_witness :
  statusCode (update_order "pool" (Some "arn:aws:sns:orders") sns_down "t1" "t2"
                ctx_a (put_status "confirmed") (world_o1 "pending")).2 = 200
  /\ stored_status key_o1
       (table (update_order "pool" (Some "arn:aws:sns:orders") sns_down "t1" "t2"
                 ctx_a (put_status "confirmed") (world_o1 "pending")).1)
     = Some "confirmed".
Proof.
  destruct (event_after_status_update "pool" (Some "arn:aws:sns:orders") sns_down
              "t1" "t2" ctx_a (put_status "confirmed") (world_o1 "pending")
              "o1" key_o1 "confirmed" eq_refl) as (_ & _ & H1 & H2 & _).
  exact (conj H1 H2).
Defined.

Example event_is_published :
  topic (update_order "pool" (Some "arn:aws:sns:orders") sns_up "t1" "t2"
           ctx_a (put_status "confirmed") (world_o1 "pending")).1
  = [mkOrderEvent "tenant-a" "o1" "ORDER_CONFIRMED" "t2"].
Proof. reflexivity. Qed.

End OrderUpdateWitnesses.

(** ** The SQL status update of order_service.py *)

Section SqlStatusUpdate.

Import TenantContextLayer OrderService Examples.

(** [update_order_status] never reads the stored status: any of its five
    status words is written over any stored status. *)
Lemma update_order_status_any_transition (now cur new : string) :
  new ∈ valid_statuses ->
  update_order_status now "o1" (Some new) pool_ctx_a [row_o1 cur]
  = ([mkOrderRow "o1" (Some "tenant-a") "ORD-1" new now],
     create_response 200 (StatusBody "Order status updated"
                            (mkOrderRow "o1" (Some "tenant-a") "ORD-1" new now))).
Proof.
  intros Hnew. unfold update_order_status.
  by rewrite bool_decide_eq_true_2.
Qed.

(** C2 on [update_order_status]: the move from delivered to cancelled is
    not in the table, and the request is answered 200 with the stored status
    changed to cancelled; the move from pending to confirmed is in the table,
    and the request is answered 400 because confirmed is not among the status
    words this handler accepts. *)
Theorem sql_status_update_ignores_table :
  (("delivered", "cancelled") ∉ Spec.transition_table)
  /\ update_order_status "t1" "o1" (Some "cancelled") pool_ctx_a [row_o1 "delivered"]
     = ([mkOrderRow "o1" (Some "tenant-a") "ORD-1" "cancelled" "t1"],
        create_response 200 (StatusBody "Order status updated"
                               (mkOrderRow "o1" (Some "tenant-a") "ORD-1" "cancelled" "t1")))
  /\ ("pending", "confirmed") ∈ Spec.transition_table
  /\ update_order_status "t1" "o1" (Some "confirmed") pool_ctx_a [row_o1 "pending"]
     = ([row_o1 "pending"],
        create_response 400 (ErrorBody
          "Invalid status. Must be one of: pending, processing, shipped, delivered, cancelled")).
Proof.
  split; [| split; [reflexivity | split; [| reflexivity]]].
  - unfold Spec.transition_table. rewrite !elem_of_cons, elem_of_nil.
    intuition congruence.
  - unfold Spec.transition_table. rewrite !elem_of_cons. intuition congruence.
Qed.

End SqlStatusUpdate.

(** ** Tier tables and the limit check *)

Section Limits.

Import TenantHandler TenantUtils ProductHandler.

Lemma limits_unknown_tier (tier : string) :
  tier ∉ Spec.known_tiers -> limits !! tier = None /\ features !! tier = None.
Proof.
  unfold Spec.known_tiers. rewrite !not_elem_of_cons. intros (Hb & Hp & He & _).
  unfold limits, features.
  by rewrite !lookup_insert_ne, !lookup_empty by congruence.
Qed.

Lemma get_tier_limits_cases (tier : string) :
  get_tier_limits tier = basic_limits \/ get_tier_limits tier = premium_limits
  \/ get_tier_limits tier = enterprise_limits.
Proof.
  unfold get_tier_limits, limits.
  destruct (decide (tier = "basic")) as [-> | Hb]; [by left |].
  destruct (decide (tier = "premium")) as [-> | Hp]; [by right; left |].
  destruct (decide (tier = "enterprise")) as [-> | He]; [by right; right |].
  left. by rewrite !lookup_insert_ne, lookup_empty by congruence.
Qed.

(** Every limit of every tier table is -1 or a non-negative cap. *)
Lemma tier_limit_range (tier kind : string) (limit : Z) :
  get_tier_limits tier !! kind = Some limit -> -1 <= limit.
Proof.
  assert (Hall : forall m : gmap string Z,
             m = basic_limits \/ m = premium_limits \/ m = enterprise_limits ->
             map_Forall (fun _ v => -1 <= v) m).
  { intros m [-> | [-> | ->]];
      unfold basic_limits, premium_limits, enterprise_limits;
      repeat (apply map_Forall_insert_2; [lia |]); apply map_Forall_empty. }
  intros H. exact (Hall _ (get_tier_limits_cases tier) kind limit H).
Qed.

(** Below -1 the two readings of the rule part: the check refuses, although
    the limit is not between 0 and the count. *)
Remark allow_create_below_minus_one :
  allow_create (-2) 0 = false /\ ~ (0 <= -2 <= 0).
Proof. split; [reflexivity | lia]. Qed.

(** C4: the check allows the creation iff the limit is -1 or the count is
    below the limit, and the guard of [create_product] answers 403 in the
    other case only; for a tenant limit value, which is -1 or a
    non-negative cap, the check says no iff 0 <= limit <= current_count. *)
Theorem limit_check (limit current_count : Z) :
  (allow_create limit current_count = true <-> limit = -1 \/ current_count < limit)
  /\ (create_product_limit_guard limit current_count = None
      <-> limit = -1 \/ current_count < limit)
  /\ (limit = -1 -> allow_create limit current_count = true)
  /\ (-1 <= limit ->
      (allow_create limit current_count = false <-> 0 <= limit <= current_count)).
Proof.
  unfold create_product_limit_guard, allow_create.
  destruct (decide (limit = -1)) as [-> | Hne]; cbn [negb].
  - repeat split; intros; try done; try lia; auto.
  - case_bool_decide; cbn [negb]; repeat split; intros; try done; try lia;
      intuition lia.
Qed.

Lemma limit_check_witness :
  allow_create 5 5 = false <-> 0 <= 5 <= 5.
Proof.
  destruct (limit_check 5 5) as (_ & _ & _ & H).
  apply H. lia.
Defined.

Example enterprise_products_unlimited (current_count : Z) :
  forall limit, get_tier_limits "enterprise" !! "max_products" = Some limit ->
                allow_create limit current_count = true.
Proof. intros limit [= <-]. reflexivity. Qed.

(** The two lookups on a tier word outside basic, premium and enterprise:
    no error, and the limits and the features of basic. *)
Lemma unknown_tier_lookups (tier : string) :
  tier ∉ Spec.known_tiers ->
  get_tier_limits tier = get_tier_limits "basic"
  /\ get_tier_features tier = get_tier_features "basic"
  /\ get_tier_limits tier = basic_limits
  /\ get_tier_features tier = basic_features.
Proof.
  intros Htier. destruct (limits_unknown_tier tier Htier) as [Hl Hf].
  unfold get_tier_limits, get_tier_features. rewrite Hl, Hf. done.
Qed.

Lemma provision_keeps_tenants
      (s3 : string -> bool) (table_error : string -> option exn)
      (tenant_id : string) (account : Account) :
  acct_tenants (provision_silo_resources s3 table_error tenant_id account).1
  = acct_tenants account.
Proof.
  unfold provision_silo_resources.
  by destruct (create_tables table_error _ _) as [tables [e | []]].
Qed.

(** [register_tenant] with an unknown tier word: the item is stored with the
    limits and the features of basic before any service is called, and the
    answer is 201 unless the provisioning of a silo tenant or the activity
    log raises. *)
Lemma register_unknown_tier
      (cognito s3 : string -> bool) (table_error : string -> option exn)
      (log : string -> string -> string -> string -> result unit)
      (new_id created updated : string) (body : gmap string string)
      (account : Account) (tier company email : string) :
  tier ∉ Spec.known_tiers ->
  body !! "tier" = Some tier ->
  body !! "company_name" = Some company -> company <> "" ->
  body !! "admin_email" = Some email -> email <> "" ->
  let out := register_tenant cognito s3 table_error log new_id created updated
                             body account in
  (exists item,
      acct_tenants out.1 !! new_id = Some item
      /\ item !! "tier" = Some (AStr tier)
      /\ item !! "limits" = Some (ALimits basic_limits)
      /\ item !! "features" = Some (AFeatures basic_features)
      /\ item !! "created_at" = Some (AStr created)
      /\ item !! "updated_at" = Some (AStr updated))
  /\ (http_status out.2 = 201 \/ http_status out.2 = 500)
  /\ (body !! "isolation_model" <> Some "silo" ->
      log new_id tier "register_tenant" "SUCCESS" = inr () ->
      out.2 = mkOutcome 201 (Registered "Tenant registered successfully" new_id tier
                                        (default "pool" (body !! "isolation_model")))).
Proof.
  intros Htier Ht Hc Hcne He Hene. cbn zeta.
  destruct (unknown_tier_lookups tier Htier) as (_ & _ & HL & HF).
  unfold register_tenant.
  rewrite Ht, Hc, He, !truthy_Some by done. cbn [negb orb default from_option id].
  rewrite HL, HF.
  set (record := <["tenant_id" := AStr new_id]> _).
  set (stored := mkAccount _ _ _ _).
  assert (Hrec : record !! "tier" = Some (AStr tier)
                 /\ record !! "limits" = Some (ALimits basic_limits)
                 /\ record !! "features" = Some (AFeatures basic_features)
                 /\ record !! "created_at" = Some (AStr created)
                 /\ record !! "updated_at" = Some (AStr updated)).
  { unfold record. repeat split;
      repeat (rewrite lookup_insert_ne by discriminate); apply lookup_insert_eq. }
  destruct (decide (from_option id "pool" (body !! "isolation_model") = "silo")) as [Hsilo | Hnot].
  - pose proof (provision_keeps_tenants s3 table_error new_id stored) as Hkeep.
    destruct (provision_silo_resources s3 table_error new_id stored)
      as [provisioned [e | []]]; cbn [fst] in Hkeep.
    + cbn [fst snd]. split; [| split].
      * exists record. rewrite Hkeep. unfold stored. cbn [acct_tenants].
        split; [apply lookup_insert_eq | exact Hrec].
      * by right.
      * intros Hno. exfalso. apply Hno.
        destruct (body !! "isolation_model"); cbn in Hsilo; congruence.
    + destruct (log new_id tier "register_tenant" "SUCCESS") as [e | []] eqn:Hlog;
        cbn [fst snd]; (split; [| split]).
      * exists record. rewrite Hkeep. unfold stored. cbn [acct_tenants].
        split; [apply lookup_insert_eq | exact Hrec].
      * by right.
      * intros _ [=].
      * exists record. rewrite Hkeep. unfold stored. cbn [acct_tenants].
        split; [apply lookup_insert_eq | exact Hrec].
      * by left.
      * done.
  - destruct (log new_id tier "register_tenant" "SUCCESS") as [e | []] eqn:Hlog;
      cbn [fst snd]; (split; [| split]).
    + exists record. unfold stored. cbn [acct_tenants].
      split; [apply lookup_insert_eq | exact Hrec].
    + by right.
    + intros _ [=].
    + exists record. unfold stored. cbn [acct_tenants].
      split; [apply lookup_insert_eq | exact Hrec].
    + by left.
    + done.
Qed.

(** [update_tenant] on a body without a status: the answer is 500 and the
    table is as before, whatever the tier word of the body is and whether
    there is one. *)
Lemma update_without_status_fails
      (me now : string) (body : gmap string string)
      (table : gmap string (gmap string Attr)) :
  body !! "status" = None ->
  update_tenant (OrderHandler.mkTenantContext me) (Some me) body now table
  = (table, mkOutcome 500 (Rejected "Failed to update tenant")).
Proof.
  intros Hs. unfold update_tenant. cbn [OrderHandler.tenant_id].
  rewrite bool_decide_eq_true_2 by done. cbn [negb]. by rewrite Hs.
Qed.

(** [update_tenant] on a body with a status and an unknown tier word: the
    answer is 200 and the item gets the tier word as it is, with the limits
    and the features of basic. *)
Lemma update_unknown_tier_with_status
      (me now tier status : string) (body : gmap string string)
      (table : gmap string (gmap string Attr)) :
  tier ∉ Spec.known_tiers ->
  body !! "tier" = Some tier ->
  body !! "status" = Some status ->
  let out := update_tenant (OrderHandler.mkTenantContext me) (Some me) body now table in
  http_status out.2 = 200
  /\ exists item,
       out.1 !! me = Some item
       /\ payload out.2 = Updated "Tenant updated successfully" item
       /\ item !! "tier" = Some (AStr tier)
       /\ item !! "limits" = Some (ALimits basic_limits)
       /\ item !! "features" = Some (AFeatures basic_features)
       /\ item !! "status" = Some (AStr status)
       /\ item !! "updated_at" = Some (AStr now).
Proof.
  intros Htier Ht Hs. cbn zeta.
  destruct (unknown_tier_lookups tier Htier) as (_ & _ & HL & HF).
  unfold update_tenant, update_tenant_sets. cbn [OrderHandler.tenant_id].
  rewrite bool_decide_eq_true_2 by done. cbn [negb]. rewrite Hs, Ht, HL, HF.
  cbn [app foldl fst snd http_status payload]. split; [done |].
  eexists. split; [apply lookup_insert_eq |]. split; [done |].
  repeat split; repeat (rewrite lookup_insert_ne by discriminate); apply lookup_insert_eq.
Qed.


(** The tier-only body fails for a tier word of the table as well. *)
Example tier_only_update_to_premium_fails :
  update_tenant (OrderHandler.mkTenantContext "tenant-a") (Some "tenant-a")
                (<["tier" := "premium"]> ∅) "2024-01-01T00:00:00" MoreExamples.tenant_items
  = (MoreExamples.tenant_items, mkOutcome 500 (Rejected "Failed to update tenant")).
Proof. by apply update_without_status_fails. Qed.

(** A registration with the tier word gold, all services answering. *)
Example register_gold_tenant :
  let out := register_tenant MoreExamples.accept_all MoreExamples.accept_all
                             MoreExamples.no_table_error MoreExamples.log_ok
                             "id-1" "2024-01-01T00:00:00.000001" "2024-01-01T00:00:00.000002"
                             MoreExamples.registration_body MoreExamples.empty_account in
  out.2 = mkOutcome 201 (Registered "Tenant registered successfully" "id-1" "gold" "pool")
  /\ acct_tenants out.1 !! "id-1" ≫= (.!! "limits") = Some (ALimits basic_limits)
  /\ acct_tenants out.1 !! "id-1" ≫= (.!! "created_at")
     = Some (AStr "2024-01-01T00:00:00.000001")
  /\ acct_tenants out.1 !! "id-1" ≫= (.!! "updated_at")
     = Some (AStr "2024-01-01T00:00:00.000002")
  /\ acct_groups out.1 = {["tenant-id-1"]}.
Proof. cbn zeta. repeat split; vm_compute; reflexivity. Qed.

End Limits.

(** ** Row-level isolation of the pool tier *)

Section PoolIsolation.

Import Examples.

(** order_handler.get_order under the pool model reads the key made of the
    tenant id of the context and nothing else: two tables that agree on the
    keys of that tenant give the same answer. *)
Lemma pool_get_order_reads_own_keys
      (enforce : OrderHandler.TenantContext -> option string -> result unit)
      (ctx : OrderHandler.TenantContext) (path_id : option string)
      (t1 t2 : gmap (option string * string) (gmap string string)) :
  (forall o, t1 !! (Some (OrderHandler.tenant_id ctx), o)
             = t2 !! (Some (OrderHandler.tenant_id ctx), o)) ->
  OrderHandler.get_order "pool" enforce ctx path_id t1
  = OrderHandler.get_order "pool" enforce ctx path_id t2.
Proof.
  intros Hagree. unfold OrderHandler.get_order, OrderHandler.order_key.
  rewrite decide_True by done. by rewrite Hagree.
Qed.

(** order_handler.update_order under the pool model leaves every item of
    every other tenant as it was. *)
Lemma pool_update_order_keeps_other_tenants
      (arn : option string) (accepts : OrderHandler.OrderEvent -> bool)
      (now1 now2 : string) (ctx : OrderHandler.TenantContext)
      (req : OrderHandler.Request) (w : OrderHandler.World)
      (other o : string) :
  other <> OrderHandler.tenant_id ctx ->
  OrderHandler.table (OrderHandler.update_order "pool" arn accepts now1 now2 ctx req w).1
    !! (Some other, o)
  = OrderHandler.table w !! (Some other, o).
Proof.
  intros Hother. unfold OrderHandler.update_order.
  destruct (OrderHandler.update_order_read "pool" ctx req (OrderHandler.table w))
    as [r | o' k s] eqn:Hread; [done |].
  destruct (read_proceed_inv _ _ _ _ _ _ _ Hread) as (_ & _ & -> & _).
  destruct (write_always_succeeds arn accepts now1 now2 ctx o'
              (OrderHandler.order_key "pool" ctx o') s w)
    as (w' & item & -> & _ & _ & Hrest & _).
  apply Hrest. unfold OrderHandler.order_key. rewrite decide_True by done.
  intros [= Heq _]. by apply Hother.
Qed.

(** order_service.update_order_status for a pool-tier context rewrites rows
    of the tenant of the context only. *)
Lemma pool_sql_update_keeps_other_tenants
      (now order_id : string) (body_status : option string)
      (ctx : TenantContextLayer.TenantContext) (orders : list OrderService.OrderRow)
      (i : nat) (row : OrderService.OrderRow) :
  TenantContextLayer.tenant_tier ctx = "pool" ->
  orders !! i = Some row ->
  OrderService.row_tenant_id row <> TenantContextLayer.tenant_id ctx ->
  (OrderService.update_order_status now order_id body_status ctx orders).1 !! i = Some row.
Proof.
  intros Htier Hrow Hother. unfold OrderService.update_order_status.
  destruct body_status as [new_status |]; [| done].
  destruct (negb _); [done |].
  unfold OrderService.execute_update.
  assert (Hmiss : OrderService.update_where order_id ctx row = false).
  { unfold OrderService.update_where. rewrite decide_True by done.
    unfold OrderService.sql_eq. revert Hother.
    destruct (OrderService.row_tenant_id row) as [a |],
             (TenantContextLayer.tenant_id ctx) as [b |];
      intros Hother; rewrite ?andb_false_r; try done.
    rewrite (bool_decide_eq_false_2 (a = b)) by congruence. apply andb_false_r. }
  destruct (map _ (filter _ orders)); cbn [fst];
    by rewrite list_lookup_fmap, Hrow; cbn; rewrite Hmiss.
Qed.

End PoolIsolation.

(** * Further properties of the handlers *)

(** ** Credentials and routing of application/layers/tenant-context.py *)

Section TenantContextMore.

Import TenantContextLayer.

Variable jwt_decode : string -> result (gmap string string).

(** X1: [extract_token_from_header] returns a token exactly when the
    Authorization header (or, if that one is missing or empty, the
    lower-case authorization header) is the word Bearer, one space and that
    token; every other header value gives no token. *)
Theorem bearer_token_roundtrip (event : Event) (token : string) :
  extract_token_from_header event = Some token
  <-> py_or (event_headers event !! "Authorization")
            (event_headers event !! "authorization") = Some ("Bearer " +:+ token).
Proof.
  unfold extract_token_from_header.
  destruct (py_or _ _) as [h |]; [| split; discriminate].
  split.
  - destruct (truthy (Some h)); cbn [andb]; [| discriminate].
    destruct (PyStr.startswith "Bearer " h) eqn:Hsw; [| discriminate].
    destruct (startswith_inv _ _ Hsw) as [t ->].
    destruct (bearer_prefix t) as [_ ->]. by intros [= ->].
  - intros [= ->]. destruct (bearer_prefix token) as [-> ->].
    by replace (truthy (Some ("Bearer " +:+ token))) with true by reflexivity.
Qed.

(** X2: a request without authorizer claims, without a non-empty bearer
    token and without a non-empty tenant id header is answered 401 by the
    decorator, with the same answer whatever the decorated handler is: the
    handler does not run. *)
Theorem no_credentials_no_handler
        (func1 func2 : Event -> TenantContext -> result Response) (event : Event) :
  claims (event_authorizer event) = None ->
  truthy (extract_token_from_header event) = false ->
  truthy (py_or (event_headers event !! "X-Tenant-Id")
                (event_headers event !! "x-tenant-id")) = false ->
  with_tenant_context jwt_decode func1 event
    = mkResponse 401 "Unauthorized" "No tenant context found in request"
  /\ with_tenant_context jwt_decode func2 event
    = with_tenant_context jwt_decode func1 event.
Proof.
  intros Hc Ht Hh.
  destruct (no_source_is_unauthenticated jwt_decode func1 event Hc Ht Hh) as [He _].
  unfold with_tenant_context. by rewrite He.
Qed.

(** X3: when the bearer token of a request without claims cannot be
    decoded, the handler does not run and the answer is 401 if the decoder
    raised a ValueError and 500 for any other exception. *)
Theorem undecodable_token_answer
        (func : Event -> TenantContext -> result Response) (event : Event)
        (token : string) (e : exn) :
  claims (event_authorizer event) = None ->
  extract_token_from_header event = Some token -> token <> "" ->
  jwt_decode token = inl e ->
  with_tenant_context jwt_decode func event
  = match e with
    | ValueError m => mkResponse 401 "Unauthorized" m
    | _ => mkResponse 500 "Internal Server Error" (exn_str e)
    end.
Proof.
  intros Hc Ht Hne Hd. unfold with_tenant_context, extract_tenant_context.
  rewrite Hc, Ht, truthy_Some by done. cbn [default from_option id].
  unfold extract_from_jwt. rewrite Hd. by destruct e.
Qed.

End TenantContextMore.

Section TenantContextTargets.

Import TenantContextLayer.

Lemma append_assoc (x y z : string) : (x +:+ y) +:+ z = x +:+ (y +:+ z).
Proof.
  induction x as [| c x IH]; [done |].
  rewrite !append_cons. by rewrite IH.
Qed.

Lemma startswith_app_cancel (p x y : string) :
  PyStr.startswith (p +:+ x) (p +:+ y) = PyStr.startswith x y.
Proof.
  induction p as [| c p IH]; [done |].
  rewrite !append_cons. cbn [PyStr.startswith]. by rewrite decide_True.
Qed.

Lemma contains_char_cons (a c : ascii) (s : string) :
  PyStr.contains (String a "") (String c s) = false ->
  c <> a /\ PyStr.contains (String a "") s = false.
Proof.
  cbn [PyStr.contains]. rewrite startswith_single.
  intros H. apply orb_false_iff in H as [Hc Hs].
  apply bool_decide_eq_false in Hc. split; [congruence | done].
Qed.

(** A slash-free name followed by a slash is a prefix of another such name
    followed by a slash and anything only if the two names are the same. *)
Lemma slash_terminated_prefix (a b rest : string) :
  PyStr.contains "/" a = false -> PyStr.contains "/" b = false ->
  PyStr.startswith (a +:+ "/") (b +:+ "/" +:+ rest) = true -> a = b.
Proof.
  revert b. induction a as [| c a IH]; intros [| d b] Ha Hb; try done.
  - apply contains_char_cons in Hb as [Hd _].
    rewrite append_cons. cbn [PyStr.startswith String.append].
    change ("" +:+ "/") with "/". cbn [PyStr.startswith].
    by rewrite decide_False by congruence.
  - apply contains_char_cons in Ha as [Hc _].
    rewrite append_cons. change ("" +:+ "/" +:+ rest) with (String "/" rest).
    cbn [PyStr.startswith]. by rewrite decide_False by done.
  - apply contains_char_cons in Ha as [_ Ha]. apply contains_char_cons in Hb as [_ Hb].
    rewrite !append_cons. cbn [PyStr.startswith].
    case_decide; [| done]. subst d. intros H. f_equal. by apply IH.
Qed.

(** X4: for tenant ids without a slash, no object key under the S3 prefix of
    one tenant lies under the prefix of another tenant: if the prefix of
    tenant a is a prefix of a key that starts with the prefix of tenant b,
    then a and b are the same tenant. *)
Theorem s3_prefixes_do_not_nest
        (a b key tier_a tier_b : string) (user_a user_b : option string) :
  PyStr.contains "/" a = false -> PyStr.contains "/" b = false ->
  PyStr.startswith (get_s3_prefix (mkTenantContext (Some a) tier_a user_a))
                   (get_s3_prefix (mkTenantContext (Some b) tier_b user_b) +:+ key) = true ->
  a = b.
Proof.
  intros Ha Hb. unfold get_s3_prefix. cbn [tenant_id fmt default from_option id].
  rewrite append_assoc, startswith_app_cancel, append_assoc.
  by apply slash_terminated_prefix.
Qed.

(** X5: [get_database_connection_params] returns a descriptor exactly for
    the tiers pool, bridge and silo, the bridge tier needing a tenant id to
    sanitize; for any other tier word it raises the ValueError that names
    the word. *)
Theorem connection_params_domain
        (environ : gmap string string) (ctx : TenantContext) :
  ((exists d, get_database_connection_params environ ctx = inr d)
   <-> tenant_tier ctx ∈ Spec.isolation_tiers
       /\ ~ (tenant_tier ctx = "bridge" /\ tenant_id ctx = None))
  /\ (tenant_tier ctx ∈ Spec.isolation_tiers
      \/ get_database_connection_params environ ctx
         = inl (ValueError ("Unknown tenant tier: " +:+ tenant_tier ctx))).
Proof.
  unfold get_database_connection_params, Spec.isolation_tiers.
  rewrite !elem_of_cons, elem_of_nil.
  destruct ctx as [tid tier uid]. cbn [tenant_tier tenant_id].
  destruct (decide (tier = "pool")) as [-> | Hp].
  { split; [| auto]. split; [intros _ | eauto]. split; [auto |]. by intros [? _]. }
  destruct (decide (tier = "bridge")) as [-> | Hb].
  { split; [| auto]. destruct tid as [t |]; cbn [sanitize].
    - split; [intros _ | eauto]. split; [auto |]. by intros [_ ?].
    - split; [by intros [d ?] | intros [_ H]; by destruct H]. }
  destruct (decide (tier = "silo")) as [-> | Hs].
  { split; [| auto]. split; [intros _ | eauto]. split; [auto |]. by intros [? _]. }
  split; [| by right].
  split; [by intros [d ?] | intros [H _]; intuition].
Qed.

End TenantContextTargets.

(** ** The tenant filter, once more *)

Section TenantFilterMore.

Import TenantContextLayer.

(** X6: [apply_tenant_filter] puts the predicate on the tenant id of the
    context into every pool-tier query in which WHERE is written in upper
    case or does not occur in any case, and hands back the query of any
    other tier untouched. *)
Theorem tenant_filter_effect (query : string) (ctx : TenantContext) :
  PyStr.contains "WHERE" query = true \/ PyStr.contains "WHERE" (PyStr.upper query) = false ->
  (tenant_tier ctx = "pool" ->
     PyStr.contains (tenant_predicate ctx) (apply_tenant_filter query ctx) = true)
  /\ (tenant_tier ctx <> "pool" -> apply_tenant_filter query ctx = query).
Proof.
  intros Hq. split.
  - intros Htier. by apply apply_tenant_filter_adds_predicate.
  - apply apply_tenant_filter_other_tier.
Qed.

End TenantFilterMore.

(** ** More on the order life cycle of order_handler.py *)

Section OrderLifecycleMore.

Import OrderHandler Runs.

Variable ISOLATION_MODEL : string.
Variable SNS_TOPIC_ARN : option string.
Variable sns_accepts : OrderEvent -> bool.
Variable now_update now_publish : string.

Abbreviation put :=
  (update_order ISOLATION_MODEL SNS_TOPIC_ARN sns_accepts now_update now_publish).
Abbreviation put_many :=
  (update_order_many ISOLATION_MODEL SNS_TOPIC_ARN sns_accepts now_update now_publish).

(** X7: [is_valid_status_transition] accepts exactly the six pairs of the
    table; in particular nothing leaves delivered or cancelled, nothing
    leads back to pending, no status follows itself, and an order without a
    status can go nowhere. *)
Theorem transitions_exact (current : option string) (new : string) :
  (is_valid_status_transition current new = true
   <-> exists cur, current = Some cur /\ (cur, new) ∈ Spec.transition_table)
  /\ is_valid_status_transition (Some "delivered") new = false
  /\ is_valid_status_transition (Some "cancelled") new = false
  /\ is_valid_status_transition current "pending" = false
  /\ is_valid_status_transition (Some new) new = false.
Proof.
  assert (Hno : forall c n, (c, n) ∉ Spec.transition_table ->
                            is_valid_status_transition (Some c) n = false).
  { intros c n H. apply not_true_is_false. by rewrite is_valid_status_transition_table. }
  assert (Hpairs : forall c n, (c, n) ∈ Spec.transition_table ->
             c <> "delivered" /\ c <> "cancelled" /\ n <> "pending" /\ c <> n).
  { intros c n. unfold Spec.transition_table. rewrite !elem_of_cons, elem_of_nil.
    intros H. repeat split; intros ->; intuition congruence. }
  split; [| split; [| split; [| split]]].
  - destruct current as [cur |].
    + rewrite is_valid_status_transition_table. split; [eauto |].
      by intros (c & [= ->] & H).
    + split; [discriminate | by intros (c & [=] & _)].
  - apply Hno. intros H. by destruct (Hpairs _ _ H) as (? & _).
  - apply Hno. intros H. by destruct (Hpairs _ _ H) as (_ & ? & _).
  - destruct current as [cur |]; [| done].
    apply Hno. intros H. by destruct (Hpairs _ _ H) as (_ & _ & ? & _).
  - apply Hno. intros H. by destruct (Hpairs _ _ H) as (_ & _ & _ & ?).
Qed.

Lemma steps_decrease (cur new : string) :
  (cur, new) ∈ Spec.transition_table ->
  (steps_left (Some new) < steps_left (Some cur))%nat.
Proof.
  unfold Spec.transition_table. rewrite !elem_of_cons, elem_of_nil.
  intros H. repeat (destruct H as [[= -> ->] | H]); try done; vm_compute; lia.
Qed.

Lemma steps_left_bound (status : option string) : (steps_left status <= 3)%nat.
Proof. unfold steps_left. repeat case_decide; lia. Qed.

(** The first half refuses with 400 or 404 only. *)
Lemma read_reject_code (ctx : TenantContext) (req : Request) (t : Table) (r : Response) :
  update_order_read ISOLATION_MODEL ctx req t = Reject r ->
  statusCode r = 400 \/ statusCode r = 404.
Proof.
  unfold update_order_read.
  repeat (match goal with
          | |- context [if ?b then _ else _] => destruct b
          | |- context [match ?t !! ?k with _ => _ end] => destruct (t !! k)
          end; try (intros [= <-]; cbn; auto; fail)).
Qed.

Lemma successes_cons (r : Response) (rs : list Response) :
  successes (r :: rs)
  = Nat.add (if decide (statusCode r = 200) then 1%nat else 0%nat) (successes rs).
Proof.
  unfold successes. rewrite filter_cons. by case_decide.
Qed.

(** X8: however many status changes are requested for an order, one after
    the other, at most three of them are answered 200; more precisely at
    most as many as the stored status has steps left on the way pending,
    confirmed, shipped, delivered. *)
Theorem status_changes_are_bounded
        (ctx : TenantContext) (order_id : string) (statuses : list string) (w : World) :
  (successes (put_many ctx order_id statuses w).2
   <= steps_left (stored_status (order_key ISOLATION_MODEL ctx order_id) (table w)))%nat
  /\ (successes (put_many ctx order_id statuses w).2 <= 3)%nat.
Proof.
  assert (H : (successes (put_many ctx order_id statuses w).2
               <= steps_left (stored_status (order_key ISOLATION_MODEL ctx order_id)
                                           (table w)))%nat).
  { revert w. induction statuses as [| s rest IH]; intros w.
    - cbn. unfold successes. cbn. lia.
    - cbn [update_order_many]. unfold update_order.
      destruct (update_order_read ISOLATION_MODEL ctx (mkRequest (Some order_id) (Some s))
                                  (table w)) as [r | o k s'] eqn:Hread.
      + specialize (IH w).
        destruct (put_many ctx order_id rest w) as [w2 rs] eqn:Hrest. cbn [snd] in *.
        rewrite successes_cons.
        destruct (read_reject_code _ _ _ _ Hread) as [Hr | Hr];
          rewrite decide_False by (rewrite Hr; discriminate); lia.
      + destruct (read_proceed_inv _ _ _ _ _ _ _ Hread)
          as (Hp & Hs & -> & item & cur & Hitem & Hcur & Hin).
        cbn [path_id body_status] in Hp, Hs. injection Hp as <-. injection Hs as <-.
        destruct (write_always_succeeds SNS_TOPIC_ARN sns_accepts now_update now_publish
                    ctx order_id (order_key ISOLATION_MODEL ctx order_id) s w)
          as (w1 & item1 & -> & _ & Hst & _).
        specialize (IH w1). rewrite Hst in IH.
        destruct (put_many ctx order_id rest w1) as [w2 rs] eqn:Hrest. cbn [snd] in *.
        rewrite successes_cons. cbn [statusCode create_response].
        rewrite decide_True by done.
        assert (Hnow : stored_status (order_key ISOLATION_MODEL ctx order_id) (table w)
                       = Some cur).
        { unfold stored_status. by rewrite Hitem. }
        rewrite Hnow. pose proof (steps_decrease _ _ Hin). lia. }
  split; [done |].
  etransitivity; [exact H | apply steps_left_bound].
Qed.

(** X9: an order that is stored with a status is moved by [update_order]
    exactly along the table: for a pair of the table the answer is 200 and
    the new status is stored, for any other requested status the answer is
    400 and neither the table nor the topic changes. *)
Theorem stored_order_update
        (ctx : TenantContext) (req : Request) (w : World)
        (o s cur : string) (item : Item) :
  path_id req = Some o -> o <> "" ->
  body_status req = Some s -> s <> "" ->
  table w !! order_key ISOLATION_MODEL ctx o = Some item ->
  item !! "status" = Some cur ->
  if bool_decide ((cur, s) ∈ Spec.transition_table)
  then statusCode (put ctx req w).2 = 200
       /\ stored_status (order_key ISOLATION_MODEL ctx o) (table (put ctx req w).1) = Some s
  else statusCode (put ctx req w).2 = 400 /\ (put ctx req w).1 = w.
Proof.
  intros Hp Ho Hs Hne Hitem Hcur.
  destruct (update_order_follows_table ISOLATION_MODEL SNS_TOPIC_ARN sns_accepts
              now_update now_publish ctx req w o s cur item Hp Ho Hs Hne Hitem Hcur)
    as [Hyes Hno].
  case_bool_decide; auto.
Qed.

(** On a parsed request [update_order] answers 200, 400 or 404, and whenever
    the answer is not 200 the orders table and the topic are as before. *)
Lemma failed_update_changes_nothing (ctx : TenantContext) (req : Request) (w : World) :
  (statusCode (put ctx req w).2 = 200
   \/ ((statusCode (put ctx req w).2 = 400 \/ statusCode (put ctx req w).2 = 404)
       /\ (put ctx req w).1 = w)).
Proof.
  unfold update_order.
  destruct (update_order_read ISOLATION_MODEL ctx req (table w)) as [r | o k s] eqn:Hread.
  - right. split; [| done]. by apply (read_reject_code ctx req (table w)).
  - left.
    destruct (write_always_succeeds SNS_TOPIC_ARN sns_accepts now_update now_publish
                ctx o k s w) as (w1 & item1 & -> & _).
    done.
Qed.

(** X10: [update_order], from the event on and with the calls to DynamoDB
    succeeding, answers 200, 400, 404 or 500, and whenever the answer is not
    200 the orders table and the topic are exactly as before.  The answer
    is 500 exactly when pathParameters is None or, an order id being given,
    the body is missing, is None, does not parse, or parses to something
    that is not an object. *)
Theorem update_order_event_answers
        (json_loads : string -> result PyJson.Json)
        (ctx : TenantContext) (event : Event) (w : World) :
  let out := update_order_event ISOLATION_MODEL SNS_TOPIC_ARN sns_accepts
                                now_update now_publish json_loads ctx event w in
  (statusCode out.2 = 200
   \/ ((statusCode out.2 = 400 \/ statusCode out.2 = 404 \/ statusCode out.2 = 500)
       /\ out.1 = w))
  /\ (statusCode out.2 = 500
      <-> event_pathParameters event = NullPathParameters
          \/ (exists params o,
                 event_pathParameters event = PathParams params
                 /\ params !! "id" = Some o /\ o <> ""
                 /\ match event_body event with
                    | PyJson.TextBody text =>
                        match json_loads text with
                        | inr (PyJson.Object _) => False
                        | _ => True
                        end
                    | _ => True
                    end)).
Proof.
  cbn zeta.
  assert (Hput : forall req,
             statusCode (put ctx req w).2 <> 500
             /\ (statusCode (put ctx req w).2 = 200
                 \/ ((statusCode (put ctx req w).2 = 400
                      \/ statusCode (put ctx req w).2 = 404
                      \/ statusCode (put ctx req w).2 = 500)
                     /\ (put ctx req w).1 = w))).
  { intros req. destruct (failed_update_changes_nothing ctx req w) as [H | [[H | H] Hw]];
      rewrite H; split; try discriminate; auto. }
  unfold update_order_event.
  destruct (event_pathParameters event) as [| | params] eqn:Hpp.
  - cbn [truthy negb create_response statusCode fst snd]. split; [right; auto |].
    split; [discriminate |].
    intros [[=] | (params & o & [=] & _)].
  - cbn [update_order_failed create_response statusCode fst snd].
    split; [right; auto |]. split; [by left | done].
  - destruct (truthy (params !! "id")) eqn:Hid; cbn [negb].
    2:{ cbn [create_response statusCode fst snd]. split; [right; auto |].
        split; [discriminate |].
        intros [[=] | (params' & o & [= <-] & Ho & Hne & _)].
        rewrite Ho, truthy_Some in Hid by done. discriminate. }
    destruct (truthy_inv _ Hid) as (o & Ho & Hne).
    assert (Hfail : forall P : Prop, P ->
               (statusCode update_order_failed = 200
                \/ ((statusCode update_order_failed = 400
                     \/ statusCode update_order_failed = 404
                     \/ statusCode update_order_failed = 500) /\ w = w))
               /\ (statusCode update_order_failed = 500
                   <-> PathParams params = NullPathParameters
                       \/ (exists params' o',
                              PathParams params = PathParams params'
                              /\ params' !! "id" = Some o' /\ o' <> "" /\ P))).
    { intros P HP. split; [right; auto |]. split; [| done].
      intros _. right. exists params, o. auto. }
    assert (Hnot : forall (r : World * Response) (P : Prop),
               ~ P -> statusCode r.2 <> 500 ->
               (statusCode r.2 = 200
                \/ ((statusCode r.2 = 400 \/ statusCode r.2 = 404 \/ statusCode r.2 = 500)
                    /\ r.1 = w)) ->
               (statusCode r.2 = 200
                \/ ((statusCode r.2 = 400 \/ statusCode r.2 = 404 \/ statusCode r.2 = 500)
                    /\ r.1 = w))
               /\ (statusCode r.2 = 500
                   <-> PathParams params = NullPathParameters
                       \/ (exists params' o',
                              PathParams params = PathParams params'
                              /\ params' !! "id" = Some o' /\ o' <> "" /\ P))).
    { intros r P HP H500 Hr. split; [exact Hr |]. split; [done |].
      intros [[=] | (params' & o' & _ & _ & _ & HP')]. by destruct HP. }
    destruct (event_body event) as [| | text]; [by apply Hfail | by apply Hfail |].
    destruct (json_loads text) as [e | body]; [by apply Hfail |].
    destruct body as [members | holds |]; cbn [PyJson.get raise ret];
      [| by apply Hfail | by apply Hfail].
    destruct (PyJson.value_truthy (members !! "status")) eqn:Htruth; cbn [negb].
    + destruct (members !! "status") as [[s | truth] |].
      * apply Hnot; [tauto | apply Hput | apply Hput].
      * apply Hnot; [tauto | discriminate | right; auto].
      * apply Hnot; [tauto | discriminate | right; auto].
    + apply Hnot; [tauto | discriminate | right; auto].
Qed.

(** A request without path parameters object, and one whose body is no
    JSON text: both are answered 500. *)
Example update_order_event_failures (ctx : TenantContext) (w : World) :
  statusCode (update_order_event ISOLATION_MODEL SNS_TOPIC_ARN sns_accepts
                now_update now_publish MoreExamples.loads_example ctx
                (mkEvent NullPathParameters (PyJson.TextBody MoreExamples.shipped_text))
                w).2 = 500
  /\ statusCode (update_order_event ISOLATION_MODEL SNS_TOPIC_ARN sns_accepts
                   now_update now_publish MoreExamples.loads_example ctx
                   (mkEvent (PathParams (<["id" := "o1"]> ∅)) (PyJson.TextBody "status"))
                   w).2 = 500
  /\ statusCode (update_order_event ISOLATION_MODEL SNS_TOPIC_ARN sns_accepts
                   now_update now_publish MoreExamples.loads_example ctx
                   (mkEvent (PathParams (<["id" := "o1"]> ∅)) PyJson.NoBody) w).2 = 500.
Proof. repeat split. Qed.

(** X11: a status update that goes through rewrites the attributes status
    and updated_at of the one order and nothing else: every other attribute
    of that order, and every other item of the table, is as before. *)
Theorem update_touches_status_only
        (ctx : TenantContext) (req : Request) (w : World)
        (o : string) (k : Key) (s : string) :
  update_order_read ISOLATION_MODEL ctx req (table w) = Proceed o k s ->
  exists item item',
    table w !! k = Some item
    /\ table (put ctx req w).1 !! k = Some item'
    /\ item' !! "status" = Some s
    /\ item' !! "updated_at" = Some now_update
    /\ (forall a, a <> "status" -> a <> "updated_at" -> item' !! a = item !! a)
    /\ (forall k', k' <> k -> table (put ctx req w).1 !! k' = table w !! k').
Proof.
  intros Hread.
  destruct (read_proceed_inv _ _ _ _ _ _ _ Hread) as (_ & _ & _ & item & cur & Hitem & _).
  unfold update_order. rewrite Hread.
  unfold update_order_write, update_item. rewrite Hitem.
  cbn [default from_option id table fst snd].
  eexists item, _. split; [done |]. split; [apply lookup_insert_eq |].
  split; [| split; [| split]].
  - rewrite lookup_insert_ne by discriminate. apply lookup_insert_eq.
  - apply lookup_insert_eq.
  - intros a Ha1 Ha2. by rewrite !lookup_insert_ne.
  - intros k' Hk. by rewrite lookup_insert_ne.
Qed.

End OrderLifecycleMore.

(** ** Pool-tier isolation of the order handlers, as properties of their own *)

Section PoolIsolationMore.

(** X12: under the pool model [update_order] of order_handler.py, whatever
    the request and whether it succeeds or not, leaves every item stored
    under the tenant id of another tenant exactly as it was. *)
Theorem pool_update_isolation
        (arn : option string) (accepts : OrderHandler.OrderEvent -> bool)
        (now1 now2 : string) (ctx : OrderHandler.TenantContext)
        (req : OrderHandler.Request) (w : OrderHandler.World) (other o : string) :
  other <> OrderHandler.tenant_id ctx ->
  OrderHandler.table (OrderHandler.update_order "pool" arn accepts now1 now2 ctx req w).1
    !! (Some other, o)
  = OrderHandler.table w !! (Some other, o).
Proof. apply pool_update_order_keeps_other_tenants. Qed.

(** X13: under the pool model the answer of [get_order] of order_handler.py
    is a function of the items stored under the tenant id of the context:
    changing, adding or removing items of other tenants never changes it;
    without an order id the answer is 400, for an id with no item under the
    tenant's key it is 404. *)
Theorem pool_get_order_isolation
        (enforce : OrderHandler.TenantContext -> option string -> result unit)
        (ctx : OrderHandler.TenantContext) (path_id : option string)
        (t1 t2 : gmap (option string * string) (gmap string string)) :
  (forall o, t1 !! (Some (OrderHandler.tenant_id ctx), o)
             = t2 !! (Some (OrderHandler.tenant_id ctx), o)) ->
  OrderHandler.get_order "pool" enforce ctx path_id t1
  = OrderHandler.get_order "pool" enforce ctx path_id t2
  /\ (truthy path_id = false ->
      OrderHandler.statusCode (OrderHandler.get_order "pool" enforce ctx path_id t1) = 400)
  /\ (forall o, path_id = Some o -> o <> "" ->
                t1 !! (Some (OrderHandler.tenant_id ctx), o) = None ->
      OrderHandler.statusCode (OrderHandler.get_order "pool" enforce ctx path_id t1) = 404).
Proof.
  intros Hagree. split; [by apply pool_get_order_reads_own_keys |].
  unfold OrderHandler.get_order, OrderHandler.order_key. split.
  - by intros ->.
  - intros o -> Ho Hnone. rewrite truthy_Some by done.
    cbn [negb default from_option id]. rewrite decide_True by done. by rewrite Hnone.
Qed.

End PoolIsolationMore.

(** ** The SQL statements and the status update of order_service.py *)

Section SqlMore.

Import TenantContextLayer OrderService.

(** The parameters of the statement of [list_orders], in order. *)
Lemma list_orders_params
      (limit offset : Z) (status user : option string) (ctx : TenantContext) :
  (list_orders_statement limit offset status user ctx).2
  = (if decide (tenant_tier ctx = "pool") then [PStr (tenant_id ctx)] else [])
    ++ (if truthy status then [PStr status] else [])
    ++ (if truthy user then [PStr user] else [])
    ++ [PInt limit; PInt offset].
Proof.
  unfold list_orders_statement.
  by destruct (decide (tenant_tier ctx = "pool")), (truthy status), (truthy user).
Qed.

(** X14: the statement [list_orders] builds has exactly as many %s
    placeholders as parameters, ends with the limit and the offset, binds
    the tenant id of a pool-tier context as its first parameter, and its
    text depends only on the tier being pool or not and on which filters
    are present: no value of the request is part of the text. *)
Theorem list_orders_statement_shape
        (limit offset : Z) (status user : option string) (ctx : TenantContext) :
  PyStr.count "%s" (list_orders_statement limit offset status user ctx).1
  = length (list_orders_statement limit offset status user ctx).2
  /\ (exists ps, (list_orders_statement limit offset status user ctx).2
                 = ps ++ [PInt limit; PInt offset])
  /\ (tenant_tier ctx <> "pool"
      \/ head (list_orders_statement limit offset status user ctx).2
         = Some (PStr (tenant_id ctx)))
  /\ (forall limit' offset' status' user' ctx',
        truthy status' = truthy status -> truthy user' = truthy user ->
        (tenant_tier ctx' = "pool" <-> tenant_tier ctx = "pool") ->
        (list_orders_statement limit' offset' status' user' ctx').1
        = (list_orders_statement limit offset status user ctx).1).
Proof.
  split; [| split; [| split]].
  - unfold list_orders_statement.
    destruct (decide (tenant_tier ctx = "pool")), (truthy status), (truthy user);
      vm_compute; reflexivity.
  - rewrite list_orders_params. rewrite !app_assoc. eauto.
  - rewrite list_orders_params.
    destruct (decide (tenant_tier ctx = "pool")); [by right | by left].
  - intros limit' offset' status' user' ctx' Hs Hu Ht.
    unfold list_orders_statement. rewrite Hs, Hu.
    destruct (decide (tenant_tier ctx = "pool")) as [Hp | Hp].
    + rewrite decide_True by (by apply Ht).
      by destruct (truthy status), (truthy user).
    + rewrite decide_False by (by rewrite Ht).
      by destruct (truthy status), (truthy user).
Qed.

(** X15: the two statements of [get_order] and the statement of
    [update_order_status] each have as many %s placeholders as parameters;
    for a pool-tier context the tenant id is the last parameter of each, and
    for any other tier it is not bound at all. *)
Theorem order_statements_shape (new_status order_id' : string) (ctx : TenantContext) :
  let own := if decide (tenant_tier ctx = "pool") then [PStr (tenant_id ctx)] else [] in
  PyStr.count "%s" (get_order_statement order_id' ctx).1
    = length (get_order_statement order_id' ctx).2
  /\ (get_order_statement order_id' ctx).2 = [PStr (Some order_id')] ++ own
  /\ PyStr.count "%s" (order_items_statement order_id' ctx).1
    = length (order_items_statement order_id' ctx).2
  /\ (order_items_statement order_id' ctx).2 = [PStr (Some order_id')] ++ own
  /\ PyStr.count "%s" (update_order_status_statement new_status order_id' ctx).1
    = length (update_order_status_statement new_status order_id' ctx).2
  /\ (update_order_status_statement new_status order_id' ctx).2
    = [PStr (Some new_status); PStr (Some order_id')] ++ own.
Proof.
  unfold get_order_statement, order_items_statement, update_order_status_statement.
  destruct (decide (tenant_tier ctx = "pool")); cbn zeta;
    repeat split; vm_compute; reflexivity.
Qed.

Lemma update_without_hit (f : OrderRow -> OrderRow) (hit : OrderRow -> bool)
      (orders : list OrderRow) :
  map f (filter (fun row => hit row = true) orders) = [] ->
  map (fun row => if hit row then f row else row) orders = orders.
Proof.
  induction orders as [| row orders IH]; [done |].
  rewrite filter_cons. cbn [map].
  destruct (hit row) eqn:Hhit.
  - rewrite decide_True by done. discriminate.
  - rewrite decide_False by (by intros [=]). intros H. by rewrite IH.
Qed.

(** Once the body is parsed and the connection set up, the answer is 200,
    400 or 404, and the statement changes no row unless the answer is 200. *)
Lemma sql_failed_update_changes_nothing
        (now order_id' : string) (body_status : option string)
        (ctx : TenantContext) (orders : list OrderRow) :
  statusCode (update_order_status now order_id' body_status ctx orders).2 = 200
  \/ ((statusCode (update_order_status now order_id' body_status ctx orders).2 = 400
       \/ statusCode (update_order_status now order_id' body_status ctx orders).2 = 404)
      /\ (update_order_status now order_id' body_status ctx orders).1 = orders).
Proof.
  unfold update_order_status.
  destruct body_status as [new_status |]; [| right; auto].
  destruct (negb _); [right; auto |].
  unfold execute_update.
  destruct (map (set_status now new_status) _) as [| row rest] eqn:Hret.
  - right. split; [auto |]. cbn [fst]. by apply update_without_hit.
  - by left.
Qed.

(** The update statement keeps the number of rows and, row by row, the order
    id, the tenant id and the order number; the row given back carries the
    status that was asked for. *)
Lemma sql_update_keeps_identity
        (now order_id' : string) (body_status : option string)
        (ctx : TenantContext) (orders : list OrderRow) :
  let after := (update_order_status now order_id' body_status ctx orders).1 in
  length after = length orders
  /\ map OrderService.order_id after = map OrderService.order_id orders
  /\ map row_tenant_id after = map row_tenant_id orders
  /\ map order_number after = map order_number orders
  /\ (forall msg row,
        (update_order_status now order_id' body_status ctx orders).2
        = create_response 200 (StatusBody msg row) ->
        Some (status row) = body_status /\ OrderService.order_id row = order_id').
Proof.
  cbn zeta. unfold update_order_status.
  destruct body_status as [new_status |]; [| by repeat split].
  destruct (negb _); [by repeat split |].
  unfold execute_update.
  set (hit := update_where order_id' ctx).
  assert (Hmap : forall {A} (g : OrderRow -> A),
             (forall row, g (set_status now new_status row) = g row) ->
             map g (map (fun row => if hit row then set_status now new_status row else row)
                        orders)
             = map g orders).
  { intros A g Hg. rewrite map_map. apply map_ext. intros row.
    by destruct (hit row). }
  assert (Hkeep : forall l : list OrderRow,
             length (map (fun row => if hit row then set_status now new_status row else row)
                         orders) = length orders
             /\ map OrderService.order_id
                    (map (fun row => if hit row then set_status now new_status row else row)
                         orders) = map OrderService.order_id orders
             /\ map row_tenant_id
                    (map (fun row => if hit row then set_status now new_status row else row)
                         orders) = map row_tenant_id orders
             /\ map order_number
                    (map (fun row => if hit row then set_status now new_status row else row)
                         orders) = map order_number orders).
  { intros _. rewrite length_map. by rewrite !Hmap. }
  destruct (Hkeep []) as (H1 & H2 & H3 & H4).
  destruct (map (set_status now new_status) (filter _ orders)) as [| row rest] eqn:Hret;
    cbn [fst snd]; (split; [exact H1 |]); (split; [exact H2 |]);
    (split; [exact H3 |]); (split; [exact H4 |]); intros msg row' Heq;
    [discriminate Heq |].
  injection Heq as <- <-.
  destruct (filter (fun row0 => hit row0 = true) orders) as [| first more] eqn:Hf;
    [discriminate |].
  cbn [map] in Hret. injection Hret as <- _. cbn [OrderService.order_id status set_status].
  split; [done |].
  assert (Hin : first ∈ filter (fun row0 => hit row0 = true) orders)
    by (rewrite Hf; apply list_elem_of_here).
  apply list_elem_of_filter in Hin as [Hhit _].
  unfold hit, update_where in Hhit. apply andb_true_iff in Hhit as [Hid _].
  by apply bool_decide_eq_true in Hid.
Qed.

(** The pool-tier update statement finds no row for an order id that is
    stored for other tenants only. *)
Lemma sql_cross_tenant_update_refused
        (now order_id' new_status : string) (ctx : TenantContext) (orders : list OrderRow) :
  tenant_tier ctx = "pool" ->
  new_status ∈ valid_statuses ->
  (forall row, row ∈ orders -> OrderService.order_id row = order_id' ->
               row_tenant_id row <> tenant_id ctx) ->
  update_order_status now order_id' (Some new_status) ctx orders
  = (orders, create_response 404 (ErrorBody "Order not found")).
Proof.
  intros Htier Hnew Hother. unfold update_order_status.
  rewrite bool_decide_eq_true_2 by done. cbn [negb]. unfold execute_update.
  assert (Hnone : filter (fun row => update_where order_id' ctx row = true) orders = []).
  { destruct (filter _ orders) as [| row rest] eqn:Hf; [done |].
    assert (Hin : row ∈ filter (fun row => update_where order_id' ctx row = true) orders)
      by (rewrite Hf; apply list_elem_of_here).
    apply list_elem_of_filter in Hin as [Hhit Hin].
    unfold update_where in Hhit. rewrite decide_True in Hhit by done.
    apply andb_true_iff in Hhit as [Hid Hten].
    apply bool_decide_eq_true in Hid.
    exfalso. apply (Hother row Hin Hid).
    unfold sql_eq in Hten.
    destruct (row_tenant_id row), (tenant_id ctx); try discriminate.
    apply bool_decide_eq_true in Hten. by subst. }
  rewrite Hnone. cbn [map]. f_equal.
  apply (update_without_hit (set_status now new_status) (update_where order_id' ctx)).
  by rewrite Hnone.
Qed.

(** [update_order_status] from the event on, when the database takes the
    session statement as a plain [SET]: an exception before anything is run,
    a 400 before anything is run, or the update statement on the relation. *)
Lemma update_order_status_event_cases
      (now : string) (json_loads : string -> result PyJson.Json)
      (execute_text : string -> list OrderRow -> list OrderRow * result unit)
      (environ : gmap string string) (order_id' : string) (event_body : PyJson.RawBody)
      (ctx : TenantContext) (orders : list OrderRow) :
  get_database_connection execute_text environ ctx orders = (orders, inr ()) ->
  let out := update_order_status_event now json_loads execute_text environ
                                       order_id' event_body ctx orders in
  (exists e, out = (orders, inl e))
  \/ (exists msg, out = (orders, inr (create_response 400 (ErrorBody msg))))
  \/ (exists s, s ∈ valid_statuses
                /\ out = ((update_order_status now order_id' (Some s) ctx orders).1,
                          inr (update_order_status now order_id' (Some s) ctx orders).2)).
Proof.
  intros Hset. cbn zeta. unfold update_order_status_event.
  destruct (match event_body with
            | PyJson.NoBody => _ | PyJson.NullBody => _ | PyJson.TextBody text => _
            end) as [e | body]; [left; eauto |].
  destruct (PyJson.has_key "status" body) as [e | [|]]; [left; eauto | | right; left; eauto].
  destruct (PyJson.subscript "status" body) as [e | [s | truth]];
    [left; eauto | | right; left; eauto].
  destruct (bool_decide (s ∈ valid_statuses)) eqn:Hs; cbn [negb]; [| right; left; eauto].
  right. right. exists s. split; [by apply bool_decide_eq_true in Hs |].
  rewrite Hset. unfold update_order_status. rewrite Hs. cbn [negb].
  destruct (execute_update now s order_id' ctx orders) as [orders' [| row rest]]; done.
Qed.

(** X16: [update_order_status], from the event on, either raises or answers
    200, 400 or 404.  A 400 and an exception raised by the parsing of the
    body leave the orders relation untouched; after a 404 and after an
    exception of the session set-up the relation is as the session statement
    of [get_database_connection] left it, the update statement having
    changed no row.  So when the database takes the session statement as a
    plain SET, anything but a 200 leaves the relation as it was. *)
Theorem sql_event_failed_update_changes_nothing
        (now : string) (json_loads : string -> result PyJson.Json)
        (execute_text : string -> list OrderRow -> list OrderRow * result unit)
        (environ : gmap string string) (order_id' : string)
        (event_body : PyJson.RawBody) (ctx : TenantContext) (orders : list OrderRow) :
  let out := update_order_status_event now json_loads execute_text environ
                                       order_id' event_body ctx orders in
  let session := get_database_connection execute_text environ ctx orders in
  match out.2 with
  | inl e => out.1 = orders \/ out = (session.1, inl e)
  | inr r =>
      statusCode r = 200
      \/ (statusCode r = 400 /\ out.1 = orders)
      \/ (statusCode r = 404 /\ out.1 = session.1 /\ session.2 = inr ())
  end
  /\ (session = (orders, inr ()) ->
      match out.2 with
      | inl e => out.1 = orders
      | inr r => statusCode r = 200 \/ out.1 = orders
      end).
Proof.
  cbn zeta.
  assert (Hgen : match (update_order_status_event now json_loads execute_text environ
                          order_id' event_body ctx orders).2 with
                 | inl e =>
                     (update_order_status_event now json_loads execute_text environ
                        order_id' event_body ctx orders).1 = orders
                     \/ update_order_status_event now json_loads execute_text environ
                          order_id' event_body ctx orders
                        = ((get_database_connection execute_text environ ctx orders).1, inl e)
                 | inr r =>
                     statusCode r = 200
                     \/ (statusCode r = 400
                         /\ (update_order_status_event now json_loads execute_text environ
                               order_id' event_body ctx orders).1 = orders)
                     \/ (statusCode r = 404
                         /\ (update_order_status_event now json_loads execute_text environ
                               order_id' event_body ctx orders).1
                            = (get_database_connection execute_text environ ctx orders).1
                         /\ (get_database_connection execute_text environ ctx orders).2
                            = inr ())
                 end).
  { unfold update_order_status_event.
    destruct (match event_body with
              | PyJson.NoBody => _ | PyJson.NullBody => _ | PyJson.TextBody text => _
              end) as [e | body]; [by left |].
    destruct (PyJson.has_key "status" body) as [e | [|]]; [by left | | right; left; done].
    destruct (PyJson.subscript "status" body) as [e | [s | truth]];
      [by left | | right; left; done].
    destruct (negb _); [right; left; done |].
    destruct (get_database_connection execute_text environ ctx orders)
      as [session [e | []]]; [by right |].
    unfold execute_update.
    destruct (map (set_status now s) _) as [| row rest] eqn:Hret; [| by left].
    right. right. cbn [fst snd create_response statusCode].
    split; [done |]. split; [| done]. by apply update_without_hit. }
  split; [exact Hgen |].
  intros Hset. rewrite Hset in Hgen. cbn [fst snd] in Hgen.
  destruct (update_order_status_event now json_loads execute_text environ
              order_id' event_body ctx orders) as [after [e | r]]; cbn [fst snd] in *.
  - destruct Hgen as [H | [= H]]; done.
  - destruct Hgen as [H | [[_ H] | (_ & H & _)]]; auto.
Qed.

(** X17: when the database takes the session statement as a plain SET,
    [update_order_status], from the event on and whatever the request,
    keeps the number of rows and, row by row, the order id, the tenant id
    and the order number; after an answer 200 the row given back has the
    order id of the request and the status word of the body, which is one of
    the five the handler knows. *)
Theorem sql_event_update_keeps_identity
        (now : string) (json_loads : string -> result PyJson.Json)
        (execute_text : string -> list OrderRow -> list OrderRow * result unit)
        (environ : gmap string string) (order_id' : string)
        (event_body : PyJson.RawBody) (ctx : TenantContext) (orders : list OrderRow) :
  get_database_connection execute_text environ ctx orders = (orders, inr ()) ->
  let out := update_order_status_event now json_loads execute_text environ
                                       order_id' event_body ctx orders in
  length out.1 = length orders
  /\ map OrderService.order_id out.1 = map OrderService.order_id orders
  /\ map row_tenant_id out.1 = map row_tenant_id orders
  /\ map order_number out.1 = map order_number orders
  /\ (forall msg row,
        out.2 = inr (create_response 200 (StatusBody msg row)) ->
        OrderService.order_id row = order_id'
        /\ status row ∈ valid_statuses
        /\ exists text members,
             event_body = PyJson.TextBody text
             /\ json_loads text = inr (PyJson.Object members)
             /\ members !! "status" = Some (PyJson.VString (status row))).
Proof.
  intros Hset. cbn zeta.
  destruct (update_order_status_event_cases now json_loads execute_text environ
              order_id' event_body ctx orders Hset)
    as [(e & Hout) | [(msg & Hout) | (s & Hs & Hout)]].
  - rewrite Hout. cbn [fst snd]. by repeat split.
  - rewrite Hout. cbn [fst snd]. by repeat split.
  - destruct (sql_update_keeps_identity now order_id' (Some s) ctx orders)
      as (H1 & H2 & H3 & H4 & H5).
    pose proof Hout as Hout'. rewrite Hout. cbn [fst snd].
    split; [exact H1 |]. split; [exact H2 |]. split; [exact H3 |]. split; [exact H4 |].
    intros msg row Hans.
    assert (Hsnd : (update_order_status_event now json_loads execute_text environ
                      order_id' event_body ctx orders).2
                   = inr (create_response 200 (StatusBody msg row))).
    { rewrite Hout'. exact Hans. }
    injection Hans as Heq. destruct (H5 msg row Heq) as [[= Hst] Hid].
    split; [exact Hid |]. split; [by rewrite Hst |].
    revert Hsnd. clear Hout Hout'. unfold update_order_status_event.
    destruct event_body as [| | text];
      [intros Hbad; cbn in Hbad; discriminate Hbad
      | intros Hbad; cbn in Hbad; discriminate Hbad |].
    destruct (json_loads text) as [e | body] eqn:Hloads;
      [intros Hbad; cbn in Hbad; discriminate Hbad |].
    destruct body as [members | holds |]; cbn [PyJson.has_key PyJson.subscript ret raise].
    + destruct (members !! "status") as [[s' | truth] |] eqn:Hm.
      * rewrite bool_decide_eq_true_2 by eauto. cbn [ret raise].
        destruct (negb (bool_decide (s' ∈ valid_statuses))) eqn:Hs';
          [intros Hbad; cbn in Hbad; discriminate Hbad |].
        rewrite Hset. intros Hrun. exists text, members.
        split; [done |]. split; [done |].
        assert (Hcore : (update_order_status now order_id' (Some s') ctx orders).2
                        = create_response 200 (StatusBody msg row)).
        { unfold update_order_status. rewrite Hs'.
          destruct (execute_update now s' order_id' ctx orders)
            as [orders' [| row' rest]]; cbn [snd create_response ret] in Hrun |- *;
            [discriminate Hrun | by injection Hrun as <- <-]. }
        destruct (sql_update_keeps_identity now order_id' (Some s') ctx orders)
          as (_ & _ & _ & _ & H5').
        destruct (H5' msg row Hcore) as [[= Hst'] _]. by rewrite Hst'.
      * rewrite bool_decide_eq_true_2 by eauto.
        intros Hbad; cbn in Hbad; discriminate Hbad.
      * rewrite bool_decide_eq_false_2 by (by intros [? ?]).
        intros Hbad; cbn in Hbad; discriminate Hbad.
    + destruct (holds "status"); intros Hbad; cbn in Hbad; discriminate Hbad.
    + intros Hbad; cbn in Hbad; discriminate Hbad.
Qed.

(** X18: a pool-tier request whose body asks for a known status of an order
    id that is stored for other tenants only is answered 404 and changes no
    row, when the database takes the session statement as a plain SET. *)
Theorem sql_event_cross_tenant_update_refused
        (now : string) (json_loads : string -> result PyJson.Json)
        (execute_text : string -> list OrderRow -> list OrderRow * result unit)
        (environ : gmap string string) (order_id' text new_status : string)
        (members : gmap string PyJson.Value)
        (ctx : TenantContext) (orders : list OrderRow) :
  tenant_tier ctx = "pool" ->
  json_loads text = inr (PyJson.Object members) ->
  members !! "status" = Some (PyJson.VString new_status) ->
  new_status ∈ valid_statuses ->
  get_database_connection execute_text environ ctx orders = (orders, inr ()) ->
  (forall row, row ∈ orders -> OrderService.order_id row = order_id' ->
               row_tenant_id row <> tenant_id ctx) ->
  update_order_status_event now json_loads execute_text environ
                            order_id' (PyJson.TextBody text) ctx orders
  = (orders, inr (create_response 404 (ErrorBody "Order not found"))).
Proof.
  intros Htier Hloads Hm Hnew Hset Hother.
  pose proof (sql_cross_tenant_update_refused now order_id' new_status ctx orders
                Htier Hnew Hother) as Hcore.
  unfold update_order_status in Hcore.
  rewrite bool_decide_eq_true_2 in Hcore by done. cbn [negb] in Hcore.
  unfold update_order_status_event. rewrite Hloads.
  cbn [PyJson.has_key PyJson.subscript ret raise]. rewrite Hm.
  rewrite bool_decide_eq_true_2 by eauto. cbn [ret raise].
  rewrite (bool_decide_eq_true_2 (new_status ∈ valid_statuses)) by done. cbn [negb].
  rewrite Hset.
  destruct (execute_update now new_status order_id' ctx orders)
    as [orders' [| row rest]]; cbn [create_response] in Hcore;
    [by injection Hcore as -> | discriminate Hcore].
Qed.

(** X19: the session set-up of [get_database_connection] hands the database
    exactly one statement, and the result is what the database makes of it:
    for a bridge-tier context the search path is set to the schema named in
    the CREATE SCHEMA statement that [provision_bridge_tenant] sends for the
    tenant id; for a silo-tier context it is set to public whatever the
    tenant id is; for a pool-tier context the tenant id is spliced between
    quotes into the session variable; for any other tier word nothing is
    run and nothing is raised.  A bridge-tier context without a tenant id
    raises before any statement is run. *)
Theorem connection_session_setup
        (execute_text : string -> list OrderRow -> list OrderRow * result unit)
        (environ : gmap string string) (tid : string) (tier : string)
        (user : option string) (orders : list OrderRow) :
  get_database_connection execute_text environ (mkTenantContext (Some tid) tier user) orders
  = (if decide (tier = "bridge")
     then execute_text ("SET search_path TO tenant_" +:+ PyStr.replace "-" "_" tid) orders
     else if decide (tier = "silo") then execute_text "SET search_path TO public" orders
     else if decide (tier = "pool")
          then execute_text ("SET app.current_tenant = '" +:+ tid +:+ "'") orders
          else (orders, inr ()))
  /\ PyStr.contains
       ("CREATE SCHEMA IF NOT EXISTS tenant_" +:+ PyStr.replace "-" "_" tid +:+ ";")
       (TenantOnboarding.bridge_tenant_sql tid) = true
  /\ (get_database_connection execute_text environ (mkTenantContext None "bridge" user)
                              orders).1 = orders
  /\ exists e, (get_database_connection execute_text environ
                  (mkTenantContext None "bridge" user) orders).2 = inl e.
Proof.
  split; [| split; [| split]].
  - unfold get_database_connection, get_database_connection_params.
    cbn [tenant_tier tenant_id].
    destruct (decide (tier = "bridge")) as [-> | Hb]; [reflexivity |].
    destruct (decide (tier = "silo")) as [-> | Hs]; [reflexivity |].
    rewrite bool_decide_eq_false_2.
    + by destruct (decide (tier = "pool")).
    + rewrite !elem_of_cons, elem_of_nil. intuition.
  - unfold TenantOnboarding.bridge_tenant_sql, TenantOnboarding.bridge_schema.
    cbn zeta. set (name := PyStr.replace "-" "_" tid).
    do 3 apply contains_app_r.
    match goal with
    | |- PyStr.contains ?p (_ +:+ (_ +:+ (";" +:+ ?rest))) = true =>
        change (PyStr.contains p
                  ("    " +:+ ("CREATE SCHEMA IF NOT EXISTS tenant_" +:+ (name +:+ (";" +:+ rest))))
                = true)
    end.
    apply contains_app_r.
    rewrite <- (append_assoc name ";").
    rewrite <- (append_assoc "CREATE SCHEMA IF NOT EXISTS tenant_" (name +:+ ";")).
    apply contains_prefix.
  - reflexivity.
  - eexists. reflexivity.
Qed.

(** With a database that rejects the session statement made from the tenant
    id o'x, and for a bridge-tier context without a tenant id, the function
    raises and no row changes. *)
Example update_order_status_event_raises :
  update_order_status_event "t1" MoreExamples.loads_example MoreExamples.strict_set ∅ "o1"
    (PyJson.TextBody MoreExamples.shipped_text) MoreExamples.quoted_ctx
    [Examples.row_o1 "pending"]
  = ([Examples.row_o1 "pending"], inl (ClientError "syntax error at or near x"))
  /\ update_order_status_event "t1" MoreExamples.loads_example MoreExamples.plain_set ∅ "o1"
       (PyJson.TextBody MoreExamples.shipped_text) (mkTenantContext None "bridge" None)
       [Examples.row_o1 "pending"]
     = ([Examples.row_o1 "pending"],
        inl (AttributeError "'NoneType' object has no attribute 'replace'"))
  /\ (update_order_status_event "t1" MoreExamples.loads_example MoreExamples.plain_set ∅ "o1"
        (PyJson.TextBody "status") Examples.pool_ctx_a [Examples.row_o1 "pending"]).2
     = inl (DecodeError "Expecting value").
Proof. repeat split. Qed.

End SqlMore.

(** ** Tenant records of tenant_handler.py *)

Section TenantRecords.

Import TenantHandler.

Variable V : Type.
Variable VStr : string -> V.

Abbreviation ctx_of := OrderHandler.mkTenantContext.

(** X20: [get_tenant] answers 403 for every tenant id other than the one of
    the context, whatever the table holds; when it answers with a record,
    the record is the stored item of the context's own tenant without the
    attribute api_keys and with every other attribute as stored. *)
Theorem get_tenant_own_record_only
        (me : string) (path_tenant_id : option string)
        (table : gmap string (gmap string V)) :
  (forall other, path_tenant_id = Some other -> other <> "" -> other <> me ->
     get_tenant V (ctx_of me) path_tenant_id table
     = mkReply V 403 (Refused V "Access denied to tenant resource"))
  /\ (forall item,
        answer V (get_tenant V (ctx_of me) path_tenant_id table) = TenantData V item ->
        path_tenant_id = Some me
        /\ item !! "api_keys" = None
        /\ exists stored, table !! me = Some stored
             /\ forall a, a <> "api_keys" -> item !! a = stored !! a).
Proof.
  unfold get_tenant. split.
  - intros other -> Hne Hme. rewrite truthy_Some by done.
    cbn [negb default from_option id OrderHandler.tenant_id].
    by rewrite bool_decide_eq_false_2 by congruence.
  - intros item.
    destruct (truthy path_tenant_id) eqn:Ht; cbn [negb]; [| discriminate].
    apply truthy_inv in Ht as (t & -> & _).
    cbn [default from_option id OrderHandler.tenant_id].
    case_bool_decide as Hme; cbn [negb]; [| discriminate]. subst t.
    destruct (table !! me) as [stored |] eqn:Hst; [| discriminate].
    cbn [answer]. intros [= <-]. split; [done |].
    split; [apply lookup_delete_eq |].
    exists stored. split; [done |]. intros a Ha. by apply lookup_delete_ne.
Qed.

(** X21: [delete_tenant] is a soft delete.  For the tenant of the context
    the stored record stays in the table with every attribute it had, except
    that status is deleted and deleted_at is the time of the call; the
    records of all other tenants are untouched, and [get_tenant] afterwards
    still answers 200 for the deleted tenant. *)
Theorem delete_tenant_keeps_record
        (me now : string) (stored : gmap string V)
        (table : gmap string (gmap string V)) :
  me <> "" ->
  table !! me = Some stored ->
  let after := (delete_tenant V VStr (ctx_of me) (Some me) now table).1 in
  code V (delete_tenant V VStr (ctx_of me) (Some me) now table).2 = 200
  /\ (exists item, after !! me = Some item
        /\ item !! "status" = Some (VStr "deleted")
        /\ item !! "deleted_at" = Some (VStr now)
        /\ forall a, a <> "status" -> a <> "deleted_at" -> item !! a = stored !! a)
  /\ (forall other, other <> me -> after !! other = table !! other)
  /\ code V (get_tenant V (ctx_of me) (Some me) after) = 200.
Proof.
  intros Hme Hst. cbn zeta. unfold delete_tenant.
  cbn [OrderHandler.tenant_id]. rewrite bool_decide_eq_true_2 by done.
  cbn [negb fst snd code]. rewrite Hst. cbn [default from_option id].
  split; [done |]. split; [| split].
  - eexists. split; [apply lookup_insert_eq |]. split; [| split].
    + rewrite lookup_insert_ne by discriminate. apply lookup_insert_eq.
    + apply lookup_insert_eq.
    + intros a H1 H2. by rewrite !lookup_insert_ne.
  - intros other Ho. by rewrite lookup_insert_ne.
  - unfold get_tenant. rewrite truthy_Some by done.
    cbn [negb default from_option id OrderHandler.tenant_id].
    rewrite bool_decide_eq_true_2 by done. cbn [negb].
    by rewrite lookup_insert_eq.
Qed.

(** X22: [delete_tenant] never checks that the tenant exists and never
    removes anything: for any path id other than the tenant id of the
    context the answer is 403 and the table is as before; for the context's
    own id without a stored record the answer is 200 and a record of exactly
    the three attributes tenant_id, status and deleted_at appears. *)
Theorem delete_tenant_edge_cases
        (me now : string) (path_tenant_id : option string)
        (table : gmap string (gmap string V)) :
  (path_tenant_id <> Some me ->
     delete_tenant V VStr (ctx_of me) path_tenant_id now table
     = (table, mkReply V 403 (Refused V "Access denied")))
  /\ (table !! me = None ->
      delete_tenant V VStr (ctx_of me) (Some me) now table
      = (<[me := <["deleted_at" := VStr now]>
                 (<["status" := VStr "deleted"]> {["tenant_id" := VStr me]})]> table,
         mkReply V 200 (Initiated V "Tenant deletion initiated" me)))
  /\ (forall t, is_Some (table !! t) ->
        is_Some ((delete_tenant V VStr (ctx_of me) path_tenant_id now table).1 !! t)).
Proof.
  unfold delete_tenant. cbn [OrderHandler.tenant_id]. split; [| split].
  - intros Hne. by rewrite bool_decide_eq_false_2 by congruence.
  - intros Hnone. rewrite bool_decide_eq_true_2 by done. cbn [negb]. by rewrite Hnone.
  - intros t Ht. case_bool_decide; cbn [negb fst]; [| done].
    destruct (decide (t = me)) as [-> | Hne].
    + rewrite lookup_insert_eq. eauto.
    + by rewrite lookup_insert_ne.
Qed.

End TenantRecords.

Section TierTables.

Import TenantHandler.

Lemma limits_of_tier :
  get_tier_limits "basic" = basic_limits
  /\ get_tier_limits "premium" = premium_limits
  /\ get_tier_limits "enterprise" = enterprise_limits.
Proof. repeat split. Qed.

(** X23: the three tiers limit the same resource kinds, and moving up from
    basic to premium to enterprise never lowers a limit: a premium limit is
    at least the basic one, and an enterprise limit is unlimited (-1) or at
    least the premium one. *)
Theorem tier_limits_grow (kind : string) :
  (is_Some (get_tier_limits "basic" !! kind)
   <-> is_Some (get_tier_limits "premium" !! kind))
  /\ (is_Some (get_tier_limits "premium" !! kind)
      <-> is_Some (get_tier_limits "enterprise" !! kind))
  /\ (forall b p e,
        get_tier_limits "basic" !! kind = Some b ->
        get_tier_limits "premium" !! kind = Some p ->
        get_tier_limits "enterprise" !! kind = Some e ->
        0 < b <= p /\ (e = -1 \/ p <= e)).
Proof.
  destruct limits_of_tier as (-> & -> & ->).
  unfold basic_limits, premium_limits, enterprise_limits.
  rewrite !lookup_insert, !lookup_empty.
  repeat case_decide; subst; try congruence;
    (split; [| split]); try (split; intros [? [=]]; eauto; fail);
    try (split; eauto; fail);
    intros b p e; intros; simplify_eq; lia.
Qed.

Lemma tenant_table_names_spec (t n : string) :
  n ∈ tenant_table_names t <-> n = "products-" +:+ t \/ n = "orders-" +:+ t.
Proof.
  unfold tenant_table_names. cbn [fmap list_fmap].
  rewrite !elem_of_cons, elem_of_nil. tauto.
Qed.

Lemma create_tenant_tables_union (t : string) (ts : gset string) :
  create_tenant_tables t ts = ts ∪ list_to_set (tenant_table_names t).
Proof.
  unfold create_tenant_tables, tenant_table_names.
  cbn [fmap list_fmap foldl list_to_set].
  apply set_eq. intros x.
  repeat case_decide;
    repeat match goal with
           | H : _ ∈ _ ∪ _ |- _ => rewrite elem_of_union, elem_of_singleton in H
           | H : _ ∉ _ ∪ _ |- _ => rewrite elem_of_union, elem_of_singleton in H
           end;
    rewrite ?elem_of_union, ?elem_of_singleton, ?elem_of_empty;
    intuition (subst; auto).
Qed.

(** X24: the DynamoDB tables of two different silo tenants never share a
    name, and [create_tenant_tables] for one tenant adds exactly that
    tenant's two names to the tables of the account: it is idempotent and
    leaves the presence of every other name as it was. *)
Theorem silo_tables_are_per_tenant
        (a b : string) (tables : gset string) (name : string) :
  (a <> b -> name ∈ tenant_table_names a -> name ∉ tenant_table_names b)
  /\ create_tenant_tables a tables = tables ∪ list_to_set (tenant_table_names a)
  /\ create_tenant_tables a (create_tenant_tables a tables) = create_tenant_tables a tables
  /\ (name ∉ tenant_table_names a ->
      (name ∈ create_tenant_tables a tables <-> name ∈ tables)).
Proof.
  split; [| split; [| split]].
  - intros Hab Ha Hb. apply tenant_table_names_spec in Ha, Hb.
    destruct Ha as [-> | ->], Hb as [Hb | Hb]; try discriminate Hb.
    + apply (inj (String.app "products-")) in Hb. done.
    + apply (inj (String.app "orders-")) in Hb. done.
  - apply create_tenant_tables_union.
  - rewrite !create_tenant_tables_union. apply set_eq. intros x.
    rewrite !elem_of_union. tauto.
  - intros Hn. rewrite create_tenant_tables_union, elem_of_union, elem_of_list_to_set.
    tauto.
Qed.

End TierTables.

(** ** Onboarding (application/lambda-functions/tenant-onboarding.py) *)

Section OnboardingFacts.

Import TenantOnboarding.

Variable Settings : Type.
Variable no_settings : Settings.
Variable cognito_username : string -> string.

Abbreviation onboard := (lambda_handler Settings no_settings cognito_username).
Abbreviation Str := (AStr Settings).

(** The item written by [save_tenant_metadata]. *)
Lemma onboard_with_fields
      (new_id created updated company email tier : string)
      (body : Body Settings) (c : Cloud Settings) :
  fields Settings body !! "company_name" = Some company ->
  fields Settings body !! "admin_email" = Some email ->
  fields Settings body !! "tier" = Some tier ->
  let tenant_data : gmap string (Attr Settings) :=
    <["tenant_id" := Str new_id]>
    (<["company_name" := Str company]>
    (<["admin_email" := Str email]>
    (<["tier" := Str tier]>
    (<["status" := Str "provisioning"]>
    (<["created_at" := Str created]>
    (<["settings" := ASettings Settings
                       (default no_settings (settings Settings body))]> ∅)))))) in
  let c1 := save_tenant_metadata Settings new_id tenant_data c in
  onboard new_id created updated body c
  = if bool_decide (tier ∈ Spec.isolation_tiers)
    then
      let c2 := if decide (tier = "pool") then provision_pool_tenant Settings new_id c1
                else if decide (tier = "bridge")
                     then provision_bridge_tenant Settings new_id c1
                     else c1 in
      let c3 := (create_admin_user Settings cognito_username new_id email c2).1 in
      (update_tenant_status Settings new_id "active" updated c3,
       create_response 201
         (Onboarded "Tenant onboarded successfully" new_id
                    (create_admin_user Settings cognito_username new_id email c2).2))
    else (c1, create_response 500
                (Failure "Failed to onboard tenant" (Some ("Invalid tier: " +:+ tier)))).
Proof.
  intros Hc He Ht. cbn zeta. unfold lambda_handler, required_fields.
  rewrite !filter_cons, filter_nil, Hc, He, Ht.
  rewrite !decide_False by discriminate.
  rewrite bool_decide_eq_true_2 by done.
  cbn [negb default from_option id].
  unfold Spec.isolation_tiers.
  unfold ret, raise.
  destruct (decide (tier = "pool")) as [-> | Hp].
  { rewrite bool_decide_eq_true_2 by (rewrite !elem_of_cons; auto).
    cbn beta iota. by destruct (create_admin_user _ _ _ _ _). }
  destruct (decide (tier = "bridge")) as [-> | Hb].
  { rewrite bool_decide_eq_true_2 by (rewrite !elem_of_cons; auto).
    cbn beta iota. by destruct (create_admin_user _ _ _ _ _). }
  destruct (decide (tier = "silo")) as [-> | Hs].
  { rewrite bool_decide_eq_true_2 by (rewrite !elem_of_cons; auto).
    unfold provision_silo_tenant. cbn beta iota.
    by destruct (create_admin_user _ _ _ _ _). }
  rewrite bool_decide_eq_false_2; [done |].
  rewrite !elem_of_cons, elem_of_nil. intuition.
Qed.


(** X26: a tier word other than pool, bridge and silo is found out only
    after the tenant item has been written: the answer is 500, and the new
    tenant stays in the tenants table in status provisioning, while no
    statement has been sent to the database and no user has been created. *)
Theorem onboarding_invalid_tier_leaves_record
        (new_id created updated company email tier : string)
        (body : Body Settings) (c : Cloud Settings) :
  fields Settings body !! "company_name" = Some company ->
  fields Settings body !! "admin_email" = Some email ->
  fields Settings body !! "tier" = Some tier ->
  tier ∉ Spec.isolation_tiers ->
  let after := (onboard new_id created updated body c).1 in
  (onboard new_id created updated body c).2
    = create_response 500
        (Failure "Failed to onboard tenant" (Some ("Invalid tier: " +:+ tier)))
  /\ (exists item, tenants Settings after !! new_id = Some item
        /\ item !! "status" = Some (Str "provisioning")
        /\ item !! "tier" = Some (Str tier))
  /\ (forall other, other <> new_id ->
        tenants Settings after !! other = tenants Settings c !! other)
  /\ executed_sql Settings after = executed_sql Settings c
  /\ users Settings after = users Settings c.
Proof.
  intros Hc He Ht Hbad. cbn zeta.
  rewrite (onboard_with_fields new_id created updated company email tier body c Hc He Ht).
  cbn zeta. rewrite bool_decide_eq_false_2 by done.
  cbn [fst snd]. unfold save_tenant_metadata. cbn [tenants executed_sql users].
  split; [done |]. split; [| split; [| done]].
  - eexists. split; [apply lookup_insert_eq |].
    split; by repeat (rewrite lookup_insert_ne by discriminate; try rewrite lookup_insert_eq).
  - intros other Ho. by rewrite lookup_insert_ne.
Qed.



End OnboardingFacts.

(** ** Products of product_handler.py *)

Section ProductFacts.

Import ProductHandler.

Variable V : Type.
Variable ISOLATION_MODEL : string.
Variable enforce : OrderHandler.TenantContext -> option V -> result unit.

Abbreviation fetch := (get_product V ISOLATION_MODEL enforce).
Abbreviation remove := (delete_product V ISOLATION_MODEL).
Abbreviation key_of := (product_key ISOLATION_MODEL).

(** X29: deleting a stored product is answered 200, after which reading the
    same product is answered 404 and deleting it once more is answered 404
    and changes nothing further. *)
Theorem delete_then_get
        (ctx : OrderHandler.TenantContext) (product_id : string) (item : gmap string V)
        (table : gmap (option string * string) (gmap string V)) :
  product_id <> "" ->
  table !! key_of ctx product_id = Some item ->
  let after := (remove ctx (Some product_id) table).1 in
  code V (remove ctx (Some product_id) table).2 = 200
  /\ code V (fetch ctx (Some product_id) after) = 404
  /\ remove ctx (Some product_id) after
     = (after, mkReply V 404 (Refused V "Product not found")).
Proof.
  intros Hne Hitem. cbn zeta. unfold delete_product, get_product.
  rewrite !truthy_Some by done. cbn [negb default from_option id].
  rewrite Hitem. cbn [fst snd code]. by rewrite lookup_delete_eq.
Qed.

(** X30: [delete_product] removes at most the one item under the key made
    from the context and the product id: every other item is as before, in
    particular under the pool model every item of every other tenant; and
    unless the answer is 200 (no product id: 400, no such product: 404) the
    table is unchanged. *)
Theorem delete_product_effect
        (ctx : OrderHandler.TenantContext) (path_id : option string)
        (table : gmap (option string * string) (gmap string V)) :
  (forall k, k <> key_of ctx (default "" path_id) ->
             (remove ctx path_id table).1 !! k = table !! k)
  /\ (code V (remove ctx path_id table).2 = 200
      \/ ((code V (remove ctx path_id table).2 = 400
           \/ code V (remove ctx path_id table).2 = 404)
          /\ (remove ctx path_id table).1 = table))
  /\ (ISOLATION_MODEL = "pool" ->
      forall other o, other <> OrderHandler.tenant_id ctx ->
                      (remove ctx path_id table).1 !! (Some other, o)
                      = table !! (Some other, o)).
Proof.
  assert (Hkeys : forall k, k <> key_of ctx (default "" path_id) ->
                            (remove ctx path_id table).1 !! k = table !! k).
  { intros k Hk. unfold delete_product.
    destruct (negb (truthy path_id)); [done |].
    destruct (table !! _); [| done]. cbn [fst]. by rewrite lookup_delete_ne. }
  split; [exact Hkeys |]. split.
  - unfold delete_product.
    destruct (negb (truthy path_id)); [right; auto |].
    destruct (table !! _); [by left | right; auto].
  - intros Hpool other o Hother. apply Hkeys.
    unfold product_key. rewrite decide_True by done.
    intros [= Heq _]. by apply Hother.
Qed.

End ProductFacts.

(** ** Instances of the properties above *)

Section Instances.

Import TenantContextLayer Examples MoreExamples.

Lemma no_credentials_no_handler_witness :
  with_tenant_context decode_t9 echo_handler event_empty
  = mkResponse 401 "Unauthorized" "No tenant context found in request".
Proof.
  exact (proj1 (no_credentials_no_handler decode_t9 echo_handler echo_handler
                  event_empty eq_refl eq_refl eq_refl)).
Defined.

Lemma undecodable_token_answer_witness :
  with_tenant_context decode_fail echo_handler event_with_bearer
  = mkResponse 500 "Internal Server Error" "Not enough segments".
Proof.
  exact (undecodable_token_answer decode_fail echo_handler event_with_bearer "abc"
           (DecodeError "Not enough segments") eq_refl eq_refl ltac:(discriminate)
           eq_refl).
Defined.

Lemma s3_prefixes_do_not_nest_witness : "t1" = "t1".
Proof.
  exact (s3_prefixes_do_not_nest "t1" "t1" "logo.png" "pool" "silo" None None
           eq_refl eq_refl eq_refl).
Defined.

Lemma tenant_filter_effect_witness :
  PyStr.contains "tenant_id = 'tenant-a'"
    (apply_tenant_filter "SELECT * FROM orders WHERE total > 10" pool_ctx_a) = true.
Proof.
  exact (proj1 (tenant_filter_effect "SELECT * FROM orders WHERE total > 10" pool_ctx_a
                  (or_introl eq_refl)) eq_refl).
Defined.

Lemma sql_event_cross_tenant_update_refused_witness :
  OrderService.update_order_status_event "t1" loads_example plain_set ∅ "o1"
    (PyJson.TextBody shipped_text) pool_ctx_b [row_o1 "pending"]
  = ([row_o1 "pending"],
     inr (OrderService.create_response 404 (OrderService.ErrorBody "Order not found"))).
Proof.
  apply (sql_event_cross_tenant_update_refused "t1" loads_example plain_set ∅ "o1"
           shipped_text "shipped" (<["status" := PyJson.VString "shipped"]> ∅)
           pool_ctx_b [row_o1 "pending"]).
  - reflexivity.
  - reflexivity.
  - reflexivity.
  - unfold OrderService.valid_statuses. rewrite !elem_of_cons. auto.
  - reflexivity.
  - intros row Hrow _. apply list_elem_of_singleton in Hrow. subst row. discriminate.
Defined.

Lemma sql_event_update_keeps_identity_witness :
  map OrderService.row_tenant_id
      (OrderService.update_order_status_event "t1" loads_example plain_set ∅ "o1"
         (PyJson.TextBody shipped_text) pool_ctx_a [row_o1 "pending"]).1
  = [Some "tenant-a"].
Proof.
  exact (proj1 (proj2 (proj2
           (sql_event_update_keeps_identity "t1" loads_example plain_set ∅ "o1"
              (PyJson.TextBody shipped_text) pool_ctx_a [row_o1 "pending"] eq_refl)))).
Defined.

Lemma stored_order_update_witness :
  OrderHandler.statusCode
    (OrderHandler.update_order "pool" None sns_up "t1" "t2" ctx_a (put_status "shipped")
                               (world_o1 "pending")).2 = 400
  /\ (OrderHandler.update_order "pool" None sns_up "t1" "t2" ctx_a (put_status "shipped")
                                (world_o1 "pending")).1 = world_o1 "pending".
Proof.
  exact (stored_order_update "pool" None sns_up "t1" "t2" ctx_a (put_status "shipped")
           (world_o1 "pending") "o1" "shipped" "pending" (order_o1 "pending")
           eq_refl ltac:(discriminate) eq_refl ltac:(discriminate) eq_refl eq_refl).
Defined.

Lemma update_touches_status_only_witness :
  exists item item',
    OrderHandler.table (world_o1 "pending") !! key_o1 = Some item
    /\ OrderHandler.table
         (OrderHandler.update_order "pool" None sns_up "t1" "t2" ctx_a
                                    (put_status "confirmed") (world_o1 "pending")).1
       !! key_o1 = Some item'
    /\ item' !! "tenant_id" = item !! "tenant_id".
Proof.
  destruct (update_touches_status_only "pool" None sns_up "t1" "t2" ctx_a
              (put_status "confirmed") (world_o1 "pending") "o1" key_o1 "confirmed"
              eq_refl) as (item & item' & H1 & H2 & _ & _ & Hkeep & _).
  exists item, item'. split; [exact H1 |]. split; [exact H2 |].
  apply Hkeep; discriminate.
Defined.

Lemma pool_update_isolation_witness :
  OrderHandler.table
    (OrderHandler.update_order "pool" None sns_up "t1" "t2" ctx_a (put_status "confirmed")
       (OrderHandler.mkWorld (two_tenant_table "pending") [])).1
    !! (Some "tenant-b", "o9")
  = two_tenant_table "pending" !! (Some "tenant-b", "o9").
Proof.
  exact (pool_update_isolation None sns_up "t1" "t2" ctx_a (put_status "confirmed")
           (OrderHandler.mkWorld (two_tenant_table "pending") []) "tenant-b" "o9"
           ltac:(discriminate)).
Defined.

Lemma pool_get_order_isolation_witness :
  OrderHandler.get_order "pool" allow_all ctx_a (Some "o1")
                         (OrderHandler.table (world_o1 "pending"))
  = OrderHandler.get_order "pool" allow_all ctx_a (Some "o1") (two_tenant_table "pending").
Proof.
  refine (proj1 (pool_get_order_isolation allow_all ctx_a (Some "o1")
                   (OrderHandler.table (world_o1 "pending")) (two_tenant_table "pending")
                   _)).
  intros o. unfold two_tenant_table. symmetry. apply lookup_insert_ne. discriminate.
Defined.

Lemma get_tenant_own_record_only_witness :
  TenantHandler.get_tenant string (OrderHandler.mkTenantContext "tenant-b")
                           (Some "tenant-a") tenants_table
  = TenantHandler.mkReply string 403
      (TenantHandler.Refused string "Access denied to tenant resource").
Proof.
  exact (proj1 (get_tenant_own_record_only string "tenant-b" (Some "tenant-a")
                  tenants_table)
           "tenant-a" eq_refl ltac:(discriminate) ltac:(discriminate)).
Defined.

Lemma delete_tenant_keeps_record_witness :
  TenantHandler.code string
    (TenantHandler.delete_tenant string id (OrderHandler.mkTenantContext "tenant-a")
                                 (Some "tenant-a") "t9" tenants_table).2 = 200.
Proof.
  exact (proj1 (delete_tenant_keeps_record string id "tenant-a" "t9" tenant_a_record
                  tenants_table ltac:(discriminate) eq_refl)).
Defined.

Lemma delete_tenant_edge_cases_witness :
  TenantHandler.delete_tenant string id (OrderHandler.mkTenantContext "tenant-b")
                              (Some "tenant-a") "t9" tenants_table
  = (tenants_table,
     TenantHandler.mkReply string 403 (TenantHandler.Refused string "Access denied")).
Proof.
  exact (proj1 (delete_tenant_edge_cases string id "tenant-b" "t9" (Some "tenant-a")
                  tenants_table) ltac:(discriminate)).
Defined.

Lemma tier_limits_grow_witness : 0 < 100 <= 1000 /\ (-1 = -1 \/ 1000 <= -1).
Proof.
  exact (proj2 (proj2 (tier_limits_grow "max_products")) 100 1000 (-1)
           eq_refl eq_refl eq_refl).
Defined.

Lemma silo_tables_are_per_tenant_witness :
  "orders-t1" ∉ TenantHandler.tenant_table_names "t2".
Proof.
  refine (proj1 (silo_tables_are_per_tenant "t1" "t2" ∅ "orders-t1")
            ltac:(discriminate) _).
  apply tenant_table_names_spec. by right.
Defined.

Lemma onboarding_invalid_tier_leaves_record_witness :
  (TenantOnboarding.lambda_handler unit () same_name "id-1" "t1" "t2"
     (onboarding_body "gold") empty_cloud).2
  = TenantOnboarding.create_response 500
      (TenantOnboarding.Failure "Failed to onboard tenant" (Some "Invalid tier: gold")).
Proof.
  refine (proj1 (onboarding_invalid_tier_leaves_record unit () same_name
                   "id-1" "t1" "t2" "Acme" "admin@acme.test" "gold"
                   (onboarding_body "gold") empty_cloud eq_refl eq_refl eq_refl _)).
  unfold Spec.isolation_tiers. rewrite !not_elem_of_cons.
  repeat split; try discriminate. apply not_elem_of_nil.
Defined.




Lemma delete_then_get_witness :
  ProductHandler.code string
    (ProductHandler.get_product string "pool" allow_all ctx_a (Some "p1")
       (ProductHandler.delete_product string "pool" ctx_a (Some "p1") products_table).1)
  = 404.
Proof.
  exact (proj1 (proj2 (delete_then_get string "pool" allow_all ctx_a "p1"
                         (<["name" := "Widget"]> ∅) products_table
                         ltac:(discriminate) eq_refl))).
Defined.

End Instances.
